(** * simple-vscode-vite-template: panel lifecycle, message routing and markup

    A shallow embedding of

    - [src/panels/ExamplePanel.ts]: the singleton panel ([createOrShow],
      the constructor, [dispose], [_getHtmlForWebview] and the
      [onDidReceiveMessage] listener),
    - [src/extension.ts]: the command that opens the panel,
    - [webview-ui/src/App.tsx]: the two senders of the webview,

    over an explicit store.  The store holds the static field
    [ExamplePanel.currentPanel], the heap of [ExamplePanel] objects and the
    part of the editor host the code talks to: native webview panels, event
    subscriptions, the active text editor and the random source behind
    [Math.random].  The host is an external collaborator; its calls are
    recorded in a trace, and its behaviour is modelled only where it feeds
    back into the repository's code: [WebviewPanel.dispose] marks the panel
    disposed once and fires its [onDidDispose] listeners synchronously, a
    subscription's [dispose] removes its listener, and an event fires the
    listeners subscribed to it. *)

From Stdlib Require Import ZArith String Ascii List QArith Qround Lia.
From Stdlib Require Import HexadecimalString HexadecimalZ.
From stdpp Require Import base list strings.

Open Scope string_scope.
Open Scope list_scope.
Open Scope nat_scope.

(** ** JavaScript values carried by messages *)

Module Js.

(** A message crosses the channel by structured clone: primitives and plain
    objects.  Numbers are kept integral, which is all the handlers can tell
    apart ([switch] compares with [===]). *)
#[warnings="-register-all"]
Inductive value : Type :=
| Undefined
| Null
| Bool (b : bool)
| Num (z : Z)
| Str (s : string)
| Obj (fields : list (string * value)).

Fixpoint assoc (k : string) (fields : list (string * value)) : option value :=
  match fields with
  | [] => None
  | (k', v) :: rest => if String.eqb k k' then Some v else assoc k rest
  end.

(** [v.k]: reading a property of [undefined] or [null] is a TypeError
    ([None] here); a missing property reads as [undefined]. *)
Definition get (v : value) (k : string) : option value :=
  match v with
  | Undefined | Null => None
  | Obj fields => Some (default Undefined (assoc k fields))
  | Str s => Some (if String.eqb k "length" then Num (Z.of_nat (String.length s)) else Undefined)
  | Bool _ | Num _ => Some Undefined
  end.

(** [v === 'lit']: strict equality with a string literal. *)
Definition strict_eq_str (v : value) (lit : string) : bool :=
  match v with
  | Str s => String.eqb s lit
  | _ => false
  end.

(** Truthiness of a string operand of [||]. *)
Definition or_else (s fallback : string) : string :=
  if String.eqb s EmptyString then fallback else s.

End Js.

(** ** The store *)

(** Handles of objects, native views and disposables, and a URI in its
    text form. *)
Abbreviation InstId := nat (only parsing).
Abbreviation PanelId := nat (only parsing).
Abbreviation DispId := nat (only parsing).
Abbreviation Uri := string (only parsing).

(** The two arrow functions the constructor hands to the host, as closures
    over [this]. *)
Inductive Callback : Type :=
| CbDispose (this : InstId)            (* () => this.dispose() *)
| CbMessage (this : InstId).           (* message => { switch ... } *)

Inductive EventKind : Type := OnDidDispose | OnDidReceiveMessage.

#[global] Instance EventKind_eq_dec : EqDecision EventKind.
Proof. solve_decision. Defined.

(** A [vscode.Disposable] returned by an event registration. *)
Record Subscription : Type := mkSub {
  sub_panel : PanelId;
  sub_event : EventKind;
  sub_callback : Callback;
  sub_active : bool
}.

Record WebviewOptions : Type := mkOptions {
  enableScripts : bool;
  retainContextWhenHidden : bool;
  localResourceRoots : list Uri
}.

Record WebviewPanel : Type := mkPanel {
  viewType : string;
  title : string;
  showColumn : Z;
  options : WebviewOptions;
  html : string;                       (* panel.webview.html *)
  disposed : bool
}.

(** An [ExamplePanel] object. *)
Record ExamplePanel : Type := mkExamplePanel {
  _panel : PanelId;
  _extensionUri : Uri;
  _disposables : list DispId
}.

Record TextEditor : Type := mkEditor { viewColumn : option Z }.

(** Pure services of the host: [vscode.Uri.joinPath], [webview.asWebviewUri]
    and [webview.cspSource]. *)
Record Host : Type := mkHost {
  joinPath : Uri -> list string -> Uri;
  asWebviewUri : Uri -> Uri;
  cspSource : string
}.

(** Calls of the host's operations, in program order ([PanelDispose] also
    when the host itself disposes a view the user closed).
    [AssignCurrentPanel] is not a host call: it records a write to the
    static field, so that the order of the write relative to the host calls
    can be stated. *)
Inductive Effect : Type :=
| AssignCurrentPanel (v : option InstId)
| CreateWebviewPanel (p : PanelId)
| SetHtml (p : PanelId) (doc : string)
| Subscribe (d : DispId)
| Reveal (p : PanelId) (column : option Z)
| PanelDispose (p : PanelId)
| DisposableDispose (d : DispId)
| ShowInformationMessage (arg : Js.value)
| PostMessage (p : PanelId) (msg : Js.value).

Record World : Type := mkWorld {
  currentPanel : option InstId;        (* ExamplePanel.currentPanel *)
  objects : list ExamplePanel;         (* heap of ExamplePanel objects *)
  panels : list WebviewPanel;          (* native views, by handle *)
  subscriptions : list Subscription;   (* disposables handed out by the host *)
  activeTextEditor : option TextEditor;
  random : nat -> Q;                   (* successive results of Math.random *)
  cursor : nat;                        (* how many were drawn *)
  host : Host;
  trace : list Effect
}.

Definition with_currentPanel (v : option InstId) (w : World) : World :=
  mkWorld v (objects w) (panels w) (subscriptions w) (activeTextEditor w)
          (random w) (cursor w) (host w) (trace w).
Definition with_objects (v : list ExamplePanel) (w : World) : World :=
  mkWorld (currentPanel w) v (panels w) (subscriptions w) (activeTextEditor w)
          (random w) (cursor w) (host w) (trace w).
Definition with_panels (v : list WebviewPanel) (w : World) : World :=
  mkWorld (currentPanel w) (objects w) v (subscriptions w) (activeTextEditor w)
          (random w) (cursor w) (host w) (trace w).
Definition with_subscriptions (v : list Subscription) (w : World) : World :=
  mkWorld (currentPanel w) (objects w) (panels w) v (activeTextEditor w)
          (random w) (cursor w) (host w) (trace w).
Definition with_activeTextEditor (v : option TextEditor) (w : World) : World :=
  mkWorld (currentPanel w) (objects w) (panels w) (subscriptions w) v
          (random w) (cursor w) (host w) (trace w).
Definition with_cursor (v : nat) (w : World) : World :=
  mkWorld (currentPanel w) (objects w) (panels w) (subscriptions w) (activeTextEditor w)
          (random w) v (host w) (trace w).
Definition with_trace (v : list Effect) (w : World) : World :=
  mkWorld (currentPanel w) (objects w) (panels w) (subscriptions w) (activeTextEditor w)
          (random w) (cursor w) (host w) v.

(** ** A state and error monad for the host process *)

Inductive Error : Type :=
| TypeError        (* property read of undefined or null *)
| Dangling         (* a handle that is not in the store: no JS value is one *)
| OutOfFuel.

Inductive Result (A : Type) : Type :=
| Ok (a : A)
| Throw (e : Error).
Arguments Ok {A} a.
Arguments Throw {A} e.

Definition M (A : Type) : Type := World -> Result (A * World).

Definition ret {A} (a : A) : M A := fun w => Ok (a, w).
Definition bind {A B} (c : M A) (k : A -> M B) : M B :=
  fun w => match c w with
           | Ok (a, w') => k a w'
           | Throw e => Throw e
           end.
Definition throw {A} (e : Error) : M A := fun _ => Throw e.
Definition gets {A} (f : World -> A) : M A := fun w => Ok (f w, w).
Definition modify (f : World -> World) : M unit := fun w => Ok (tt, f w).
Definition emit (e : Effect) : M unit := modify (fun w => with_trace (trace w ++ [e]) w).
Definition lift_opt {A} (e : Error) (o : option A) : M A :=
  match o with Some a => ret a | None => throw e end.

Notation "x <- c ;; k" := (bind c (fun x => k))
  (at level 100, c at next level, right associativity).
Notation "c ;;; k" := (bind c (fun _ => k))
  (at level 100, right associativity).

(** The world an action ends in, when it returns. *)
Definition exec {A} (c : M A) (w : World) : option World :=
  match c w with Ok (_, w') => Some w' | Throw _ => None end.

(** ** The host (the [vscode] API) *)

Module vscode.

(** [ViewColumn.One]. *)
Definition ViewColumn_One : Z := 1%Z.

Definition blank_panel (vt ttl : string) (col : Z) (opts : WebviewOptions) : WebviewPanel :=
  mkPanel vt ttl col opts EmptyString false.

(** [vscode.window.createWebviewPanel]: a new native view with a new handle. *)
Definition createWebviewPanel (vt ttl : string) (col : Z) (opts : WebviewOptions)
  : M PanelId :=
  p <- gets (fun w => length (panels w));;
  modify (fun w => with_panels (panels w ++ [blank_panel vt ttl col opts]) w);;;
  emit (CreateWebviewPanel p);;;
  ret p.

(** [panel.reveal(column)]. *)
Definition reveal (p : PanelId) (column : option Z) : M unit :=
  emit (Reveal p column).

Definition put_html (doc : string) (pn : WebviewPanel) : WebviewPanel :=
  mkPanel (viewType pn) (title pn) (showColumn pn) (options pn) doc (disposed pn).

(** [panel.webview.html = doc]. *)
Definition set_html (p : PanelId) (doc : string) : M unit :=
  modify (fun w => with_panels (alter (put_html doc) p (panels w)) w);;;
  emit (SetHtml p doc).

Definition push_disposable (d : DispId) (o : ExamplePanel) : ExamplePanel :=
  mkExamplePanel (_panel o) (_extensionUri o) (_disposables o ++ [d]).

(** [event(listener, null, disposables)]: registers the listener, pushes the
    resulting disposable onto the array [disposables] of [owner] and
    returns it. *)
Definition subscribe (p : PanelId) (ev : EventKind) (cb : Callback) (owner : InstId)
  : M DispId :=
  d <- gets (fun w => length (subscriptions w));;
  modify (fun w => with_subscriptions (subscriptions w ++ [mkSub p ev cb true]) w);;;
  modify (fun w => with_objects (alter (push_disposable d) owner (objects w)) w);;;
  emit (Subscribe d);;;
  ret d.

Definition listens (p : PanelId) (ev : EventKind) (s : Subscription) : bool :=
  Nat.eqb (sub_panel s) p && bool_decide (sub_event s = ev) && sub_active s.

(** The listeners currently subscribed to event [ev] of panel [p], in the
    order of registration. *)
Definition listeners (p : PanelId) (ev : EventKind) (w : World) : list Callback :=
  List.map sub_callback (List.filter (listens p ev) (subscriptions w)).

Definition deactivate (s : Subscription) : Subscription :=
  mkSub (sub_panel s) (sub_event s) (sub_callback s) false.

(** [disposable.dispose()] of a subscription: the listener is removed. *)
Definition Disposable_dispose (d : DispId) : M unit :=
  modify (fun w => with_subscriptions (alter deactivate d (subscriptions w)) w);;;
  emit (DisposableDispose d).

(** An event fires: the listeners run one after the other. *)
Fixpoint fire (run : Callback -> M unit) (cbs : list Callback) : M unit :=
  match cbs with
  | [] => ret tt
  | cb :: rest => run cb;;; fire run rest
  end.

Definition mark_disposed (pn : WebviewPanel) : WebviewPanel :=
  mkPanel (viewType pn) (title pn) (showColumn pn) (options pn) (html pn) true.

(** [panel.dispose()], also what the host does when the user closes the
    view: nothing on a disposed panel; otherwise the panel is marked
    disposed and [onDidDispose] fires. *)
Definition WebviewPanel_dispose (run : Callback -> M unit) (p : PanelId) : M unit :=
  emit (PanelDispose p);;;
  pn <- (fun w => lift_opt Dangling (panels w !! p) w);;
  if disposed pn then ret tt
  else
    modify (fun w => with_panels (alter mark_disposed p (panels w)) w);;;
    cbs <- gets (listeners p OnDidDispose);;
    fire run cbs.

(** [vscode.window.showInformationMessage(arg)]. *)
Definition showInformationMessage (arg : Js.value) : M unit :=
  emit (ShowInformationMessage arg).

(** [panel.webview.postMessage(msg)]. *)
Definition postMessage (p : PanelId) (msg : Js.value) : M unit :=
  emit (PostMessage p msg).

(** [Math.random()]. *)
Definition Math_random : M Q :=
  r <- gets (fun w => random w (cursor w));;
  modify (fun w => with_cursor (S (cursor w)) w);;;
  ret r.

End vscode.

Import vscode.

(** ** src/utils/getNonce.ts *)

(** Modelled from the spec: [src/utils/getNonce.ts], which ExamplePanel.ts
    imports, is not among the sources.  This is the digit of one draw,
    [Math.floor(Math.random() * 16).toString(16)], as the repository's guide
    (agents.md, Pattern 4) writes [getNonce]. *)
Definition hex_of_draw (r : Q) : string :=
  NilZero.string_of_int (Z.to_hex_int (Qfloor (r * 16))).

(** Modelled from the spec: [src/utils/getNonce.ts] is missing; this is
    [Array.from({ length: n }, ...).join('')] of the guide's [getNonce]:
    [n] draws, in order, one digit each. *)
Fixpoint draw_hex (n : nat) : M string :=
  match n with
  | 0 => ret EmptyString
  | S n' =>
      r <- Math_random;;
      rest <- draw_hex n';;
      ret (hex_of_draw r +:+ rest)
  end.

(** Modelled from the spec: [src/utils/getNonce.ts], which ExamplePanel.ts
    imports, is not among the sources.  The spec asks for "a fresh random
    token per render"; the repository's guide (agents.md, Pattern 4) writes
    the function as
    [Array.from({ length: 32 }, () => Math.floor(Math.random() * 16).toString(16)).join('')],
    which is what is modelled: 32 draws, in order, one hexadecimal digit
    each. *)
Definition getNonce : M string := draw_hex 32.

(** ** src/panels/ExamplePanel.ts *)

Definition dq : string := String (Ascii false true false false false true false false) EmptyString.
Definition nl : string := String (Ascii false true false true false false false false) EmptyString.

(** The value of the [content] attribute of the Content-Security-Policy
    [meta] element. *)
Definition csp_policy (csp nonce : string) : string :=
  "default-src 'none'; style-src " +:+ csp +:+ " 'unsafe-inline'; script-src 'nonce-"
    +:+ nonce +:+ "';".

(** The template literal [_getHtmlForWebview] returns; [dq] is the double
    quote and [nl] the line break of the source text. *)
Definition html_template (csp styleUri nonce scriptUri : string) : string :=
  "<!DOCTYPE html>" +:+ nl +:+
  "<html lang=" +:+ dq +:+ "en" +:+ dq +:+ ">" +:+ nl +:+
  "  <head>" +:+ nl +:+
  "    <meta charset=" +:+ dq +:+ "UTF-8" +:+ dq +:+ ">" +:+ nl +:+
  "    <meta name=" +:+ dq +:+ "viewport" +:+ dq +:+ " content=" +:+ dq +:+
         "width=device-width, initial-scale=1.0" +:+ dq +:+ ">" +:+ nl +:+
  "    <meta http-equiv=" +:+ dq +:+ "Content-Security-Policy" +:+ dq +:+ " content=" +:+ dq +:+
         csp_policy csp nonce +:+ dq +:+ ">" +:+ nl +:+
  "    <link href=" +:+ dq +:+ styleUri +:+ dq +:+ " rel=" +:+ dq +:+ "stylesheet" +:+ dq +:+ ">" +:+ nl +:+
  "    <title>Example Panel</title>" +:+ nl +:+
  "  </head>" +:+ nl +:+
  "  <body>" +:+ nl +:+
  "    <div id=" +:+ dq +:+ "root" +:+ dq +:+ "></div>" +:+ nl +:+
  "    <script type=" +:+ dq +:+ "module" +:+ dq +:+ " nonce=" +:+ dq +:+ nonce +:+ dq +:+
         " src=" +:+ dq +:+ scriptUri +:+ dq +:+ "></script>" +:+ nl +:+
  "  </body>" +:+ nl +:+
  "</html>".

(** Reading a field of [this]. *)
Definition load (this : InstId) : M ExamplePanel :=
  fun w => lift_opt Dangling (objects w !! this) w.

Definition assign_currentPanel (v : option InstId) : M unit :=
  modify (with_currentPanel v);;;
  emit (AssignCurrentPanel v).

Definition _getHtmlForWebview (this : InstId) : M string :=
  o <- load this;;
  h <- gets host;;
  let scriptUri :=
    asWebviewUri h (joinPath h (_extensionUri o) ["webview-ui"; "dist"; "assets"; "index.js"]) in
  let styleUri :=
    asWebviewUri h (joinPath h (_extensionUri o) ["webview-ui"; "dist"; "assets"; "index.css"]) in
  nonce <- getNonce;;
  ret (html_template (cspSource h) styleUri nonce scriptUri).

(** The reply of the [getData] case. *)
Definition dataResponse : Js.value :=
  Js.Obj [("command", Js.Str "dataResponse");
          ("data", Js.Obj [("message", Js.Str "Hello from extension!")])].

(** The listener given to [onDidReceiveMessage]. *)
Definition onMessage (this : InstId) (message : Js.value) : M unit :=
  command <- lift_opt TypeError (Js.get message "command");;
  if Js.strict_eq_str command "alert" then
    text <- lift_opt TypeError (Js.get message "text");;
    showInformationMessage text
  else if Js.strict_eq_str command "getData" then
    o <- load this;;
    postMessage (_panel o) dataResponse
  else ret tt.

(** [this._disposables.pop()] on a non-empty array: the rest and the last
    element. *)
Definition pop (l : list DispId) : option (list DispId * DispId) :=
  match last l with
  | Some d => Some (removelast l, d)
  | None => None
  end.

Definition put_disposables (ds : list DispId) (o : ExamplePanel) : ExamplePanel :=
  mkExamplePanel (_panel o) (_extensionUri o) ds.

(** The [while] loop of [dispose]; [fuel] bounds the number of tests of
    its condition. *)
Fixpoint dispose_loop (fuel : nat) (this : InstId) : M unit :=
  match fuel with
  | 0 => throw OutOfFuel
  | S fuel' =>
      o <- load this;;
      match pop (_disposables o) with
      | None => ret tt
      | Some (rest, disposable) =>
          modify (fun w => with_objects (alter (put_disposables rest) this (objects w)) w);;;
          Disposable_dispose disposable;;;
          dispose_loop fuel' this
      end
  end.

(** [dispose()].  [this._panel.dispose()] re-enters [dispose] through the
    [onDidDispose] listener, hence the fuel. *)
Fixpoint dispose (fuel : nat) (this : InstId) : M unit :=
  match fuel with
  | 0 => throw OutOfFuel
  | S fuel' =>
      assign_currentPanel None;;;
      o <- load this;;
      WebviewPanel_dispose
        (fun cb => match cb with
                   | CbDispose i => dispose fuel' i
                   | CbMessage i => onMessage i Js.Undefined
                   end)
        (_panel o);;;
      dispose_loop fuel this
  end.

(** Running a listener on the argument of the event. *)
Definition call (fuel : nat) (arg : Js.value) (cb : Callback) : M unit :=
  match cb with
  | CbDispose i => dispose fuel i
  | CbMessage i => onMessage i arg
  end.

(** Allocation of the object with its field initialisers:
    [_disposables = []]. *)
Definition alloc_ExamplePanel (panel : PanelId) (extensionUri : Uri) : M InstId :=
  this <- gets (fun w => length (objects w));;
  modify (fun w => with_objects (objects w ++ [mkExamplePanel panel extensionUri []]) w);;;
  ret this.

(** The body of the constructor. *)
Definition constructor_body (this : InstId) : M unit :=
  o <- load this;;
  doc <- _getHtmlForWebview this;;
  set_html (_panel o) doc;;;
  _ <- subscribe (_panel o) OnDidDispose (CbDispose this) this;;
  _ <- subscribe (_panel o) OnDidReceiveMessage (CbMessage this) this;;
  ret tt.

(** [new ExamplePanel(panel, extensionUri)]. *)
Definition new_ExamplePanel (panel : PanelId) (extensionUri : Uri) : M InstId :=
  this <- alloc_ExamplePanel panel extensionUri;;
  constructor_body this;;;
  ret this.

(** [column || vscode.ViewColumn.One]. *)
Definition column_or_One (column : option Z) : Z :=
  match column with
  | Some c => if Z.eqb c 0 then ViewColumn_One else c
  | None => ViewColumn_One
  end.

Definition createOrShow (extensionUri : Uri) : M unit :=
  ed <- gets activeTextEditor;;
  let column := match ed with Some e => viewColumn e | None => None end in
  cur <- gets currentPanel;;
  match cur with
  | Some cp =>
      o <- load cp;;
      reveal (_panel o) column
  | None =>
      h <- gets host;;
      panel <- createWebviewPanel "examplePanel" "Example Panel" (column_or_One column)
                 (mkOptions true true
                    [joinPath h extensionUri ["out"];
                     joinPath h extensionUri ["webview-ui/dist"]]);;
      this <- new_ExamplePanel panel extensionUri;;
      assign_currentPanel (Some this)
  end.

(** ** webview-ui/src/App.tsx *)

Module App.

(** The webview: the [message] state of the component and what
    [vscode.postMessage] was given, in order. *)
Record state : Type := mkState {
  message : string;
  posted : list Js.value
}.

Definition postMessage (msg : Js.value) (st : state) : state :=
  mkState (message st) (posted st ++ [msg]).

Definition setMessage (s : string) (st : state) : state :=
  mkState s (posted st).

Definition fallback : string := "Hello from webview!".

Definition handleSendMessage (st : state) : state :=
  postMessage (Js.Obj [("command", Js.Str "alert");
                       ("text", Js.Str (Js.or_else (message st) fallback))]) st.

Definition handleGetData (st : state) : state :=
  postMessage (Js.Obj [("command", Js.Str "getData")]) st.

End App.

(** ** The events of the host process *)

Inductive Event : Type :=
| OpenPanelCommand (extensionUri : Uri)      (* extension.ts: vscode-template.openPanel *)
| FocusEditor (ed : option TextEditor)       (* the active editor changes *)
| UserClose (p : PanelId)                    (* the user closes a native view *)
| WebviewMessage (p : PanelId) (message : Js.value)
| DisposeCurrent.                            (* ExamplePanel.currentPanel.dispose() *)

Definition step (fuel : nat) (ev : Event) : M unit :=
  match ev with
  | OpenPanelCommand extensionUri => createOrShow extensionUri
  | FocusEditor ed => modify (with_activeTextEditor ed)
  | UserClose p => WebviewPanel_dispose (call fuel Js.Undefined) p
  | WebviewMessage p message =>
      cbs <- gets (listeners p OnDidReceiveMessage);;
      fire (call fuel message) cbs
  | DisposeCurrent =>
      cur <- gets currentPanel;;
      match cur with
      | Some cp => dispose fuel cp
      | None => ret tt
      end
  end.

(** The process after activation: no panel, nothing allocated. *)
Definition initial (h : Host) (rnd : nat -> Q) (ed : option TextEditor) : World :=
  mkWorld None [] [] [] ed rnd 0 h [].

Inductive reachable : World -> Prop :=
| reach_initial h rnd ed : reachable (initial h rnd ed)
| reach_step w ev fuel w' :
    reachable w -> step fuel ev w = Ok (tt, w') -> reachable w'.

(** ** The two shapes of a reachable store *)

(** Handles are allocated at the end of their table, so the live panel, its
    object and its two subscriptions are the last entries. *)

Definition inactive (s : Subscription) : Prop := sub_active s = false.
Definition released (pn : WebviewPanel) : Prop := disposed pn = true.
Definition stale (ps : list WebviewPanel) (o : ExamplePanel) : Prop :=
  _disposables o = [] /\ _panel o < length ps.

Definition the_object (ps : list WebviewPanel) (ss : list Subscription) (uri : Uri)
  : ExamplePanel :=
  mkExamplePanel (length ps) uri [length ss; S (length ss)].

Definition the_subs (os : list ExamplePanel) (ps : list WebviewPanel) : list Subscription :=
  [mkSub (length ps) OnDidDispose (CbDispose (length os)) true;
   mkSub (length ps) OnDidReceiveMessage (CbMessage (length os)) true].

Definition closed_world os ps ss ed rnd cur h tr : World :=
  mkWorld None os ps ss ed rnd cur h tr.

Definition open_world os ps ss pn uri ed rnd cur h tr : World :=
  mkWorld (Some (length os)) (os ++ [the_object ps ss uri]) (ps ++ [pn])
          (ss ++ the_subs os ps) ed rnd cur h tr.

Inductive Inv : World -> Prop :=
| Inv_closed os ps ss ed rnd cur h tr :
    Forall released ps -> Forall inactive ss -> Forall (stale ps) os ->
    Inv (closed_world os ps ss ed rnd cur h tr)
| Inv_open os ps ss pn uri ed rnd cur h tr :
    Forall released ps -> Forall inactive ss -> Forall (stale ps) os ->
    disposed pn = false ->
    Inv (open_world os ps ss pn uri ed rnd cur h tr).

(** The native views that are not disposed, and the objects bound to one. *)
Definition live_views (w : World) : list WebviewPanel :=
  List.filter (fun pn => negb (disposed pn)) (panels w).

Definition is_live (w : World) (o : ExamplePanel) : bool :=
  match panels w !! _panel o with
  | Some pn => negb (disposed pn)
  | None => false
  end.

Definition live_instances (w : World) : list ExamplePanel :=
  List.filter (is_live w) (objects w).

(** What an action adds to the trace. *)
Definition effects_since (w w' : World) : list Effect :=
  drop (length (trace w)) (trace w').

Definition is_dispose_of (d : DispId) (e : Effect) : bool :=
  match e with DisposableDispose d' => Nat.eqb d d' | _ => false end.
Definition is_disposal (e : Effect) : bool :=
  match e with DisposableDispose _ => true | _ => false end.
Definition is_create (e : Effect) : bool :=
  match e with CreateWebviewPanel _ => true | _ => false end.
Definition is_notification (e : Effect) : bool :=
  match e with ShowInformationMessage _ => true | _ => false end.

Definition count (f : Effect -> bool) (evs : list Effect) : nat :=
  length (List.filter f evs).

(** The digits [getNonce] reads off the random source. *)
Fixpoint nonce_from (rnd : nat -> Q) (cur n : nat) : string :=
  match n with
  | 0 => EmptyString
  | S n' => hex_of_draw (rnd cur) +:+ nonce_from rnd (S cur) n'
  end.

(** The document a render produces from the current store. *)
Definition document (h : Host) (uri : Uri) (nonce : string) : string :=
  html_template (cspSource h)
    (asWebviewUri h (joinPath h uri ["webview-ui"; "dist"; "assets"; "index.css"]))
    nonce
    (asWebviewUri h (joinPath h uri ["webview-ui"; "dist"; "assets"; "index.js"])).

Definition the_options (h : Host) (uri : Uri) : WebviewOptions :=
  mkOptions true true [joinPath h uri ["out"]; joinPath h uri ["webview-ui/dist"]].

Definition column_of (ed : option TextEditor) : option Z :=
  match ed with Some e => viewColumn e | None => None end.

Definition the_panel (h : Host) (uri : Uri) (ed : option TextEditor) (nonce : string)
  : WebviewPanel :=
  mkPanel "examplePanel" "Example Panel" (column_or_One (column_of ed)) (the_options h uri)
          (document h uri nonce) false.

(** A run of events, stopping at the first that throws. *)
Fixpoint run_events (fuel : nat) (evs : list Event) : M unit :=
  match evs with
  | [] => ret tt
  | ev :: rest => step fuel ev;;; run_events fuel rest
  end.

(** ** A concrete host, for examples *)

Definition demo_host : Host :=
  mkHost (fun base segs => fold_left (fun a seg => a +:+ "/" +:+ seg) segs base)
         (fun u => "https://file+.vscode-resource.vscode-cdn.net" +:+ u)
         "'self' https://*.vscode-cdn.net".

(** A random source that walks through the sixteenths. *)
Definition demo_random (n : nat) : Q := (Z.of_nat (n mod 16) # 16)%Q.

Definition demo_initial : World := initial demo_host demo_random None.

(** The store after the command opened the panel once. *)
Definition demo_open : World :=
  default demo_initial (exec (run_events 4 [OpenPanelCommand "/ext"]) demo_initial).

(** What two calls of [dispose] in a row do to the cleanup actions [ds] the
    object owned before the first. *)
Definition torn_down_once (fuel : nat) (this : InstId) (ds : list DispId) (w : World) : Prop :=
  exists w1 w2,
    dispose fuel this w = Ok (tt, w1) /\
    List.filter is_disposal (effects_since w w1) = List.map DisposableDispose (rev ds) /\
    (forall d, d ∈ ds -> count (is_dispose_of d) (effects_since w w1) = 1) /\
    (exists o1, objects w1 !! this = Some o1 /\ _disposables o1 = []) /\
    dispose fuel this w1 = Ok (tt, w2) /\
    count is_disposal (effects_since w1 w2) = 0 /\
    (exists o2, objects w2 !! this = Some o2 /\ _disposables o2 = []).

(** Orderings of the effects of a teardown. *)
Definition is_release (e : Effect) : bool :=
  match e with PanelDispose _ | DisposableDispose _ => true | _ => false end.
Definition is_clear (e : Effect) : bool :=
  match e with AssignCurrentPanel None => true | _ => false end.

(** Every release comes before every clearing of the singleton. *)
Definition releases_then_clears (evs : list Effect) : Prop :=
  forall i j e c,
    evs !! i = Some e -> is_release e = true ->
    evs !! j = Some c -> is_clear c = true -> i < j.

(** ** Reading the generated document *)

Module Text.

(** Occurrences of a non-empty pattern in a text, overlapping ones
    included. *)
Fixpoint count_sub (pat s : string) : nat :=
  match s with
  | EmptyString => 0
  | String _ s' => (if String.prefix pat s then 1 else 0) + count_sub pat s'
  end.

Definition contains (s piece : string) : Prop :=
  exists before after, s = before +:+ piece +:+ after.

Fixpoint all_chars (p : ascii -> bool) (s : string) : bool :=
  match s with
  | EmptyString => true
  | String c s' => p c && all_chars p s'
  end.

(** The pieces of [s] between the characters that satisfy [sep]. *)
Fixpoint split_by (sep : ascii -> bool) (s : string) : list string :=
  match s with
  | EmptyString => [EmptyString]
  | String c s' =>
      if sep c then EmptyString :: split_by sep s'
      else match split_by sep s' with
           | piece :: rest => String c piece :: rest
           | [] => [String c EmptyString]
           end
  end.

Definition is_empty (s : string) : bool :=
  match s with EmptyString => true | _ => false end.

Definition is_semicolon : ascii -> bool := Ascii.eqb ";".
Definition is_lt : ascii -> bool := Ascii.eqb "<".

(** ASCII whitespace: tab, line feed, form feed, carriage return, space. *)
Definition is_space (c : ascii) : bool :=
  match nat_of_ascii c with
  | 9 | 10 | 12 | 13 | 32 => true
  | _ => false
  end.

Definition is_hex (c : ascii) : bool :=
  let n := nat_of_ascii c in
  (Nat.leb 48 n && Nat.leb n 57) || (Nat.leb 97 n && Nat.leb n 102).

Definition words (s : string) : list string :=
  List.filter (fun t => negb (is_empty t)) (split_by is_space s).

(** A serialized Content-Security-Policy: directives separated by [;],
    each a name followed by its source expressions. *)
Definition parse_policy (s : string) : list (string * list string) :=
  omap (fun d => match words d with
                 | [] => None
                 | name :: sources => Some (name, sources)
                 end)
       (split_by is_semicolon s).

Fixpoint directive (name : string) (policy : list (string * list string))
  : option (list string) :=
  match policy with
  | [] => None
  | (n, sources) :: rest => if String.eqb n name then Some sources else directive name rest
  end.

(** No character of [s] satisfies [p]. *)
Definition free_of (p : ascii -> bool) (s : string) : bool :=
  all_chars (fun c => negb (p c)) s.

(** The last, respectively the first, character of [s] does not satisfy
    [p]. *)
Fixpoint ends_off (p : ascii -> bool) (s : string) : bool :=
  match s with
  | EmptyString => false
  | String c EmptyString => negb (p c)
  | String _ s' => ends_off p s'
  end.

Definition starts_off (p : ascii -> bool) (s : string) : bool :=
  match s with
  | String c _ => negb (p c)
  | EmptyString => true
  end.

(** Every run of characters satisfying [p] in [s] is shorter than [k];
    [acc] is the length of the run that ends where [s] starts. *)
Fixpoint runs_below (p : ascii -> bool) (k acc : nat) (s : string) : bool :=
  match s with
  | EmptyString => Nat.ltb acc k
  | String c s' =>
      if p c then runs_below p k (S acc) s'
      else Nat.ltb acc k && runs_below p k 0 s'
  end.

(** No proper suffix of the literal [lit] is the start of an occurrence of
    [pat] that would run past its end. *)
Fixpoint no_straddle (pat lit : string) : bool :=
  match lit with
  | EmptyString => true
  | String _ lit' =>
      (String.prefix pat lit || negb (String.prefix lit pat)) && no_straddle pat lit'
  end.

End Text.

(** The literal text of the template between its substitutions. *)
Definition chunk0 : string :=
  "<!DOCTYPE html>" +:+ nl +:+
  "<html lang=" +:+ dq +:+ "en" +:+ dq +:+ ">" +:+ nl +:+
  "  <head>" +:+ nl +:+
  "    <meta charset=" +:+ dq +:+ "UTF-8" +:+ dq +:+ ">" +:+ nl +:+
  "    <meta name=" +:+ dq +:+ "viewport" +:+ dq +:+ " content=" +:+ dq +:+
         "width=device-width, initial-scale=1.0" +:+ dq +:+ ">" +:+ nl +:+
  "    <meta http-equiv=" +:+ dq +:+ "Content-Security-Policy" +:+ dq +:+ " content=" +:+ dq +:+
  "default-src 'none'; style-src ".
Definition chunk1 : string := " 'unsafe-inline'; script-src 'nonce-".
Definition chunk2 : string :=
  "';" +:+ dq +:+ ">" +:+ nl +:+ "    <link href=" +:+ dq.
Definition chunk3 : string :=
  dq +:+ " rel=" +:+ dq +:+ "stylesheet" +:+ dq +:+ ">" +:+ nl +:+
  "    <title>Example Panel</title>" +:+ nl +:+
  "  </head>" +:+ nl +:+
  "  <body>" +:+ nl +:+
  "    <div id=" +:+ dq +:+ "root" +:+ dq +:+ "></div>" +:+ nl +:+
  "    <script type=" +:+ dq +:+ "module" +:+ dq +:+ " nonce=" +:+ dq.
Definition chunk4 : string := dq +:+ " src=" +:+ dq.
Definition chunk5 : string :=
  dq +:+ "></script>" +:+ nl +:+ "  </body>" +:+ nl +:+ "</html>".

(** The elements of the document, by name. *)
Definition meta_tag (policy : string) : string :=
  "<meta http-equiv=" +:+ dq +:+ "Content-Security-Policy" +:+ dq +:+ " content=" +:+ dq +:+
  policy +:+ dq +:+ ">".
Definition link_tag (styleUri : string) : string :=
  "<link href=" +:+ dq +:+ styleUri +:+ dq +:+ " rel=" +:+ dq +:+ "stylesheet" +:+ dq +:+ ">".
Definition mount_tag : string :=
  "<div id=" +:+ dq +:+ "root" +:+ dq +:+ "></div>".
Definition script_tag (nonce scriptUri : string) : string :=
  "<script type=" +:+ dq +:+ "module" +:+ dq +:+ " nonce=" +:+ dq +:+ nonce +:+ dq +:+
  " src=" +:+ dq +:+ scriptUri +:+ dq +:+ "></script>".

(** ** webview-ui/src/hooks/useVSCodeApi.ts and the App component *)

Module Webview.

(** The page of the webview: the state of the [App] component, the ref of
    the hook, what the page did to [window], and its console.  [useRef] and
    [useState] keep their values across the renders of the mounted
    component. *)
Record state : Type := mkState {
  app : App.state;                     (* useState(''), and what postMessage was given *)
  apiRef : option nat;                 (* useRef<VSCodeApi | null>(null).current *)
  acquired : nat;                      (* calls of window.acquireVsCodeApi() that returned *)
  listeners : nat;                     (* 'message' listeners added to window *)
  console : list (string * Js.value)   (* console.log(label, value) *)
}.

Definition with_app (f : App.state -> App.state) (st : state) : state :=
  mkState (f (app st)) (apiRef st) (acquired st) (listeners st) (console st).

Definition log (label : string) (v : Js.value) (st : state) : state :=
  mkState (app st) (apiRef st) (acquired st) (listeners st) (console st ++ [(label, v)]).

(** [window.acquireVsCodeApi()]: the host hands the API out once; a second
    call throws ([None]). *)
Definition acquireVsCodeApi (st : state) : option (nat * state) :=
  if Nat.eqb (acquired st) 0
  then Some (0, mkState (app st) (apiRef st) 1 (listeners st) (console st))
  else None.

(** [window.addEventListener('message', listener)]. *)
Definition addEventListener (st : state) : state :=
  mkState (app st) (apiRef st) (acquired st) (S (listeners st)) (console st).

Definition set_apiRef (api : nat) (st : state) : state :=
  mkState (app st) (Some api) (acquired st) (listeners st) (console st).

(** The hook: the API it returns, and the page after the call. *)
Definition useVSCodeApi (st : state) : option (nat * state) :=
  match apiRef st with
  | None =>
      match acquireVsCodeApi st with
      | Some (api, st1) => Some (api, addEventListener (set_apiRef api st1))
      | None => None
      end
  | Some api => Some (api, st)
  end.

(** The listener the hook adds, on [event.data]; the flag tells whether
    it threw (a property read of [null] or [undefined]). *)
Definition listener (data : Js.value) (st : state) : state * bool :=
  let st1 := log "Received message from extension:" data st in
  match Js.get data "command" with
  | None => (st1, true)
  | Some command =>
      if Js.strict_eq_str command "dataResponse" then
        match Js.get data "data" with
        | Some d => (log "Data from extension:" d st1, false)
        | None => (st1, true)
        end
      else (st1, false)
  end.

(** A [message] event on [window]: each listener runs, whether or not an
    earlier one threw. *)
Fixpoint dispatch (n : nat) (data : Js.value) (st : state) : state :=
  match n with
  | 0 => st
  | S n' => dispatch n' data (fst (listener data st))
  end.

(** A render of [App]: the hook runs; the message state is kept. *)
Definition render (st : state) : option state :=
  match useVSCodeApi st with
  | Some (_, st') => Some st'
  | None => None
  end.

(** The page before the first render. *)
Definition initial : state :=
  mkState (App.mkState EmptyString []) None 0 0 [].

(** What happens to the page.  The input and the buttons exist once the
    component has rendered; typing sets the state, which renders again. *)
Inductive event : Type :=
| Render
| Change (s : string)
| ClickSendAlert
| ClickGetData
| Message (data : Js.value).

Definition step (ev : event) (st : state) : option state :=
  match ev with
  | Render => render st
  | Change s =>
      match apiRef st with
      | Some _ => render (with_app (App.setMessage s) st)
      | None => None
      end
  | ClickSendAlert =>
      match apiRef st with
      | Some _ => Some (with_app App.handleSendMessage st)
      | None => None
      end
  | ClickGetData =>
      match apiRef st with
      | Some _ => Some (with_app App.handleGetData st)
      | None => None
      end
  | Message data => Some (dispatch (listeners st) data st)
  end.

Fixpoint run (evs : list event) (st : state) : option state :=
  match evs with
  | [] => Some st
  | ev :: rest =>
      match step ev st with
      | Some st' => run rest st'
      | None => None
      end
  end.

(** The component has rendered: one API, one listener. *)
Definition mounted (st : state) : Prop :=
  apiRef st = Some 0 /\ acquired st = 1 /\ listeners st = 1.

End Webview.

(** ** The two sides together *)

Module Channel.

(** What the host posted to the webview of panel [p], in order. *)
Definition replies (p : PanelId) (evs : list Effect) : list Js.value :=
  omap (fun e => match e with
                 | PostMessage q msg => if Nat.eqb q p then Some msg else None
                 | _ => None
                 end) evs.

Fixpoint deliver_all (msgs : list Js.value) (st : Webview.state) : Webview.state :=
  match msgs with
  | [] => st
  | msg :: rest =>
      deliver_all rest (Webview.dispatch (Webview.listeners st) msg st)
  end.

(** An event in the page of panel [p], followed by the delivery of what the
    page posted to the host and of what the host posted back. *)
Definition exchange (fuel : nat) (p : PanelId) (ev : Webview.event)
           (w : World) (st : Webview.state) : option (World * Webview.state) :=
  match Webview.step ev st with
  | None => None
  | Some st1 =>
      let sent := drop (length (App.posted (Webview.app st)))
                       (App.posted (Webview.app st1)) in
      match run_events fuel (List.map (WebviewMessage p) sent) w with
      | Ok (_, w1) => Some (w1, deliver_all (replies p (effects_since w w1)) st1)
      | Throw _ => None
      end
  end.

End Channel.

(** ** src/extension.ts *)

Module Extension.

(** The callback [activate] registers, as a closure over the context:
    [() => ExamplePanel.createOrShow(context.extensionUri)]. *)
Inductive Command : Type :=
| OpenPanel (extensionUri : Uri).

Record Registration : Type := mkReg {
  reg_id : string;
  reg_callback : Command;
  reg_active : bool
}.

(** The extension host process: the store of the panel code, the context
    handed to [activate], the command registry and the console. *)
Record process : Type := mkProcess {
  world : World;
  extensionUri : Uri;                  (* context.extensionUri *)
  subscriptions : list nat;            (* context.subscriptions *)
  registry : list Registration;        (* vscode.commands *)
  console : list string
}.

Definition with_world (w : World) (pr : process) : process :=
  mkProcess w (extensionUri pr) (subscriptions pr) (registry pr) (console pr).

Definition console_log (line : string) (pr : process) : process :=
  mkProcess (world pr) (extensionUri pr) (subscriptions pr) (registry pr)
            (console pr ++ [line]).

Definition registered (id : string) (r : Registration) : bool :=
  String.eqb (reg_id r) id && reg_active r.

(** [vscode.commands.registerCommand(id, callback)]: throws ([None]) when
    the identifier is taken; otherwise the disposable of the registration. *)
Definition registerCommand (id : string) (cb : Command) (pr : process)
  : option (nat * process) :=
  if existsb (registered id) (registry pr) then None
  else Some (length (registry pr),
             mkProcess (world pr) (extensionUri pr) (subscriptions pr)
                       (registry pr ++ [mkReg id cb true]) (console pr)).

Definition push_subscription (d : nat) (pr : process) : process :=
  mkProcess (world pr) (extensionUri pr) (subscriptions pr ++ [d]) (registry pr)
            (console pr).

Definition activate (pr : process) : option process :=
  let pr1 := console_log ("Extension " +:+ dq +:+ "simple-vscode-vite-template" +:+ dq +:+
                          " is now active!") pr in
  match registerCommand "vscode-template.openPanel" (OpenPanel (extensionUri pr1)) pr1 with
  | Some (openPanelCommand, pr2) => Some (push_subscription openPanelCommand pr2)
  | None => None
  end.

Definition deactivate (pr : process) : process :=
  console_log ("Extension " +:+ dq +:+ "simple-vscode-vite-template" +:+ dq +:+
               " is now deactivated") pr.

Definition unregister (r : Registration) : Registration :=
  mkReg (reg_id r) (reg_callback r) false.

(** What the host does with [context.subscriptions] when the extension is
    deactivated: each disposable is disposed. *)
Definition dispose_subscriptions (pr : process) : process :=
  mkProcess (world pr) (extensionUri pr) (subscriptions pr)
            (foldr (fun d => alter unregister d) (registry pr) (subscriptions pr))
            (console pr).

Definition run_command (cb : Command) : M unit :=
  match cb with
  | OpenPanel uri => createOrShow uri
  end.

(** [vscode.commands.executeCommand(id)]: the callback registered for the
    identifier runs; [None] when there is none, or when the callback
    throws. *)
Definition executeCommand (id : string) (pr : process) : option process :=
  match List.find (registered id) (registry pr) with
  | Some r =>
      match run_command (reg_callback r) (world pr) with
      | Ok (_, w') => Some (with_world w' pr)
      | Throw _ => None
      end
  | None => None
  end.

(** The process right after the host loaded the extension. *)
Definition loaded (uri : Uri) (h : Host) (rnd : nat -> Q) (ed : option TextEditor) : process :=
  mkProcess (initial h rnd ed) uri [] [] [].

(** What happens to an activated extension. *)
Inductive event : Type :=
| Execute (id : string)
| Focus (ed : option TextEditor)
| Close (p : PanelId)
| Receive (p : PanelId) (message : Js.value)
| Shutdown.

Definition host_step (fuel : nat) (ev : Event) (pr : process) : option process :=
  match step fuel ev (world pr) with
  | Ok (_, w') => Some (with_world w' pr)
  | Throw _ => None
  end.

Definition step (fuel : nat) (ev : event) (pr : process) : option process :=
  match ev with
  | Execute id => executeCommand id pr
  | Focus ed => host_step fuel (FocusEditor ed) pr
  | Close p => host_step fuel (UserClose p) pr
  | Receive p message => host_step fuel (WebviewMessage p message) pr
  | Shutdown => Some (dispose_subscriptions (deactivate pr))
  end.

Fixpoint run (fuel : nat) (evs : list event) (pr : process) : option process :=
  match evs with
  | [] => Some pr
  | ev :: rest =>
      match step fuel ev pr with
      | Some pr' => run fuel rest pr'
      | None => None
      end
  end.

End Extension.

(** ** Bookkeeping over a whole run *)

Definition is_subscribe (e : Effect) : bool :=
  match e with Subscribe _ => true | _ => false end.

(** Effects that neither create nor release anything. *)
Definition is_quiet (e : Effect) : bool :=
  match e with
  | Reveal _ _ | PanelDispose _ | ShowInformationMessage _ | PostMessage _ _ => true
  | _ => false
  end.

(** The trace agrees with the tables: every view and every disposable was
    handed out by one call, and a disposable was disposed once if its
    listener is gone and never otherwise. *)
Definition ledger (w : World) : Prop :=
  count is_create (trace w) = length (panels w) /\
  count is_subscribe (trace w) = length (subscriptions w) /\
  (forall d s, subscriptions w !! d = Some s ->
     count (is_dispose_of d) (trace w) = if sub_active s then 0 else 1) /\
  (forall d, length (subscriptions w) <= d -> count (is_dispose_of d) (trace w) = 0).

(** A character of the pattern. *)
Definition in_pattern (pat : string) (c : ascii) : bool :=
  existsb (Ascii.eqb c) (list_ascii_of_string pat).

(** The three ways a step changes a reachable store: it adds quiet effects
    only (and maybe moves the focus); it opens the panel; it tears the
    panel down, from [dispose()] or from the host. *)
Inductive transition (ev : Event) (w w' : World) : Prop :=
| tr_quiet ed evs :
    Forall (fun e => is_quiet e = true) evs ->
    w' = with_trace (trace w ++ evs) (with_activeTextEditor ed w) ->
    transition ev w w'
| tr_open os ps ss ed rnd cur h tr uri :
    ev = OpenPanelCommand uri ->
    w = closed_world os ps ss ed rnd cur h tr ->
    w' = open_world os ps ss (the_panel h uri ed (nonce_from rnd cur 32)) uri ed rnd
           (cur + 32) h
           (tr ++ [CreateWebviewPanel (length ps);
                   SetHtml (length ps) (document h uri (nonce_from rnd cur 32));
                   Subscribe (length ss); Subscribe (S (length ss));
                   AssignCurrentPanel (Some (length os))]) ->
    transition ev w w'
| tr_teardown os ps ss pn uri ed rnd cur h tr pre :
    w = open_world os ps ss pn uri ed rnd cur h tr ->
    pre = [AssignCurrentPanel None; PanelDispose (length ps)] \/ pre = [PanelDispose (length ps)] ->
    w' = closed_world (os ++ [mkExamplePanel (length ps) uri []]) (ps ++ [mark_disposed pn])
           (ss ++ List.map deactivate (the_subs os ps)) ed rnd cur h
           (tr ++ pre ++ [AssignCurrentPanel None; PanelDispose (length ps);
                          DisposableDispose (S (length ss)); DisposableDispose (length ss)]) ->
    transition ev w w'.

(** More stores of the concrete host: after the given events. *)
Definition demo_after (evs : list Event) : World :=
  default demo_initial (exec (run_events 4 evs) demo_initial).

(** The panel was opened and closed by the user. *)
Definition demo_closed : World :=
  demo_after [OpenPanelCommand "/ext"; UserClose 0].

(** The panel was opened, disposed and opened again. *)
Definition demo_reopened : World :=
  demo_after [OpenPanelCommand "/ext"; DisposeCurrent; OpenPanelCommand "/ext"].

(** ** The page, seen from its user *)

(** Events of the page that come from its user or from React, not from
    the host. *)
Definition from_user (ev : Webview.event) : bool :=
  match ev with Webview.Message _ => false | _ => true end.

(** Two pages that differ in their console at most. *)
Definition same_page (st1 st2 : Webview.state) : Prop :=
  Webview.app st1 = Webview.app st2 /\ Webview.apiRef st1 = Webview.apiRef st2 /\
  Webview.acquired st1 = Webview.acquired st2 /\
  Webview.listeners st1 = Webview.listeners st2.

(** ** The life of the extension *)

Definition is_shutdown (ev : Extension.event) : bool :=
  match ev with Extension.Shutdown => true | _ => false end.

(** The registration [activate] makes, active or disposed. *)
Definition openPanel_registration (uri : Uri) (active : bool) : Extension.Registration :=
  Extension.mkReg "vscode-template.openPanel" (Extension.OpenPanel uri) active.

(** ** The seams of the template *)

(** No occurrence of [pat] lies across the seam between the literal text
    of the template and a substitution: none starts in the literal text and
    runs past its end, and no piece of literal text that follows a
    substitution starts with a character of [pat]. *)
Definition seam_free (pat : string) : bool :=
  forallb (Text.no_straddle pat) [chunk0; chunk1; chunk2; chunk3; chunk4] &&
  forallb (Text.starts_off (in_pattern pat)) [chunk1; chunk2; chunk3; chunk4; chunk5].

(** ** The views of a run *)

(** The [i]-th view the host was asked for, as [createOrShow] and the
    constructor make it: its type, title and options, and the document
    with the nonce of the draws [32 i], ..., [32 i + 31]. *)
Definition rendered (h : Host) (rnd : nat -> Q) (i : nat) (pn : WebviewPanel) : Prop :=
  exists uri,
    viewType pn = "examplePanel" /\ title pn = "Example Panel" /\
    options pn = the_options h uri /\
    html pn = document h uri (nonce_from rnd (32 * i) 32).

Definition views_rendered (w : World) : Prop :=
  cursor w = 32 * length (panels w) /\
  forall i pn, panels w !! i = Some pn -> rendered (host w) (random w) i pn.

(** The writes of [webview.html] on the view [p]. *)
Definition is_render_of (p : PanelId) (e : Effect) : bool :=
  match e with SetHtml q _ => Nat.eqb p q | _ => false end.

(** Each view was given its markup by one write, and holds what that write
    gave it; no markup was written for a view that does not exist. *)
Definition rendered_once (w : World) : Prop :=
  (forall i pn, panels w !! i = Some pn ->
     List.filter (is_render_of i) (trace w) = [SetHtml i (html pn)]) /\
  (forall i, length (panels w) <= i -> List.filter (is_render_of i) (trace w) = []).

(** Two states of a view that differ in [disposed] at most. *)
Definition same_view (pn pn' : WebviewPanel) : Prop :=
  viewType pn' = viewType pn /\ title pn' = title pn /\ showColumn pn' = showColumn pn /\
  options pn' = options pn /\ html pn' = html pn.

(** The store at the moment the host, having disposed the view the user
    closed, calls the listener of [onDidDispose]. *)
Definition demo_closing : World :=
  with_panels (List.map mark_disposed (panels demo_open)) demo_open.

(** * Lemmas *)

Section ListFacts.
Context {A : Type}.
Implicit Types (l r : list A) (x y : A) (f : A -> A).

Lemma lookup_snoc l x r : (l ++ x :: r) !! length l = Some x.
Proof. by apply list_lookup_middle. Qed.

Lemma lookup_snoc_S l x y r : (l ++ x :: y :: r) !! S (length l) = Some y.
Proof.
  rewrite (lookup_app_r l); [|lia].
  by replace (S (length l) - length l) with 1 by lia.
Qed.

Lemma alter_snoc f l x r : alter f (length l) (l ++ x :: r) = l ++ f x :: r.
Proof. induction l; simpl; [done|]. by f_equal. Qed.

Lemma alter_snoc_S f l x y r :
  alter f (S (length l)) (l ++ x :: y :: r) = l ++ x :: f y :: r.
Proof. induction l; simpl; [done|]. by f_equal. Qed.

Lemma drop_length_app l r : drop (length l) (l ++ r) = r.
Proof. by rewrite drop_app_length. Qed.
End ListFacts.

Lemma filter_inactive p ev ss :
  Forall inactive ss -> List.filter (listens p ev) ss = [].
Proof.
  induction 1 as [|s ss Hs _ IH]; simpl; [done|].
  unfold listens. by rewrite Hs, andb_false_r.
Qed.

Lemma filter_released ps :
  Forall released ps -> List.filter (fun pn => negb (disposed pn)) ps = [].
Proof. induction 1 as [|pn ps Hpn _ IH]; simpl; [done|]. by rewrite Hpn. Qed.

Lemma listeners_closed p ev cp os ps ss ed rnd cur h tr :
  Forall inactive ss ->
  listeners p ev (mkWorld cp os ps ss ed rnd cur h tr) = [].
Proof. intros H. unfold listeners. simpl. by rewrite filter_inactive. Qed.

Lemma listeners_open p ev cp os os' ps ps' ss ed rnd cur h tr :
  Forall inactive ss ->
  listeners p ev (mkWorld cp os' ps' (ss ++ the_subs os ps) ed rnd cur h tr) =
  if Nat.eqb (length ps) p
  then match ev with
       | OnDidDispose => [CbDispose (length os)]
       | OnDidReceiveMessage => [CbMessage (length os)]
       end
  else [].
Proof.
  intros H. unfold listeners. simpl.
  rewrite List.filter_app, filter_inactive by done.
  unfold listens. simpl. destruct (Nat.eqb (length ps) p), ev; done.
Qed.

Lemma dispose_S fuel this :
  dispose (S fuel) this =
  (assign_currentPanel None;;;
   o <- load this;;
   WebviewPanel_dispose (call fuel Js.Undefined) (_panel o);;;
   dispose_loop (S fuel) this).
Proof. reflexivity. Qed.

(** Symbolic execution of an action on a store given by its tables. *)
Ltac run :=
  repeat progress (
    unfold bind, ret, throw, gets, load, assign_currentPanel, modify, emit, lift_opt,
      WebviewPanel_dispose, Disposable_dispose, showInformationMessage, postMessage, reveal,
      createWebviewPanel, set_html, subscribe, Math_random, put_disposables, push_disposable,
      with_currentPanel, with_objects, with_panels, with_subscriptions,
      with_activeTextEditor, with_cursor, with_trace;
    cbn -[dispose dispose_loop listeners alter lookup List.filter draw_hex html_template
          Nat.eqb];
    rewrite ?lookup_snoc, ?lookup_snoc_S, ?alter_snoc, ?alter_snoc_S).


Lemma pop_snoc ds d : pop (ds ++ [d]) = Some (ds, d).
Proof. unfold pop. by rewrite last_snoc, removelast_last. Qed.

Lemma dispose_loop_S fuel this :
  dispose_loop (S fuel) this =
  (o <- load this;;
   match pop (_disposables o) with
   | None => ret tt
   | Some (rest, disposable) =>
       modify (fun w => with_objects (alter (put_disposables rest) this (objects w)) w);;;
       Disposable_dispose disposable;;;
       dispose_loop fuel this
   end).
Proof. reflexivity. Qed.

(** The loop of [dispose] on an object that owns [ds]: every entry is
    disposed, last first, and the array ends empty. *)
Lemma dispose_loop_run ds : forall fuel cp os p uri os' ps ss ed rnd cur h tr,
  length ds < fuel ->
  dispose_loop fuel (length os)
    (mkWorld cp (os ++ mkExamplePanel p uri ds :: os') ps ss ed rnd cur h tr) =
  Ok (tt, mkWorld cp (os ++ mkExamplePanel p uri [] :: os') ps
            (foldr (fun d => alter deactivate d) ss ds) ed rnd cur h
            (tr ++ List.map DisposableDispose (rev ds))).
Proof.
  induction ds as [|d ds IH] using rev_ind; intros fuel cp os p uri os' ps ss ed rnd cur h tr Hf.
  - destruct fuel as [|fuel]; [lia|].
    rewrite dispose_loop_S. unfold bind, load, lift_opt. cbn [objects].
    rewrite lookup_snoc. cbn. by rewrite app_nil_r.
  - rewrite length_app in Hf. simpl in Hf.
    destruct fuel as [|fuel]; [lia|].
    rewrite dispose_loop_S. unfold bind at 1, load, lift_opt. cbn [objects].
    rewrite lookup_snoc. cbn [ret _disposables].
    rewrite pop_snoc. run.
    rewrite IH by lia.
    rewrite foldr_app, rev_unit, <- app_assoc. reflexivity.
Qed.

Lemma dispose_open os ps ss pn uri ed rnd cur h tr fuel :
  disposed pn = false -> Forall inactive ss ->
  dispose (S (S (S (S fuel)))) (length os) (open_world os ps ss pn uri ed rnd cur h tr) =
  Ok (tt, closed_world (os ++ [mkExamplePanel (length ps) uri []]) (ps ++ [mark_disposed pn])
            (ss ++ List.map deactivate (the_subs os ps)) ed rnd cur h
            (tr ++ [AssignCurrentPanel None; PanelDispose (length ps);
                    AssignCurrentPanel None; PanelDispose (length ps);
                    DisposableDispose (S (length ss)); DisposableDispose (length ss)])).
Proof.
  intros Hpn Hss. unfold open_world, closed_world, the_object.
  rewrite dispose_S. run. rewrite Hpn. run.
  rewrite listeners_open by done. rewrite Nat.eqb_refl. run.
  rewrite dispose_S. run.
  rewrite dispose_loop_run by (simpl; lia).
  rewrite dispose_loop_run by (simpl; lia).
  unfold the_subs. cbn [foldr rev List.map app].
  rewrite alter_snoc_S, alter_snoc, <- !app_assoc. reflexivity.
Qed.

(** Too little fuel never yields a result. *)
Lemma dispose_open_starved os ps ss pn uri ed rnd cur h tr fuel r :
  disposed pn = false -> Forall inactive ss -> fuel < 4 ->
  dispose fuel (length os) (open_world os ps ss pn uri ed rnd cur h tr) <> Ok r.
Proof.
  intros Hpn Hss Hf. unfold open_world, the_object.
  destruct fuel as [|fuel]; [discriminate|].
  rewrite dispose_S. run. rewrite Hpn. run.
  rewrite listeners_open by done. rewrite Nat.eqb_refl. run.
  destruct fuel as [|fuel]; [discriminate|].
  rewrite dispose_S. run.
  destruct fuel as [|fuel].
  { rewrite dispose_loop_S. run. change (last [length ss; S (length ss)]) with (Some (S (length ss))).
    run. discriminate. }
  destruct fuel as [|fuel]; [|lia].
  rewrite dispose_loop_S. run. change (last [length ss; S (length ss)]) with (Some (S (length ss))).
  run. rewrite dispose_loop_S. run. discriminate.
Qed.

(** [dispose()] once more, on the object that was just torn down. *)
Lemma dispose_again os ps ss pn uri ed rnd cur h tr fuel cp :
  disposed pn = true ->
  dispose (S fuel) (length os)
    (mkWorld cp (os ++ [mkExamplePanel (length ps) uri []]) (ps ++ [pn]) ss ed rnd cur h tr) =
  Ok (tt, closed_world (os ++ [mkExamplePanel (length ps) uri []]) (ps ++ [pn]) ss ed rnd cur h
            (tr ++ [AssignCurrentPanel None; PanelDispose (length ps)])).
Proof.
  intros Hpn. unfold closed_world.
  rewrite dispose_S. run. rewrite Hpn. run.
  rewrite dispose_loop_S. run.
  by rewrite <- !app_assoc.
Qed.

(** The user closes the live view: the host disposes the panel, which
    runs [dispose] through the [onDidDispose] listener. *)
Lemma close_open os ps ss pn uri ed rnd cur h tr fuel :
  disposed pn = false -> Forall inactive ss ->
  WebviewPanel_dispose (call (S (S (S fuel))) Js.Undefined) (length ps)
    (open_world os ps ss pn uri ed rnd cur h tr) =
  Ok (tt, closed_world (os ++ [mkExamplePanel (length ps) uri []]) (ps ++ [mark_disposed pn])
            (ss ++ List.map deactivate (the_subs os ps)) ed rnd cur h
            (tr ++ [PanelDispose (length ps);
                    AssignCurrentPanel None; PanelDispose (length ps);
                    DisposableDispose (S (length ss)); DisposableDispose (length ss)])).
Proof.
  intros Hpn Hss. unfold open_world, closed_world, the_object.
  run. rewrite Hpn. run.
  rewrite listeners_open by done. rewrite Nat.eqb_refl. run.
  rewrite dispose_S. run.
  rewrite dispose_loop_run by (simpl; lia).
  unfold the_subs. cbn [foldr rev List.map app].
  rewrite alter_snoc_S, alter_snoc, <- !app_assoc. reflexivity.
Qed.

Lemma close_open_starved os ps ss pn uri ed rnd cur h tr fuel r :
  disposed pn = false -> Forall inactive ss -> fuel < 3 ->
  WebviewPanel_dispose (call fuel Js.Undefined) (length ps)
    (open_world os ps ss pn uri ed rnd cur h tr) <> Ok r.
Proof.
  intros Hpn Hss Hf. unfold open_world, the_object.
  run. rewrite Hpn. run.
  rewrite listeners_open by done. rewrite Nat.eqb_refl. run.
  destruct fuel as [|fuel]; [discriminate|].
  rewrite dispose_S. run.
  destruct fuel as [|fuel].
  { rewrite dispose_loop_S. run. change (last [length ss; S (length ss)]) with (Some (S (length ss))).
    run. discriminate. }
  destruct fuel as [|fuel]; [|lia].
  rewrite dispose_loop_S. run. change (last [length ss; S (length ss)]) with (Some (S (length ss))).
  run. rewrite dispose_loop_S. run. discriminate.
Qed.

(** Closing a view that is already disposed does nothing. *)
Lemma close_released run_cb p pn cp os ps ss ed rnd cur h tr :
  ps !! p = Some pn -> disposed pn = true ->
  WebviewPanel_dispose run_cb p (mkWorld cp os ps ss ed rnd cur h tr) =
  Ok (tt, mkWorld cp os ps ss ed rnd cur h (tr ++ [PanelDispose p])).
Proof. intros Hp Hpn. run. rewrite Hp. run. by rewrite Hpn. Qed.

Lemma close_dangling run_cb p cp os ps ss ed rnd cur h tr :
  ps !! p = None ->
  WebviewPanel_dispose run_cb p (mkWorld cp os ps ss ed rnd cur h tr) = Throw Dangling.
Proof. intros Hp. run. by rewrite Hp. Qed.

Lemma draw_hex_run n : forall cp os ps ss ed rnd cur h tr,
  draw_hex n (mkWorld cp os ps ss ed rnd cur h tr) =
  Ok (nonce_from rnd cur n, mkWorld cp os ps ss ed rnd (cur + n) h tr).
Proof.
  induction n as [|n IH]; intros; cbn [draw_hex nonce_from].
  - run. by rewrite Nat.add_0_r.
  - run. rewrite IH. run. by rewrite Nat.add_succ_r.
Qed.

Lemma createOrShow_closed uri os ps ss ed rnd cur h tr :
  createOrShow uri (closed_world os ps ss ed rnd cur h tr) =
  Ok (tt, open_world os ps ss (the_panel h uri ed (nonce_from rnd cur 32)) uri ed rnd
            (cur + 32) h
            (tr ++ [CreateWebviewPanel (length ps);
                    SetHtml (length ps) (document h uri (nonce_from rnd cur 32));
                    Subscribe (length ss); Subscribe (S (length ss));
                    AssignCurrentPanel (Some (length os))])).
Proof.
  unfold createOrShow, closed_world, open_world, new_ExamplePanel, alloc_ExamplePanel,
    constructor_body, _getHtmlForWebview, getNonce.
  run. rewrite draw_hex_run. run.
  rewrite !length_app. cbn [length]. rewrite !Nat.add_1_r.
  rewrite <- !app_assoc. reflexivity.
Qed.

Lemma createOrShow_open uri os ps ss pn uri0 ed rnd cur h tr :
  createOrShow uri (open_world os ps ss pn uri0 ed rnd cur h tr) =
  Ok (tt, open_world os ps ss pn uri0 ed rnd cur h (tr ++ [Reveal (length ps) (column_of ed)])).
Proof. unfold createOrShow, open_world. run. reflexivity. Qed.

(** *** The message listener *)

Lemma strict_eq_str_true v lit : Js.strict_eq_str v lit = true <-> v = Js.Str lit.
Proof.
  destruct v; simpl; try (split; [discriminate | congruence]).
  rewrite String.eqb_eq. split; congruence.
Qed.

Lemma strict_eq_str_false v lit : Js.strict_eq_str v lit = false <-> v <> Js.Str lit.
Proof.
  rewrite <- strict_eq_str_true. destruct (Js.strict_eq_str v lit); split; congruence.
Qed.

Lemma get_defined m k c k' : Js.get m k = Some c -> is_Some (Js.get m k').
Proof. destruct m; simpl; try discriminate; eauto. Qed.

Lemma onMessage_alert this m text w :
  Js.get m "command" = Some (Js.Str "alert") -> Js.get m "text" = Some text ->
  onMessage this m w = Ok (tt, with_trace (trace w ++ [ShowInformationMessage text]) w).
Proof. intros Hc Ht. unfold onMessage. run. rewrite Hc. run. rewrite Ht. reflexivity. Qed.

Lemma onMessage_getData this m o w :
  Js.get m "command" = Some (Js.Str "getData") -> objects w !! this = Some o ->
  onMessage this m w = Ok (tt, with_trace (trace w ++ [PostMessage (_panel o) dataResponse]) w).
Proof. intros Hc Ho. unfold onMessage. run. rewrite Hc. run. rewrite Ho. reflexivity. Qed.

Lemma onMessage_other this m c w :
  Js.get m "command" = Some c -> c <> Js.Str "alert" -> c <> Js.Str "getData" ->
  onMessage this m w = Ok (tt, w).
Proof.
  intros Hc Ha Hg. unfold onMessage. run. rewrite Hc. run.
  apply strict_eq_str_false in Ha, Hg. by rewrite Ha, Hg.
Qed.

Lemma onMessage_nullish this m w :
  Js.get m "command" = None -> onMessage this m w = Throw TypeError.
Proof. intros Hc. unfold onMessage. run. by rewrite Hc. Qed.

(** Whatever the message, the listener changes nothing but the trace. *)
Lemma onMessage_frame this m w w' :
  onMessage this m w = Ok (tt, w') -> exists evs, w' = with_trace (trace w ++ evs) w.
Proof.
  intros H. destruct (Js.get m "command") as [c|] eqn:Hc.
  2:{ rewrite onMessage_nullish in H by done. discriminate. }
  destruct (Js.strict_eq_str c "alert") eqn:Ha.
  { apply strict_eq_str_true in Ha. subst c.
    destruct (get_defined m "command" _ "text" Hc) as [t Ht].
    rewrite (onMessage_alert _ _ t) in H by done. inversion H. eauto. }
  destruct (Js.strict_eq_str c "getData") eqn:Hg.
  { apply strict_eq_str_true in Hg. subst c.
    destruct (objects w !! this) as [o|] eqn:Ho.
    - rewrite (onMessage_getData _ _ o) in H by done. inversion H. eauto.
    - unfold onMessage in H. revert H. run. rewrite Hc. run. rewrite Ho. discriminate. }
  apply strict_eq_str_false in Ha, Hg.
  rewrite (onMessage_other _ _ c) in H by done. inversion H. exists [].
  destruct w'. unfold with_trace. simpl. by rewrite app_nil_r.
Qed.

(** *** The invariant *)

Lemma Inv_with_trace tr w : Inv w -> Inv (with_trace tr w).
Proof. destruct 1; by constructor. Qed.

Lemma stale_grow ps pn o : stale ps o -> stale (ps ++ [pn]) o.
Proof. intros [? ?]. split; [done|]. rewrite length_app. lia. Qed.

Lemma Inv_torn_down os ps ss pn uri ed rnd cur h tr :
  Forall released ps -> Forall inactive ss -> Forall (stale ps) os ->
  Inv (closed_world (os ++ [mkExamplePanel (length ps) uri []]) (ps ++ [mark_disposed pn])
         (ss ++ List.map deactivate (the_subs os ps)) ed rnd cur h tr).
Proof.
  intros Hps Hss Hos. constructor.
  - apply Forall_app; split; [done|]. by repeat constructor.
  - apply Forall_app; split; [done|]. by repeat constructor.
  - apply Forall_app; split.
    + eapply Forall_impl; [exact Hos|]. intros o. apply stale_grow.
    + repeat constructor. simpl. rewrite length_app. simpl. lia.
Qed.

Lemma Inv_initial h rnd ed : Inv (initial h rnd ed).
Proof. by apply Inv_closed. Qed.

Lemma step_preserves fuel ev w w' : Inv w -> step fuel ev w = Ok (tt, w') -> Inv w'.
Proof.
  intros HI Hstep. destruct ev as [uri|ed'|p|p m|]; simpl in Hstep.
  - (* the command *)
    destruct HI.
    + rewrite createOrShow_closed in Hstep. inversion Hstep. by constructor.
    + rewrite createOrShow_open in Hstep. inversion Hstep. by constructor.
  - inversion Hstep. destruct HI; by constructor.
  - (* the user closes a view *)
    destruct HI as [os ps ss ed rnd cur h tr Hps Hss Hos|os ps ss pn uri ed rnd cur h tr Hps Hss Hos Hpn].
    + unfold closed_world in Hstep. destruct (ps !! p) as [pn|] eqn:Hp.
      * rewrite (close_released _ _ pn) in Hstep; [| done |].
        -- inversion Hstep. by constructor.
        -- by eapply (Forall_lookup_1 released).
      * rewrite close_dangling in Hstep by done. discriminate.
    + destruct (decide (p < length ps)) as [Hlt|Hge].
      * destruct (lookup_lt_is_Some_2 ps p Hlt) as [pn' Hp].
        unfold open_world in Hstep.
        rewrite (close_released _ _ pn') in Hstep.
        -- inversion Hstep. by apply (Inv_open os ps ss pn uri).
        -- by rewrite lookup_app_l.
        -- by eapply (Forall_lookup_1 released).
      * destruct (decide (p = length ps)) as [->|Hne].
        -- destruct (decide (fuel < 3)) as [Hf|Hf].
           { by apply close_open_starved in Hstep. }
           destruct fuel as [|[|[|fuel]]]; try lia.
           rewrite close_open in Hstep by done. inversion Hstep.
           by apply Inv_torn_down.
        -- unfold open_world in Hstep. rewrite close_dangling in Hstep; [discriminate|].
           apply lookup_ge_None. rewrite length_app. simpl. lia.
  - (* a message arrives *)
    destruct HI as [os ps ss ed rnd cur h tr Hps Hss Hos|os ps ss pn uri ed rnd cur h tr Hps Hss Hos Hpn].
    + unfold closed_world in Hstep. revert Hstep. run. rewrite listeners_closed by done.
      run. intros Hstep. inversion Hstep. by constructor.
    + unfold open_world in Hstep. revert Hstep. unfold bind at 1, gets.
      rewrite listeners_open by done.
      destruct (Nat.eqb (length ps) p).
      * cbn [fire call]. unfold bind at 1.
        destruct (onMessage _ _ _) as [[[] w1]|] eqn:Hm; [|discriminate].
        apply onMessage_frame in Hm as [evs ->]. run. intros Hstep. inversion Hstep.
        by apply (Inv_open os ps ss pn uri).
      * run. intros Hstep. inversion Hstep. by apply (Inv_open os ps ss pn uri).
  - (* dispose() on the singleton *)
    destruct HI as [os ps ss ed rnd cur h tr Hps Hss Hos|os ps ss pn uri ed rnd cur h tr Hps Hss Hos Hpn].
    + inversion Hstep. by constructor.
    + revert Hstep. unfold bind at 1, gets. cbn [open_world currentPanel].
      intros Hstep.
      destruct (decide (fuel < 4)) as [Hf|Hf].
      { by apply (dispose_open_starved os ps ss pn uri ed rnd cur h tr) in Hstep. }
      destruct fuel as [|[|[|[|fuel]]]]; try lia.
      change (dispose (S (S (S (S fuel)))) (length os) (open_world os ps ss pn uri ed rnd cur h tr)
              = Ok (tt, w')) in Hstep.
      rewrite dispose_open in Hstep by done. inversion Hstep.
      by apply Inv_torn_down.
Qed.

Lemma reachable_Inv w : reachable w -> Inv w.
Proof.
  induction 1 as [h rnd ed|w ev fuel w' _ IH Hstep].
  - apply Inv_initial.
  - by eapply step_preserves.
Qed.

(** [dispose()] on an object that owns nothing and whose view is gone. *)
Lemma dispose_stale fuel this o pn w :
  objects w !! this = Some o -> _disposables o = [] ->
  panels w !! _panel o = Some pn -> disposed pn = true ->
  dispose (S fuel) this w =
  Ok (tt, with_trace (trace w ++ [AssignCurrentPanel None; PanelDispose (_panel o)])
            (with_currentPanel None w)).
Proof.
  intros Ho Hds Hp Hpn. rewrite dispose_S. run. rewrite Ho. run. rewrite Hp. run.
  rewrite Hpn. run. rewrite dispose_loop_S. run. rewrite Ho. run.
  rewrite Hds. cbn. by rewrite <- !app_assoc.
Qed.

Lemma live_views_closed os ps ss ed rnd cur h tr :
  Forall released ps -> live_views (closed_world os ps ss ed rnd cur h tr) = [].
Proof. intros H. unfold live_views. simpl. by apply filter_released. Qed.

Lemma live_views_open os ps ss pn uri ed rnd cur h tr :
  Forall released ps -> disposed pn = false ->
  live_views (open_world os ps ss pn uri ed rnd cur h tr) = [pn].
Proof.
  intros H Hpn. unfold live_views. simpl.
  rewrite List.filter_app, filter_released by done. simpl. by rewrite Hpn.
Qed.

Lemma filter_stale w os ps :
  Forall (stale ps) os -> (forall p, p < length ps -> exists pn, panels w !! p = Some pn /\ released pn) ->
  List.filter (is_live w) os = [].
Proof.
  intros Hos Hw. induction Hos as [|o os [_ Ho] _ IH]; cbn [List.filter]; [done|].
  unfold is_live at 1. destruct (Hw _ Ho) as (pn & -> & ->). done.
Qed.

Lemma live_instances_closed os ps ss ed rnd cur h tr :
  Forall released ps -> Forall (stale ps) os ->
  live_instances (closed_world os ps ss ed rnd cur h tr) = [].
Proof.
  intros Hps Hos. unfold live_instances. simpl. apply (filter_stale _ _ ps); [done|].
  intros p Hp. destruct (lookup_lt_is_Some_2 ps p Hp) as [pn Hpn].
  exists pn. split; [done|]. by eapply (Forall_lookup_1 released).
Qed.

Lemma live_instances_open os ps ss pn uri ed rnd cur h tr :
  Forall released ps -> Forall (stale ps) os -> disposed pn = false ->
  live_instances (open_world os ps ss pn uri ed rnd cur h tr) = [the_object ps ss uri].
Proof.
  intros Hps Hos Hpn. unfold live_instances. simpl.
  rewrite List.filter_app, (filter_stale _ _ ps); [| done |].
  - simpl. unfold is_live. simpl. rewrite lookup_snoc. by rewrite Hpn.
  - intros p Hp. destruct (lookup_lt_is_Some_2 ps p Hp) as [pn' Hpn'].
    exists pn'. split; [by simpl; rewrite lookup_app_l|]. by eapply (Forall_lookup_1 released).
Qed.

Lemma effects_since_ext w evs w' :
  trace w' = trace w ++ evs -> effects_since w w' = evs.
Proof. intros H. unfold effects_since. by rewrite H, drop_length_app. Qed.

Lemma effects_since_app w tr evs w' :
  trace w = tr -> trace w' = tr ++ evs -> effects_since w w' = evs.
Proof. intros H1 H2. unfold effects_since. by rewrite H1, H2, drop_length_app. Qed.

Lemma reachable_run fuel evs : forall w w',
  reachable w -> run_events fuel evs w = Ok (tt, w') -> reachable w'.
Proof.
  induction evs as [|ev evs IH]; intros w w' Hw Hrun; cbn [run_events] in Hrun.
  - inversion Hrun. by subst.
  - unfold bind in Hrun. destruct (step fuel ev w) as [[[] w1]|] eqn:Hstep; [|discriminate].
    eapply IH; [|exact Hrun]. by eapply reach_step.
Qed.

Lemma demo_open_reachable : reachable demo_open.
Proof.
  apply (reachable_run 4 [OpenPanelCommand "/ext"] demo_initial); [constructor|].
  vm_compute. reflexivity.
Qed.

(** ** Runs on the concrete host *)

Example demo_open_store :
  currentPanel demo_open = Some 0 /\
  objects demo_open = [mkExamplePanel 0 "/ext" [0; 1]] /\
  List.map disposed (panels demo_open) = [false] /\
  List.map html (panels demo_open) =
    [document demo_host "/ext" "0123456789abcdef0123456789abcdef"] /\
  trace demo_open =
    [CreateWebviewPanel 0;
     SetHtml 0 (document demo_host "/ext" "0123456789abcdef0123456789abcdef");
     Subscribe 0; Subscribe 1; AssignCurrentPanel (Some 0)].
Proof.
  split; [vm_compute; reflexivity|].
  split; [vm_compute; reflexivity|].
  split; [vm_compute; reflexivity|].
  split; [vm_compute; reflexivity|].
  vm_compute; reflexivity.
Qed.

Example demo_dispose_effects :
  exists w1,
    dispose 4 0 demo_open = Ok (tt, w1) /\
    effects_since demo_open w1 =
      [AssignCurrentPanel None; PanelDispose 0; AssignCurrentPanel None; PanelDispose 0;
       DisposableDispose 1; DisposableDispose 0].
Proof. eexists. split; vm_compute; reflexivity. Qed.

Example demo_dispose_starved : dispose 3 0 demo_open = Throw OutOfFuel.
Proof. vm_compute. reflexivity. Qed.

Example demo_close_effects :
  exists w1,
    step 3 (UserClose 0) demo_open = Ok (tt, w1) /\
    effects_since demo_open w1 =
      [PanelDispose 0; AssignCurrentPanel None; PanelDispose 0;
       DisposableDispose 1; DisposableDispose 0] /\
    currentPanel w1 = None.
Proof. eexists. split; [vm_compute; reflexivity|]. split; vm_compute; reflexivity. Qed.

(** A message that is [null] has no properties to read: the listener
    throws before it reaches the [switch]. *)
Example demo_null_message : onMessage 0 Js.Null demo_open = Throw TypeError.
Proof. vm_compute. reflexivity. Qed.

(** * Properties of the specification *)

(** ** Panel lifecycle *)

(** C1. At most one live ExamplePanel exists at any time.  In every
    reachable store there is at most one native view that is not disposed
    and at most one object bound to one.  A call of [createOrShow] with
    [currentPanel] set only reveals the view of the existing panel: the
    store is unchanged but for the one [reveal] in the trace.  A call with
    [currentPanel] unset creates exactly one webview panel, allocates one
    object bound to it and stores that object as the singleton.  Two calls
    in succession leave exactly one live native view. *)
Theorem C1_createOrShow_singleton (w : World) (uri : Uri) :
  reachable w ->
  (length (live_views w) <= 1 /\ length (live_instances w) <= 1) /\
  (forall cp, currentPanel w = Some cp ->
     exists o, objects w !! cp = Some o /\
       createOrShow uri w =
       Ok (tt, with_trace (trace w ++ [Reveal (_panel o) (column_of (activeTextEditor w))]) w)) /\
  (currentPanel w = None ->
     exists w' o,
       createOrShow uri w = Ok (tt, w') /\
       count is_create (effects_since w w') = 1 /\
       length (panels w') = S (length (panels w)) /\
       length (objects w') = S (length (objects w)) /\
       currentPanel w' = Some (length (objects w)) /\
       objects w' !! length (objects w) = Some o /\
       _panel o = length (panels w) /\
       length (live_views w') = 1) /\
  (forall uri', exists w'',
     (createOrShow uri;;; createOrShow uri') w = Ok (tt, w'') /\
     count is_create (effects_since w w'') <= 1 /\
     length (live_views w'') = 1 /\ length (live_instances w'') = 1).
Proof.
  intros Hw. apply reachable_Inv in Hw.
  destruct Hw as [os ps ss ed rnd cur h tr Hps Hss Hos|os ps ss pn uri0 ed rnd cur h tr Hps Hss Hos Hpn].
  - rewrite live_views_closed, live_instances_closed by done.
    split; [simpl; lia|]. split; [discriminate|]. split.
    + intros _. eexists _, _. rewrite createOrShow_closed.
      split; [reflexivity|].
      rewrite live_views_open by done.
      erewrite effects_since_app; [|reflexivity|reflexivity].
      cbn [open_world panels objects currentPanel].
      rewrite !length_app, lookup_snoc. cbn. repeat split; lia.
    + intros uri'. eexists. unfold bind. rewrite createOrShow_closed, createOrShow_open.
      split; [reflexivity|].
      rewrite live_views_open, live_instances_open by done.
      erewrite effects_since_app; [|reflexivity|cbn; rewrite <- app_assoc; reflexivity].
      cbn. repeat split; lia.
  - rewrite live_views_open, live_instances_open by done.
    split; [simpl; lia|]. split; [|split; [discriminate|]].
    + intros cp Hcp. injection Hcp as <-. exists (the_object ps ss uri0).
      cbn [open_world objects]. rewrite lookup_snoc. split; [done|].
      apply createOrShow_open.
    + intros uri'. eexists. unfold bind. rewrite !createOrShow_open.
      split; [reflexivity|].
      rewrite live_views_open, live_instances_open by done.
      erewrite effects_since_app; [|reflexivity|cbn; rewrite <- app_assoc; reflexivity].
      cbn. repeat split; lia.
Qed.

Lemma C1_witness :
  reachable demo_open /\
  exists o, objects demo_open !! 0 = Some o /\
    createOrShow "/other" demo_open =
    Ok (tt, with_trace (trace demo_open ++ [Reveal (_panel o) None]) demo_open).
Proof.
  split; [exact demo_open_reachable|].
  exact (proj1 (proj2 (C1_createOrShow_singleton demo_open "/other" demo_open_reachable))
           0 eq_refl).
Defined.

Lemma torn_down_stale fuel this o pn w :
  objects w !! this = Some o -> _disposables o = [] ->
  panels w !! _panel o = Some pn -> disposed pn = true ->
  torn_down_once (S fuel) this (_disposables o) w.
Proof.
  intros Ho Hds Hp Hpn. unfold torn_down_once.
  eexists _, _. rewrite (dispose_stale fuel this o pn) by done.
  split; [reflexivity|].
  rewrite (dispose_stale fuel this o pn) by done.
  rewrite (effects_since_ext w [AssignCurrentPanel None; PanelDispose (_panel o)]) by reflexivity.
  rewrite Hds. split; [reflexivity|]. split.
  { intros d Hd. by apply elem_of_nil in Hd. }
  split; [eauto|]. split; [reflexivity|].
  rewrite (effects_since_ext _ [AssignCurrentPanel None; PanelDispose (_panel o)]) by reflexivity.
  split; [reflexivity|]. eauto.
Qed.

Lemma eqb_succ_r n : Nat.eqb n (S n) = false.
Proof. apply Nat.eqb_neq. lia. Qed.

Lemma eqb_succ_l n : Nat.eqb (S n) n = false.
Proof. apply Nat.eqb_neq. lia. Qed.

(** C4. Every cleanup action in the disposables list of a panel is invoked
    exactly once at teardown.  For any object [this] of a reachable store,
    one [dispose()] disposes the entries of [_disposables], last first and
    each exactly once, and leaves the list empty; a second [dispose()]
    disposes nothing.  The same holds when the teardown starts in the host
    (the user closes the view of the current panel). *)
Theorem C4_dispose_releases_each_once
        (w : World) (this : InstId) (o : ExamplePanel) (fuel : nat) :
  reachable w -> objects w !! this = Some o -> 4 <= fuel ->
  torn_down_once fuel this (_disposables o) w /\
  (currentPanel w = Some this ->
   exists w1,
     step fuel (UserClose (_panel o)) w = Ok (tt, w1) /\
     List.filter is_disposal (effects_since w w1) =
       List.map DisposableDispose (rev (_disposables o)) /\
     (forall d, d ∈ _disposables o -> count (is_dispose_of d) (effects_since w w1) = 1) /\
     (exists o1, objects w1 !! this = Some o1 /\ _disposables o1 = [])).
Proof.
  intros Hw Ho Hf. apply reachable_Inv in Hw.
  destruct fuel as [|[|[|[|fuel]]]]; try lia.
  destruct Hw as [os ps ss ed rnd cur h tr Hps Hss Hos|os ps ss pn uri ed rnd cur h tr Hps Hss Hos Hpn].
  - cbn [closed_world objects] in Ho. split; [|discriminate].
    destruct (Forall_lookup_1 _ _ _ _ Hos Ho) as [Hds Hp].
    destruct (lookup_lt_is_Some_2 ps _ Hp) as [pn Hpn].
    apply (torn_down_stale _ _ _ pn); try done.
    by eapply (Forall_lookup_1 released).
  - cbn [open_world objects] in Ho.
    destruct (decide (this < length os)) as [Hlt|Hge].
    + rewrite lookup_app_l in Ho by done. split.
      * destruct (Forall_lookup_1 _ _ _ _ Hos Ho) as [Hds Hp].
        destruct (lookup_lt_is_Some_2 ps _ Hp) as [pn' Hpn'].
        apply (torn_down_stale _ _ _ pn'); try done.
        -- cbn [open_world objects]. by rewrite lookup_app_l.
        -- cbn [open_world panels]. by rewrite lookup_app_l.
        -- by eapply (Forall_lookup_1 released).
      * cbn [open_world currentPanel]. intros [= <-]. lia.
    + destruct (decide (this = length os)) as [->|Hne].
      2:{ rewrite lookup_ge_None_2 in Ho; [discriminate|]. rewrite length_app. simpl. lia. }
      rewrite lookup_snoc in Ho. injection Ho as <-. cbn [the_object _disposables _panel].
      assert (Hcount : forall tr0 d, d ∈ [length ss; S (length ss)] ->
                count (is_dispose_of d)
                  (tr0 ++ [DisposableDispose (S (length ss)); DisposableDispose (length ss)])
                = count (is_dispose_of d) tr0 + 1).
      { intros tr0 d Hd. unfold count. rewrite List.filter_app, length_app. f_equal.
        apply elem_of_cons in Hd as [->|Hd]; [|apply list_elem_of_singleton in Hd as ->];
          cbn -[Nat.eqb].
        - by rewrite eqb_succ_r, Nat.eqb_refl.
        - by rewrite eqb_succ_l, Nat.eqb_refl. }
      split.
      * unfold torn_down_once. eexists _, _.
        rewrite dispose_open by done. split; [reflexivity|].
        unfold closed_world.
        rewrite dispose_again by done.
        erewrite (effects_since_ext (open_world _ _ _ _ _ _ _ _ _ _)) by reflexivity.
        split; [reflexivity|]. split.
        { intros d Hd.
          apply (Hcount [AssignCurrentPanel None; PanelDispose (length ps);
                         AssignCurrentPanel None; PanelDispose (length ps)] d Hd). }
        cbn [objects closed_world]. rewrite lookup_snoc.
        split; [eauto|]. split; [reflexivity|].
        erewrite effects_since_ext by reflexivity.
        cbn [objects closed_world]. rewrite lookup_snoc. split; [reflexivity|]. eauto.
      * intros _. cbn [step]. eexists. rewrite close_open by done.
        split; [reflexivity|].
        erewrite effects_since_ext by reflexivity.
        split; [reflexivity|]. split.
        { intros d Hd.
          apply (Hcount [PanelDispose (length ps); AssignCurrentPanel None;
                         PanelDispose (length ps)] d Hd). }
        cbn [objects closed_world]. rewrite lookup_snoc. eauto.
Qed.

Lemma C4_witness :
  (reachable demo_open /\ objects demo_open !! 0 = Some (mkExamplePanel 0 "/ext" [0; 1]) /\
   4 <= 4) /\
  torn_down_once 4 0 [0; 1] demo_open.
Proof.
  split; [split; [exact demo_open_reachable | split; [reflexivity | lia]]|].
  exact (proj1 (C4_dispose_releases_each_once demo_open 0 (mkExamplePanel 0 "/ext" [0; 1]) 4
                  demo_open_reachable eq_refl (le_n 4))).
Defined.

(** C5 (as amended). [dispose()] first clears the singleton reference and
    only then releases the native view and the cleanup actions: the first
    effect of the call is the write of [undefined] to [currentPanel], the
    second is [_panel.dispose()], and the disposals of the entries of
    [_disposables] follow, last first.  When the call returns,
    [currentPanel] is [undefined], the view is disposed and the list is
    empty. *)
Theorem C5_dispose_clears_then_releases
        (w : World) (this : InstId) (o : ExamplePanel) (fuel : nat) :
  reachable w -> objects w !! this = Some o -> 4 <= fuel ->
  exists w1 rest,
    dispose fuel this w = Ok (tt, w1) /\
    effects_since w w1 = AssignCurrentPanel None :: PanelDispose (_panel o) :: rest /\
    List.filter is_disposal rest = List.map DisposableDispose (rev (_disposables o)) /\
    currentPanel w1 = None /\
    (exists o1, objects w1 !! this = Some o1 /\ _disposables o1 = []) /\
    (exists pn, panels w1 !! _panel o = Some pn /\ disposed pn = true).
Proof.
  intros Hw Ho Hf. apply reachable_Inv in Hw.
  destruct fuel as [|[|[|[|fuel]]]]; try lia.
  assert (Hstale : forall pn, _disposables o = [] -> panels w !! _panel o = Some pn ->
                     disposed pn = true ->
            exists w1 rest,
              dispose (S (S (S (S fuel)))) this w = Ok (tt, w1) /\
              effects_since w w1 = AssignCurrentPanel None :: PanelDispose (_panel o) :: rest /\
              List.filter is_disposal rest = List.map DisposableDispose (rev (_disposables o)) /\
              currentPanel w1 = None /\
              (exists o1, objects w1 !! this = Some o1 /\ _disposables o1 = []) /\
              (exists pn, panels w1 !! _panel o = Some pn /\ disposed pn = true)).
  { intros pn Hds Hp Hpn. eexists _, [].
    rewrite (dispose_stale _ this o pn) by done. split; [reflexivity|].
    rewrite (effects_since_ext w [AssignCurrentPanel None; PanelDispose (_panel o)])
      by reflexivity.
    rewrite Hds. repeat split; eauto. }
  destruct Hw as [os ps ss ed rnd cur h tr Hps Hss Hos|os ps ss pn uri ed rnd cur h tr Hps Hss Hos Hpn].
  - cbn [closed_world objects] in Ho.
    destruct (Forall_lookup_1 _ _ _ _ Hos Ho) as [Hds Hp].
    destruct (lookup_lt_is_Some_2 ps _ Hp) as [pn Hpn].
    apply (Hstale pn); try done. by eapply (Forall_lookup_1 released).
  - cbn [open_world objects] in Ho.
    destruct (decide (this < length os)) as [Hlt|Hge].
    + rewrite lookup_app_l in Ho by done.
      destruct (Forall_lookup_1 _ _ _ _ Hos Ho) as [Hds Hp].
      destruct (lookup_lt_is_Some_2 ps _ Hp) as [pn' Hpn'].
      apply (Hstale pn'); try done.
      * cbn [open_world panels]. by rewrite lookup_app_l.
      * by eapply (Forall_lookup_1 released).
    + destruct (decide (this = length os)) as [->|Hne].
      2:{ rewrite lookup_ge_None_2 in Ho; [discriminate|]. rewrite length_app. simpl. lia. }
      rewrite lookup_snoc in Ho. injection Ho as <-. cbn [the_object _disposables _panel].
      eexists _, _. rewrite dispose_open by done. split; [reflexivity|].
      erewrite effects_since_ext by reflexivity.
      split; [reflexivity|]. split; [reflexivity|].
      cbn [closed_world currentPanel objects panels]. rewrite !lookup_snoc.
      repeat split; eauto.
Qed.

Lemma C5_witness :
  (reachable demo_open /\ objects demo_open !! 0 = Some (mkExamplePanel 0 "/ext" [0; 1]) /\
   4 <= 4) /\
  exists w1 rest,
    dispose 4 0 demo_open = Ok (tt, w1) /\
    effects_since demo_open w1 = AssignCurrentPanel None :: PanelDispose 0 :: rest /\
    currentPanel w1 = None.
Proof.
  split; [split; [exact demo_open_reachable | split; [reflexivity | lia]]|].
  destruct (C5_dispose_clears_then_releases demo_open 0 (mkExamplePanel 0 "/ext" [0; 1]) 4
              demo_open_reachable eq_refl (le_n 4))
    as (w1 & rest & H1 & H2 & _ & H3 & _).
  exists w1, rest. auto.
Defined.

(** C5, as stated, fails: in the teardown of the panel opened by the
    command, the native view is released (effect 1) after the singleton
    was cleared (effect 0), so the releases do not all precede the
    clearing. *)
Lemma C5_counterexample :
  exists w1,
    dispose 4 0 demo_open = Ok (tt, w1) /\
    ~ releases_then_clears (effects_since demo_open w1).
Proof.
  eexists. split; [vm_compute; reflexivity|].
  intros H.
  specialize (H 1 0 (PanelDispose 0) (AssignCurrentPanel None)
                eq_refl eq_refl eq_refl eq_refl).
  lia.
Qed.

(** C8. After [dispose()], the next [createOrShow] constructs a fresh
    ExamplePanel.  The call creates a native view, allocates a new object
    whose [_disposables] is empty at creation, runs the constructor body on
    it and stores it as the singleton.  The new object is not the prior
    one; the entries its list ends with are disposables the host had not
    handed out before, none of them an entry of the prior instance's list,
    each a live subscription on the new view with a listener of the new
    object; and no subscription of the prior instance is still active. *)
Theorem C8_fresh_instance_after_dispose
        (w : World) (old : InstId) (o_old : ExamplePanel) (fuel : nat) (uri : Uri) :
  reachable w -> currentPanel w = Some old -> objects w !! old = Some o_old -> 4 <= fuel ->
  exists w1 wp wa w2 new o_new,
    dispose fuel old w = Ok (tt, w1) /\
    createOrShow uri w1 = Ok (tt, w2) /\
    createWebviewPanel "examplePanel" "Example Panel"
      (column_or_One (column_of (activeTextEditor w1))) (the_options (host w1) uri) w1
      = Ok (length (panels w1), wp) /\
    alloc_ExamplePanel (length (panels w1)) uri wp = Ok (new, wa) /\
    objects wa !! new = Some (mkExamplePanel (length (panels w1)) uri []) /\
    (constructor_body new;;; assign_currentPanel (Some new)) wa = Ok (tt, w2) /\
    new <> old /\ objects w1 !! new = None /\
    currentPanel w2 = Some new /\ objects w2 !! new = Some o_new /\
    _panel o_new = length (panels w1) /\
    (forall d, d ∈ _disposables o_new ->
       (d ∉ _disposables o_old) /\ subscriptions w1 !! d = None /\
       exists s, subscriptions w2 !! d = Some s /\
         sub_panel s = _panel o_new /\ sub_active s = true /\
         (sub_callback s = CbDispose new \/ sub_callback s = CbMessage new)) /\
    (forall d s, subscriptions w2 !! d = Some s -> sub_active s = true ->
       d ∈ _disposables o_new).
Proof.
  intros Hw Hcur Ho Hf. apply reachable_Inv in Hw.
  destruct fuel as [|[|[|[|fuel]]]]; try lia.
  destruct Hw as [os ps ss ed rnd cur h tr Hps Hss Hos|os ps ss pn uri0 ed rnd cur h tr Hps Hss Hos Hpn];
    [discriminate|].
  cbn [open_world currentPanel objects] in Hcur, Ho. injection Hcur as <-.
  rewrite lookup_snoc in Ho. injection Ho as <-.
  set (os1 := os ++ [mkExamplePanel (length ps) uri0 []]).
  set (ps1 := ps ++ [mark_disposed pn]).
  set (ss1 := ss ++ List.map deactivate (the_subs os ps)).
  set (nonce := nonce_from rnd cur 32).
  set (tr1 := tr ++ [AssignCurrentPanel None; PanelDispose (length ps);
                     AssignCurrentPanel None; PanelDispose (length ps);
                     DisposableDispose (S (length ss)); DisposableDispose (length ss)]).
  exists (closed_world os1 ps1 ss1 ed rnd cur h tr1).
  exists (mkWorld None os1 (ps1 ++ [blank_panel "examplePanel" "Example Panel"
                                     (column_or_One (column_of ed)) (the_options h uri)])
            ss1 ed rnd cur h (tr1 ++ [CreateWebviewPanel (length ps1)])).
  exists (mkWorld None (os1 ++ [mkExamplePanel (length ps1) uri []])
            (ps1 ++ [blank_panel "examplePanel" "Example Panel"
                       (column_or_One (column_of ed)) (the_options h uri)])
            ss1 ed rnd cur h (tr1 ++ [CreateWebviewPanel (length ps1)])).
  eexists. exists (length os1), (the_object ps1 ss1 uri).
  split; [by apply dispose_open|].
  split; [apply createOrShow_closed|].
  split; [reflexivity|]. split; [reflexivity|].
  split; [apply lookup_snoc|].
  split.
  { unfold constructor_body, _getHtmlForWebview, getNonce, open_world, the_object, the_subs.
    run. rewrite draw_hex_run. run.
    rewrite !length_app. cbn [length]. rewrite !Nat.add_1_r.
    rewrite <- !app_assoc. reflexivity. }
  split; [unfold os1; rewrite length_app; simpl; lia|].
  split; [by apply lookup_ge_None_2|].
  split; [reflexivity|].
  split; [apply lookup_snoc|].
  split; [reflexivity|].
  split.
  - intros d Hd. cbn [the_object _disposables] in Hd |- *.
    assert (Hlen : length ss1 = S (S (length ss))).
    { unfold ss1. rewrite length_app. simpl. lia. }
    assert (Hge : length ss1 <= d).
    { apply elem_of_cons in Hd as [->|Hd]; [lia|].
      apply list_elem_of_singleton in Hd as ->. lia. }
    split.
    { intros Hin. apply elem_of_cons in Hin as [->|Hin]; [lia|].
      apply list_elem_of_singleton in Hin as ->. lia. }
    split; [by apply lookup_ge_None_2|].
    cbn [open_world subscriptions _panel]. unfold the_subs.
    apply elem_of_cons in Hd as [->|Hd]; [|apply list_elem_of_singleton in Hd as ->].
    + rewrite lookup_snoc. eexists. split; [reflexivity|]. cbn. auto.
    + rewrite lookup_snoc_S. eexists. split; [reflexivity|]. cbn. auto.
  - intros d s Hd Hs. cbn [open_world subscriptions the_object _disposables] in Hd |- *.
    assert (Hin1 : Forall inactive ss1).
    { unfold ss1. apply Forall_app. split; [done|]. by repeat constructor. }
    destruct (decide (d < length ss1)) as [Hlt|Hge].
    + rewrite lookup_app_l in Hd by done.
      pose proof (Forall_lookup_1 _ _ _ _ Hin1 Hd) as Hina. unfold inactive in Hina. congruence.
    + destruct (decide (d = length ss1)) as [->|Hne]; [apply elem_of_cons; by left|].
      destruct (decide (d = S (length ss1))) as [->|Hne2];
        [apply elem_of_cons; right; by apply list_elem_of_singleton|].
      rewrite lookup_ge_None_2 in Hd; [discriminate|].
      rewrite length_app. simpl. lia.
Qed.

Lemma C8_witness :
  (reachable demo_open /\ currentPanel demo_open = Some 0 /\
   objects demo_open !! 0 = Some (mkExamplePanel 0 "/ext" [0; 1]) /\ 4 <= 4) /\
  exists w1 w2 new o_new,
    dispose 4 0 demo_open = Ok (tt, w1) /\
    createOrShow "/ext" w1 = Ok (tt, w2) /\
    new <> 0 /\ currentPanel w2 = Some new /\ objects w2 !! new = Some o_new /\
    forall d, d ∈ _disposables o_new -> d ∉ [0; 1].
Proof.
  split; [split; [exact demo_open_reachable | repeat split; lia]|].
  destruct (C8_fresh_instance_after_dispose demo_open 0 (mkExamplePanel 0 "/ext" [0; 1]) 4
              "/ext" demo_open_reachable eq_refl eq_refl (le_n 4))
    as (w1 & wp & wa & w2 & new & o_new & H1 & H2 & _ & _ & _ & _ & H3 & _ & H4 & H5 & _ & H6 & _).
  exists w1, w2, new, o_new. repeat split; auto.
  intros d Hd. exact (proj1 (H6 d Hd)).
Defined.

(** ** Message routing *)

(** A message that arrives on the view of the current panel runs the
    listener of that panel, once; on any other view it runs nothing. *)
Lemma deliver_open fuel p m os ps ss pn uri ed rnd cur h tr :
  Forall inactive ss ->
  step fuel (WebviewMessage p m) (open_world os ps ss pn uri ed rnd cur h tr) =
  if Nat.eqb (length ps) p
  then (onMessage (length os) m;;; ret tt) (open_world os ps ss pn uri ed rnd cur h tr)
  else Ok (tt, open_world os ps ss pn uri ed rnd cur h tr).
Proof.
  intros Hss. cbn [step]. unfold bind at 1, gets. unfold open_world at 1.
  rewrite listeners_open by done. by destruct (Nat.eqb (length ps) p).
Qed.

Lemma deliver_closed fuel p m os ps ss ed rnd cur h tr :
  Forall inactive ss ->
  step fuel (WebviewMessage p m) (closed_world os ps ss ed rnd cur h tr) =
  Ok (tt, closed_world os ps ss ed rnd cur h tr).
Proof.
  intros Hss. cbn [step]. unfold bind at 1, gets. unfold closed_world at 1.
  by rewrite listeners_closed.
Qed.

(** C2 (as amended). At the host listener, [{command: 'alert', text: 'hi'}]
    gives exactly one notification, showing 'hi'.  [{command: 'alert'}]
    without a text gives exactly one call of [showInformationMessage],
    whose argument is [undefined]: the host has no fallback.  The fallback
    'Hello from webview!' is put in by the webview's sender: the message
    it posts for an empty input gives exactly one notification showing the
    fallback. *)
Theorem C2_alert_notification (this : InstId) (w : World) :
  onMessage this (Js.Obj [("command", Js.Str "alert"); ("text", Js.Str "hi")]) w =
    Ok (tt, with_trace (trace w ++ [ShowInformationMessage (Js.Str "hi")]) w) /\
  onMessage this (Js.Obj [("command", Js.Str "alert")]) w =
    Ok (tt, with_trace (trace w ++ [ShowInformationMessage Js.Undefined]) w) /\
  (forall sent, exists msg,
     App.posted (App.handleSendMessage (App.mkState EmptyString sent)) = sent ++ [msg] /\
     onMessage this msg w =
       Ok (tt, with_trace (trace w ++ [ShowInformationMessage (Js.Str "Hello from webview!")]) w)).
Proof.
  split; [by apply onMessage_alert|]. split; [by apply onMessage_alert|].
  intros sent. eexists. split; [reflexivity|]. by apply onMessage_alert.
Qed.

(** C2, as stated, fails: the listener, given [{command: 'alert'}], does
    not show the fallback. *)
Lemma C2_counterexample :
  ~ (exists w',
       onMessage 0 (Js.Obj [("command", Js.Str "alert")]) demo_open = Ok (tt, w') /\
       List.filter is_notification (effects_since demo_open w') =
         [ShowInformationMessage (Js.Str "Hello from webview!")]).
Proof.
  intros (w' & Hrun & Hshown).
  rewrite (onMessage_alert _ _ Js.Undefined) in Hrun by reflexivity.
  injection Hrun as <-.
  rewrite (effects_since_ext _ [ShowInformationMessage Js.Undefined]) in Hshown by reflexivity.
  discriminate.
Qed.

(** C3. For every inbound message whose command is 'getData', whatever
    its other fields, the listener posts exactly one message,
    [{command: 'dataResponse', data: {message: 'Hello from extension!'}}],
    to the webview of its own panel and does nothing else; in a reachable
    store, such a message arriving on the view of the current panel is
    answered on that same view. *)
Theorem C3_getData_reply (m : Js.value) :
  Js.get m "command" = Some (Js.Str "getData") ->
  (forall this o w, objects w !! this = Some o ->
     onMessage this m w =
     Ok (tt, with_trace
               (trace w ++
                [PostMessage (_panel o)
                   (Js.Obj [("command", Js.Str "dataResponse");
                            ("data", Js.Obj [("message", Js.Str "Hello from extension!")])])])
               w)) /\
  (forall w cp o fuel, reachable w -> currentPanel w = Some cp -> objects w !! cp = Some o ->
     step fuel (WebviewMessage (_panel o) m) w =
     Ok (tt, with_trace (trace w ++ [PostMessage (_panel o) dataResponse]) w)).
Proof.
  intros Hm. split.
  - intros this o w Ho. by apply onMessage_getData.
  - intros w cp o fuel Hw Hcp Ho. apply reachable_Inv in Hw.
    destruct Hw as [os ps ss ed rnd cur h tr Hps Hss Hos|os ps ss pn uri ed rnd cur h tr Hps Hss Hos Hpn];
      [discriminate|].
    cbn [open_world currentPanel objects] in Hcp, Ho. injection Hcp as <-.
    rewrite lookup_snoc in Ho. injection Ho as <-. cbn [the_object _panel].
    rewrite deliver_open, Nat.eqb_refl by done. unfold bind.
    rewrite (onMessage_getData _ _ (the_object ps ss uri)); [reflexivity|done|].
    cbn [open_world objects]. apply lookup_snoc.
Qed.

Lemma C3_witness :
  Js.get (Js.Obj [("id", Js.Num 7); ("command", Js.Str "getData")]) "command"
    = Some (Js.Str "getData") /\
  step 0 (WebviewMessage 0 (Js.Obj [("id", Js.Num 7); ("command", Js.Str "getData")])) demo_open =
  Ok (tt, with_trace (trace demo_open ++ [PostMessage 0 dataResponse]) demo_open).
Proof.
  split; [reflexivity|].
  exact (proj2 (C3_getData_reply (Js.Obj [("id", Js.Num 7); ("command", Js.Str "getData")])
                  eq_refl)
           demo_open 0 (mkExamplePanel 0 "/ext" [0; 1]) 0 demo_open_reachable eq_refl eq_refl).
Defined.




(** C10. Clicking Send Alert posts exactly one message
    [{command: 'alert', text: t}], where [t] is the input when the input is
    not empty and 'Hello from webview!' when it is: the fallback is the
    sender's.  The host listener shows the [text] of an alert exactly as
    received, whatever it is. *)
Theorem C10_sender_fallback (st : App.state) :
  (App.message st <> EmptyString ->
   App.handleSendMessage st =
   App.mkState (App.message st)
     (App.posted st ++ [Js.Obj [("command", Js.Str "alert");
                                ("text", Js.Str (App.message st))]])) /\
  (App.message st = EmptyString ->
   App.handleSendMessage st =
   App.mkState (App.message st)
     (App.posted st ++ [Js.Obj [("command", Js.Str "alert");
                                ("text", Js.Str "Hello from webview!")]])) /\
  (forall this m text w,
     Js.get m "command" = Some (Js.Str "alert") -> Js.get m "text" = Some text ->
     onMessage this m w = Ok (tt, with_trace (trace w ++ [ShowInformationMessage text]) w)).
Proof.
  split; [|split].
  - intros Hne. unfold App.handleSendMessage, App.postMessage, Js.or_else.
    apply String.eqb_neq in Hne. by rewrite Hne.
  - intros He. unfold App.handleSendMessage, App.postMessage, Js.or_else.
    by rewrite He.
  - intros this m text w Hc Ht. by apply onMessage_alert.
Qed.

Lemma C10_witness :
  ("hi" <> EmptyString /\
   App.handleSendMessage (App.mkState "hi" []) =
   App.mkState "hi" [Js.Obj [("command", Js.Str "alert"); ("text", Js.Str "hi")]]) /\
  (EmptyString = EmptyString /\
   App.handleSendMessage (App.mkState EmptyString []) =
   App.mkState EmptyString
     [Js.Obj [("command", Js.Str "alert"); ("text", Js.Str "Hello from webview!")]]) /\
  onMessage 0 (Js.Obj [("command", Js.Str "alert"); ("text", Js.Num 3)]) demo_open =
  Ok (tt, with_trace (trace demo_open ++ [ShowInformationMessage (Js.Num 3)]) demo_open).
Proof.
  split; [split; [discriminate|]|split; [split; [reflexivity|]|]].
  - refine (proj1 (C10_sender_fallback (App.mkState "hi" [])) _). discriminate.
  - exact (proj1 (proj2 (C10_sender_fallback (App.mkState EmptyString []))) eq_refl).
  - exact (proj2 (proj2 (C10_sender_fallback (App.mkState EmptyString [])))
             0 (Js.Obj [("command", Js.Str "alert"); ("text", Js.Num 3)]) (Js.Num 3) demo_open
             eq_refl eq_refl).
Defined.

(** ** Facts about texts *)

Section TextFacts.
Import Text.

Lemma append_cons (x : ascii) (a b : string) : String x a +:+ b = String x (a +:+ b).
Proof. reflexivity. Qed.

Lemma append_nil_l (b : string) : EmptyString +:+ b = b.
Proof. reflexivity. Qed.

Lemma append_assoc (a b c : string) : (a +:+ b) +:+ c = a +:+ (b +:+ c).
Proof.
  induction a as [|x a IH]; [done|].
  rewrite !append_cons. by f_equal.
Qed.


(** The template, flattened: six literal chunks around five
    substitutions. *)
Lemma html_template_flat csp styleUri nonce scriptUri :
  html_template csp styleUri nonce scriptUri =
  chunk0 +:+ csp +:+ chunk1 +:+ nonce +:+ chunk2 +:+ styleUri +:+ chunk3 +:+ nonce +:+
  chunk4 +:+ scriptUri +:+ chunk5.
Proof.
  unfold html_template, csp_policy. rewrite !append_assoc. reflexivity.
Qed.

(** *** Occurrences of a literal pattern *)

Lemma prefix_app_true pat : forall t r,
  String.prefix pat t = true -> String.prefix pat (t +:+ r) = true.
Proof.
  induction pat as [|d pat IH]; intros t r H; [by destruct (t +:+ r)|].
  destruct t as [|c t]; [discriminate|]. rewrite append_cons. simpl in *.
  destruct (ascii_dec d c); [by apply IH|discriminate].
Qed.

Lemma prefix_app_mismatch pat : forall t r,
  String.prefix t pat = false -> String.prefix pat (t +:+ r) = String.prefix pat t.
Proof.
  induction pat as [|d pat IH]; intros t r H.
  - destruct t; [discriminate|]. by rewrite append_cons.
  - destruct t as [|c t]; [discriminate|]. rewrite append_cons. simpl in *.
    destruct (ascii_dec c d) as [->|Hne].
    + destruct (ascii_dec d d); [|done]. by apply IH.
    + destruct (ascii_dec d c); [congruence|done].
Qed.

Lemma count_app_literal pat lit r :
  no_straddle pat lit = true ->
  count_sub pat (lit +:+ r) = count_sub pat lit + count_sub pat r.
Proof.
  induction lit as [|c lit IH]; intros H; [done|].
  cbn [no_straddle] in H. apply andb_true_iff in H as [H1 H2].
  rewrite append_cons. cbn [count_sub]. rewrite IH by done.
  rewrite <- append_cons.
  assert (String.prefix pat (String c lit +:+ r) = String.prefix pat (String c lit)) as ->.
  { apply orb_true_iff in H1 as [H1|H1].
    - by rewrite H1, prefix_app_true.
    - apply negb_true_iff in H1. by apply prefix_app_mismatch. }
  lia.
Qed.

Lemma count_app_free c0 pat x r :
  free_of (Ascii.eqb c0) x = true ->
  count_sub (String c0 pat) (x +:+ r) = count_sub (String c0 pat) r.
Proof.
  induction x as [|c x IH]; intros H; [done|].
  cbn [free_of all_chars] in H. apply andb_true_iff in H as [H1 H2].
  rewrite append_cons. cbn [count_sub String.prefix].
  apply negb_true_iff, Ascii.eqb_neq in H1.
  destruct (ascii_dec c0 c); [done|]. by rewrite IH.
Qed.

(** *** Splitting *)

Lemma split_by_cons sep s : exists piece rest, split_by sep s = piece :: rest.
Proof.
  induction s as [|c s (piece & rest & IH)]; simpl; [eauto|].
  destruct (sep c); [eauto|]. rewrite IH. eauto.
Qed.

Lemma split_by_app sep a c b :
  sep c = true ->
  split_by sep (a +:+ String c b) = split_by sep a ++ split_by sep b.
Proof.
  intros Hc. induction a as [|x a IH].
  - rewrite append_nil_l. simpl. by rewrite Hc.
  - rewrite append_cons. cbn [split_by]. rewrite IH.
    destruct (sep x); [done|].
    by destruct (split_by_cons sep a) as (piece & rest & ->).
Qed.

Lemma split_by_free sep s : free_of sep s = true -> split_by sep s = [s].
Proof.
  induction s as [|c s IH]; intros H; [done|].
  cbn [free_of all_chars] in H. apply andb_true_iff in H as [H1 H2].
  apply negb_true_iff in H1. cbn [split_by]. by rewrite H1, IH.
Qed.

Lemma free_of_app p a b :
  free_of p (a +:+ b) = free_of p a && free_of p b.
Proof.
  induction a as [|x a IH]; [done|].
  rewrite append_cons. unfold free_of in *. cbn [all_chars]. by rewrite IH, andb_assoc.
Qed.

Lemma free_of_cons p c s : free_of p (String c s) = negb (p c) && free_of p s.
Proof. reflexivity. Qed.

Lemma words_app a c b :
  is_space c = true -> words (a +:+ String c b) = words a ++ words b.
Proof. intros Hc. unfold words. by rewrite split_by_app, List.filter_app. Qed.

Lemma words_token t :
  free_of is_space t = true -> is_empty t = false -> words t = [t].
Proof. intros Hf He. unfold words. rewrite split_by_free by done. simpl. by rewrite He. Qed.

(** *** Occurrences of a pattern drawn from a class of characters *)

Lemma prefix_nil s : String.prefix EmptyString s = true.
Proof. by destruct s. Qed.

Lemma prefix_app_ends p pat :
  all_chars p pat = true ->
  forall x b, ends_off p x = true -> String.prefix pat (x +:+ b) = String.prefix pat x.
Proof.
  induction pat as [|d pat IH]; intros Hpat x b Hx; [by rewrite !prefix_nil|].
  cbn [all_chars] in Hpat. apply andb_true_iff in Hpat as [Hd Hpat].
  destruct x as [|c x]; [discriminate|]. rewrite append_cons. cbn [String.prefix].
  destruct (ascii_dec d c) as [->|Hne]; [|done].
  destruct x as [|c' x].
  - cbn [ends_off] in Hx. rewrite Hd in Hx. discriminate.
  - by apply IH.
Qed.

Lemma prefix_app_starts p pat :
  all_chars p pat = true ->
  forall x b, starts_off p b = true -> String.prefix pat (x +:+ b) = String.prefix pat x.
Proof.
  induction pat as [|d pat IH]; intros Hpat x b Hb; [by rewrite !prefix_nil|].
  cbn [all_chars] in Hpat. apply andb_true_iff in Hpat as [Hd Hpat].
  destruct x as [|c x].
  - rewrite append_nil_l. destruct b as [|c b]; [done|]. cbn [String.prefix starts_off] in *.
    destruct (ascii_dec d c) as [->|Hne]; [|done].
    rewrite Hd in Hb. discriminate.
  - rewrite append_cons. cbn [String.prefix].
    destruct (ascii_dec d c); [by apply IH|done].
Qed.

Lemma count_app_ends p pat x b :
  all_chars p pat = true -> ends_off p x = true ->
  count_sub pat (x +:+ b) = count_sub pat x + count_sub pat b.
Proof.
  intros Hpat. induction x as [|c x IH]; intros Hx; [discriminate|].
  rewrite append_cons. cbn [count_sub]. rewrite <- append_cons.
  rewrite (prefix_app_ends p) by done.
  destruct x as [|c' x].
  - rewrite append_nil_l. cbn [count_sub]. lia.
  - rewrite IH by done. lia.
Qed.

Lemma count_app_starts p pat x b :
  all_chars p pat = true -> starts_off p b = true ->
  count_sub pat (x +:+ b) = count_sub pat x + count_sub pat b.
Proof.
  intros Hpat Hb. induction x as [|c x IH]; [done|].
  rewrite append_cons. cbn [count_sub]. rewrite <- append_cons.
  rewrite (prefix_app_starts p), IH by done. lia.
Qed.

Lemma prefix_length pat : forall s,
  String.prefix pat s = true -> String.length pat <= String.length s.
Proof.
  induction pat as [|d pat IH]; intros s H; [simpl; lia|].
  destruct s as [|c s]; [discriminate|]. cbn [String.prefix] in H.
  destruct (ascii_dec d c); [|discriminate]. apply IH in H. simpl. lia.
Qed.

Lemma prefix_refl s : String.prefix s s = true.
Proof.
  induction s as [|c s IH]; [done|]. cbn [String.prefix].
  by destruct (ascii_dec c c).
Qed.

Lemma count_short pat s :
  String.length s < String.length pat -> count_sub pat s = 0.
Proof.
  induction s as [|c s IH]; intros H; [done|]. cbn [count_sub].
  destruct (String.prefix pat (String c s)) eqn:Hp.
  - apply prefix_length in Hp. lia.
  - rewrite IH; [done|]. simpl in H. lia.
Qed.

Lemma count_self pat : pat <> EmptyString -> count_sub pat pat = 1.
Proof.
  destruct pat as [|c pat]; [done|]. intros _. cbn [count_sub].
  rewrite prefix_refl, count_short; [done|]. simpl. lia.
Qed.

Lemma runs_below_full p k s : forall acc, k <= acc -> runs_below p k acc s = false.
Proof.
  induction s as [|c s IH]; intros acc Hk; cbn [runs_below].
  - by apply Nat.ltb_ge.
  - destruct (p c); [apply IH; lia|]. apply andb_false_iff. left. by apply Nat.ltb_ge.
Qed.

Lemma runs_below_prefix p k pat :
  all_chars p pat = true ->
  forall s acc, String.prefix pat s = true -> k <= acc + String.length pat ->
    runs_below p k acc s = false.
Proof.
  induction pat as [|d pat IH]; intros Hpat s acc Hs Hk.
  - apply runs_below_full. simpl in Hk. lia.
  - cbn [all_chars] in Hpat. apply andb_true_iff in Hpat as [Hd Hpat].
    destruct s as [|c s]; [discriminate|]. cbn [String.prefix] in Hs.
    destruct (ascii_dec d c) as [<-|]; [|discriminate].
    cbn [runs_below]. rewrite Hd. apply IH; [done..|]. simpl in Hk. lia.
Qed.

(** A pattern of [k] characters of the class does not occur in a text
    whose runs of the class are shorter than [k]. *)
Lemma count_runs_below p k pat s :
  all_chars p pat = true -> String.length pat = k ->
  forall acc, runs_below p k acc s = true -> count_sub pat s = 0.
Proof.
  intros Hpat Hk. induction s as [|c s IH]; intros acc H; [done|].
  cbn [count_sub].
  destruct (String.prefix pat (String c s)) eqn:Hp.
  { rewrite (runs_below_prefix p k pat) in H; [discriminate|done..|lia]. }
  cbn [runs_below] in H. destruct (p c).
  - by rewrite (IH _ H).
  - apply andb_true_iff in H as [_ H]. by rewrite (IH _ H).
Qed.

(** *** The policy of the template *)

Lemma csp_policy_split csp nonce :
  csp_policy csp nonce =
  "default-src 'none'" +:+ String ";"
    ((" style-src" +:+ String " " (csp +:+ String " " "'unsafe-inline'")) +:+ String ";"
       ((" script-src" +:+ String " " ("'nonce-" +:+ nonce +:+ "'")) +:+ String ";"
          EmptyString)).
Proof.
  unfold csp_policy.
  repeat rewrite ?append_cons, ?append_nil_l, ?append_assoc. reflexivity.
Qed.

Lemma parse_policy_csp csp nonce :
  free_of is_semicolon csp = true ->
  free_of is_semicolon nonce = true -> free_of is_space nonce = true ->
  parse_policy (csp_policy csp nonce) =
  [("default-src", ["'none'"]);
   ("style-src", words csp ++ ["'unsafe-inline'"]);
   ("script-src", ["'nonce-" +:+ nonce +:+ "'"])].
Proof.
  intros Hcsp Hn1 Hn2. rewrite csp_policy_split. unfold parse_policy.
  rewrite !split_by_app by reflexivity.
  rewrite (split_by_free _ "default-src 'none'") by reflexivity.
  rewrite (split_by_free _ (" style-src" +:+ _)).
  2:{ repeat rewrite ?free_of_app, ?free_of_cons. rewrite Hcsp. reflexivity. }
  rewrite (split_by_app _ (" script-src" +:+ _) ";" EmptyString) by reflexivity.
  rewrite (split_by_free _ (" script-src" +:+ _)).
  2:{ repeat rewrite ?free_of_app, ?free_of_cons. rewrite Hn1. reflexivity. }
  cbn [split_by app omap list_omap].
  rewrite !words_app by reflexivity.
  rewrite (words_token ("'nonce-" +:+ _)).
  2:{ repeat rewrite ?free_of_app, ?free_of_cons. rewrite Hn2. reflexivity. }
  2:{ reflexivity. }
  reflexivity.
Qed.

Lemma contains_skip a s piece : contains s piece -> contains (a +:+ s) piece.
Proof.
  intros (before & after & ->). exists (a +:+ before), after. by rewrite append_assoc.
Qed.

Lemma contains_head piece after : contains (piece +:+ after) piece.
Proof. by exists EmptyString, after. Qed.

(** The template, line by line, with its elements named. *)
Lemma html_template_lines csp styleUri nonce scriptUri :
  html_template csp styleUri nonce scriptUri =
  "<!DOCTYPE html>" +:+ nl +:+
  "<html lang=" +:+ dq +:+ "en" +:+ dq +:+ ">" +:+ nl +:+
  "  <head>" +:+ nl +:+
  "    <meta charset=" +:+ dq +:+ "UTF-8" +:+ dq +:+ ">" +:+ nl +:+
  "    <meta name=" +:+ dq +:+ "viewport" +:+ dq +:+ " content=" +:+ dq +:+
         "width=device-width, initial-scale=1.0" +:+ dq +:+ ">" +:+ nl +:+
  "    " +:+ meta_tag (csp_policy csp nonce) +:+ nl +:+
  "    " +:+ link_tag styleUri +:+ nl +:+
  "    <title>Example Panel</title>" +:+ nl +:+
  "  </head>" +:+ nl +:+
  "  <body>" +:+ nl +:+
  "    " +:+ mount_tag +:+ nl +:+
  "    " +:+ script_tag nonce scriptUri +:+ nl +:+
  "  </body>" +:+ nl +:+
  "</html>".
Proof.
  unfold html_template, meta_tag, link_tag, mount_tag, script_tag.
  rewrite !append_assoc. reflexivity.
Qed.

(** *** Tags of the template *)

(** A pattern that starts with [<] occurs in the document as often as in
    its literal chunks, when the substituted texts have no [<]. *)
Lemma count_in_template pat csp styleUri nonce scriptUri :
  free_of is_lt csp = true -> free_of is_lt styleUri = true ->
  free_of is_lt nonce = true -> free_of is_lt scriptUri = true ->
  no_straddle (String "<" pat) chunk0 = true -> no_straddle (String "<" pat) chunk1 = true ->
  no_straddle (String "<" pat) chunk2 = true -> no_straddle (String "<" pat) chunk3 = true ->
  no_straddle (String "<" pat) chunk4 = true ->
  count_sub (String "<" pat) (html_template csp styleUri nonce scriptUri) =
  count_sub (String "<" pat) chunk0 + count_sub (String "<" pat) chunk1 +
  count_sub (String "<" pat) chunk2 + count_sub (String "<" pat) chunk3 +
  count_sub (String "<" pat) chunk4 + count_sub (String "<" pat) chunk5.
Proof.
  intros Hc Hs Hn Hj H0 H1 H2 H3 H4. rewrite html_template_flat.
  rewrite (count_app_literal _ chunk0), (count_app_free "<" pat csp) by done.
  rewrite (count_app_literal _ chunk1), (count_app_free "<" pat nonce) by done.
  rewrite (count_app_literal _ chunk2), (count_app_free "<" pat styleUri) by done.
  rewrite (count_app_literal _ chunk3), (count_app_free "<" pat nonce) by done.
  rewrite (count_app_literal _ chunk4), (count_app_free "<" pat scriptUri) by done.
  lia.
Qed.

(** A nonce of 32 hexadecimal digits occurs in the document at its two
    substitutions and nowhere else, unless a text of the host holds it. *)
Lemma count_nonce_in_template csp styleUri nonce scriptUri :
  all_chars is_hex nonce = true -> String.length nonce = 32 ->
  count_sub nonce (html_template csp styleUri nonce scriptUri) =
  2 + count_sub nonce csp + count_sub nonce styleUri + count_sub nonce scriptUri.
Proof.
  intros Hhex Hlen. rewrite html_template_flat.
  assert (Hne : nonce <> EmptyString) by (by destruct nonce).
  assert (Hlit : forall lit, runs_below is_hex 32 0 lit = true -> count_sub nonce lit = 0).
  { intros lit H. by apply (count_runs_below is_hex 32 nonce lit Hhex Hlen 0). }
  rewrite (count_app_ends is_hex nonce chunk0) by done.
  rewrite (count_app_starts is_hex nonce csp) by done.
  rewrite (count_app_ends is_hex nonce chunk1) by done.
  rewrite (count_app_starts is_hex nonce nonce) by done.
  rewrite (count_app_ends is_hex nonce chunk2) by done.
  rewrite (count_app_starts is_hex nonce styleUri) by done.
  rewrite (count_app_ends is_hex nonce chunk3) by done.
  rewrite (count_app_starts is_hex nonce nonce) by done.
  rewrite (count_app_ends is_hex nonce chunk4) by done.
  rewrite (count_app_starts is_hex nonce scriptUri) by done.
  rewrite (count_self nonce) by done.
  rewrite (Hlit chunk0), (Hlit chunk1), (Hlit chunk2), (Hlit chunk3), (Hlit chunk4),
    (Hlit chunk5) by (vm_compute; reflexivity).
  lia.
Qed.

End TextFacts.

(** Walks down a right-nested concatenation to the piece looked for. *)
Ltac find_piece := repeat first [apply contains_head | apply contains_skip].

(** ** Markup *)

(** What a render returns and does to the store: the template, filled in
    with the host's locations and 32 fresh draws. *)
Lemma getHtmlForWebview_run this o w :
  objects w !! this = Some o ->
  _getHtmlForWebview this w =
  Ok (document (host w) (_extensionUri o) (nonce_from (random w) (cursor w) 32),
      with_cursor (cursor w + 32) w).
Proof.
  intros Ho. destruct w as [cp os ps ss ed rnd cur h tr]. simpl in Ho.
  unfold _getHtmlForWebview, getNonce. run. rewrite Ho. run.
  rewrite draw_hex_run. reflexivity.
Qed.

(** C7 (as amended). The markup generator returns the template, filled in
    with [cspSource], the locations of the stylesheet and of the script,
    and a nonce.  The document is the fixed skeleton around its five
    substitutions.  Its Content-Security-Policy, carried by the one [meta]
    element of that name, has exactly three directives: [default-src
    'none'] denies every source by default; [style-src] allows the sources
    of [cspSource] and, besides, inline styles (['unsafe-inline']);
    [script-src] allows only the nonce.  The document has a single mount
    element, exactly one [script] element, which bears the nonce, and
    exactly one stylesheet [link].  ([<], [;] and blanks are assumed absent
    from the substituted texts where they would end a tag, a directive or
    a token.) *)
Theorem C7_markup_policy_and_skeleton (csp styleUri nonce scriptUri : string) :
  Text.free_of Text.is_semicolon csp = true ->
  Text.free_of Text.is_semicolon nonce = true ->
  Text.free_of Text.is_space nonce = true ->
  Text.free_of Text.is_lt csp = true -> Text.free_of Text.is_lt styleUri = true ->
  Text.free_of Text.is_lt nonce = true -> Text.free_of Text.is_lt scriptUri = true ->
  let doc := html_template csp styleUri nonce scriptUri in
  doc = chunk0 +:+ csp +:+ chunk1 +:+ nonce +:+ chunk2 +:+ styleUri +:+ chunk3 +:+ nonce +:+
        chunk4 +:+ scriptUri +:+ chunk5 /\
  Text.contains doc (meta_tag (csp_policy csp nonce)) /\
  Text.count_sub "<meta http-equiv" doc = 1 /\
  Text.parse_policy (csp_policy csp nonce) =
    [("default-src", ["'none'"]);
     ("style-src", Text.words csp ++ ["'unsafe-inline'"]);
     ("script-src", ["'nonce-" +:+ nonce +:+ "'"])] /\
  Text.contains doc mount_tag /\ Text.count_sub "<div" doc = 1 /\
  Text.contains doc (script_tag nonce scriptUri) /\ Text.count_sub "<script" doc = 1 /\
  Text.contains doc (link_tag styleUri) /\ Text.count_sub "<link" doc = 1 /\
  (forall w this o, objects w !! this = Some o ->
     exists token w',
       _getHtmlForWebview this w =
       Ok (html_template (cspSource (host w))
             (asWebviewUri (host w)
                (joinPath (host w) (_extensionUri o)
                   ["webview-ui"; "dist"; "assets"; "index.css"]))
             token
             (asWebviewUri (host w)
                (joinPath (host w) (_extensionUri o)
                   ["webview-ui"; "dist"; "assets"; "index.js"])),
           w')).
Proof.
  intros Hc1 Hn1 Hn2 Hc Hs Hn Hj doc. subst doc.
  split; [apply html_template_flat|].
  assert (Hpat : forall pat n,
            Text.no_straddle (String "<" pat) chunk0 = true ->
            Text.no_straddle (String "<" pat) chunk1 = true ->
            Text.no_straddle (String "<" pat) chunk2 = true ->
            Text.no_straddle (String "<" pat) chunk3 = true ->
            Text.no_straddle (String "<" pat) chunk4 = true ->
            Text.count_sub (String "<" pat) chunk0 + Text.count_sub (String "<" pat) chunk1 +
            Text.count_sub (String "<" pat) chunk2 + Text.count_sub (String "<" pat) chunk3 +
            Text.count_sub (String "<" pat) chunk4 + Text.count_sub (String "<" pat) chunk5 = n ->
            Text.count_sub (String "<" pat) (html_template csp styleUri nonce scriptUri) = n).
  { intros pat n H0 H1 H2 H3 H4 <-. by apply count_in_template. }
  split.
  { rewrite html_template_lines. find_piece. }
  split; [apply Hpat; vm_compute; reflexivity|].
  split; [by apply parse_policy_csp|].
  split; [rewrite html_template_lines; find_piece|].
  split; [apply Hpat; vm_compute; reflexivity|].
  split; [rewrite html_template_lines; find_piece|].
  split; [apply Hpat; vm_compute; reflexivity|].
  split; [rewrite html_template_lines; find_piece|].
  split; [apply Hpat; vm_compute; reflexivity|].
  intros w this o Ho. eexists _, _. by apply getHtmlForWebview_run.
Qed.

Lemma C7_witness :
  Text.parse_policy
    (csp_policy (cspSource demo_host) "0123456789abcdef0123456789abcdef") =
    [("default-src", ["'none'"]);
     ("style-src", ["'self'"; "https://*.vscode-cdn.net"; "'unsafe-inline'"]);
     ("script-src", ["'nonce-0123456789abcdef0123456789abcdef'"])] /\
  Text.count_sub "<script"
    (html_template (cspSource demo_host) "https://host/index.css"
       "0123456789abcdef0123456789abcdef" "https://host/index.js") = 1.
Proof.
  pose proof (C7_markup_policy_and_skeleton (cspSource demo_host) "https://host/index.css"
                "0123456789abcdef0123456789abcdef" "https://host/index.js"
                eq_refl eq_refl eq_refl eq_refl eq_refl eq_refl eq_refl)
    as (_ & _ & _ & Hpolicy & _ & _ & _ & Hscript & _ & _ & _).
  split; [exact Hpolicy | exact Hscript].
Defined.

(** C7, as stated, fails: the sources the policy allows for styles are not
    only those of the bundle ([cspSource]); inline styles are allowed
    too. *)
Lemma C7_counterexample :
  Text.directive "style-src"
    (Text.parse_policy
       (csp_policy (cspSource demo_host) "0123456789abcdef0123456789abcdef"))
  <> Some (Text.words (cspSource demo_host)) /\
  exists sources,
    Text.directive "style-src"
      (Text.parse_policy
         (csp_policy (cspSource demo_host) "0123456789abcdef0123456789abcdef"))
    = Some sources /\
    In "'unsafe-inline'" sources.
Proof.
  split; [vm_compute; discriminate|].
  eexists. split; [vm_compute; reflexivity|]. simpl. auto.
Qed.

(** * Further properties of the code *)

(** ** How a step changes the store *)

(** The effect of the listener: nothing, one notification or one reply. *)
Lemma onMessage_effects this m w w' :
  onMessage this m w = Ok (tt, w') ->
  exists evs, w' = with_trace (trace w ++ evs) w /\
    (evs = [] \/ (exists v, evs = [ShowInformationMessage v]) \/
     (exists p, evs = [PostMessage p dataResponse])).
Proof.
  intros H. destruct (Js.get m "command") as [c|] eqn:Hc.
  2:{ rewrite onMessage_nullish in H by done. discriminate. }
  destruct (Js.strict_eq_str c "alert") eqn:Ha.
  { apply strict_eq_str_true in Ha. subst c.
    destruct (get_defined m "command" _ "text" Hc) as [t Ht].
    rewrite (onMessage_alert _ _ t) in H by done. inversion H. eauto 6. }
  destruct (Js.strict_eq_str c "getData") eqn:Hg.
  { apply strict_eq_str_true in Hg. subst c.
    destruct (objects w !! this) as [o|] eqn:Ho.
    - rewrite (onMessage_getData _ _ o) in H by done. inversion H. eauto 6.
    - unfold onMessage in H. revert H. run. rewrite Hc. run. rewrite Ho. discriminate. }
  apply strict_eq_str_false in Ha, Hg.
  rewrite (onMessage_other _ _ c) in H by done. inversion H. exists []. split; [|auto].
  destruct w'. unfold with_trace. simpl. by rewrite app_nil_r.
Qed.

Lemma step_cases fuel ev w w' :
  Inv w -> step fuel ev w = Ok (tt, w') -> transition ev w w'.
Proof.
  intros HI Hstep. destruct ev as [uri|ed'|p|p m|]; simpl in Hstep.
  - destruct HI as [os ps ss ed rnd cur h tr Hps Hss Hos|os ps ss pn uri0 ed rnd cur h tr Hps Hss Hos Hpn].
    + rewrite createOrShow_closed in Hstep. injection Hstep as <-.
      by eapply tr_open.
    + rewrite createOrShow_open in Hstep. injection Hstep as <-.
      apply (tr_quiet _ _ _ ed [Reveal (length ps) (column_of ed)]); [by repeat constructor|done].
  - injection Hstep as <-. apply (tr_quiet _ _ _ ed' []); [constructor|].
    destruct w. unfold with_trace, with_activeTextEditor. simpl. by rewrite app_nil_r.
  - destruct HI as [os ps ss ed rnd cur h tr Hps Hss Hos|os ps ss pn uri ed rnd cur h tr Hps Hss Hos Hpn].
    + unfold closed_world in Hstep. destruct (ps !! p) as [pn|] eqn:Hp.
      * rewrite (close_released _ _ pn) in Hstep; [| done |].
        -- injection Hstep as <-.
           apply (tr_quiet _ _ _ ed [PanelDispose p]); [by repeat constructor|done].
        -- by eapply (Forall_lookup_1 released).
      * rewrite close_dangling in Hstep by done. discriminate.
    + destruct (decide (p < length ps)) as [Hlt|Hge].
      * destruct (lookup_lt_is_Some_2 ps p Hlt) as [pn' Hp].
        unfold open_world in Hstep.
        rewrite (close_released _ _ pn') in Hstep.
        -- injection Hstep as <-.
           apply (tr_quiet _ _ _ ed [PanelDispose p]); [by repeat constructor|done].
        -- by rewrite lookup_app_l.
        -- by eapply (Forall_lookup_1 released).
      * destruct (decide (p = length ps)) as [->|Hne].
        -- destruct (decide (fuel < 3)) as [Hf|Hf].
           { by apply close_open_starved in Hstep. }
           destruct fuel as [|[|[|fuel]]]; try lia.
           rewrite close_open in Hstep by done. injection Hstep as <-.
           eapply (tr_teardown _ _ _ os ps ss pn uri ed rnd cur h tr [PanelDispose (length ps)]);
             [done|by right|done].
        -- unfold open_world in Hstep. rewrite close_dangling in Hstep; [discriminate|].
           apply lookup_ge_None. rewrite length_app. simpl. lia.
  - destruct HI as [os ps ss ed rnd cur h tr Hps Hss Hos|os ps ss pn uri ed rnd cur h tr Hps Hss Hos Hpn].
    + unfold closed_world in Hstep. revert Hstep. run. rewrite listeners_closed by done.
      run. intros Hstep. injection Hstep as <-.
      apply (tr_quiet _ _ _ ed []); [constructor|]. simpl. unfold with_trace, with_activeTextEditor.
      simpl. by rewrite app_nil_r.
    + unfold open_world in Hstep. revert Hstep. unfold bind at 1, gets.
      rewrite listeners_open by done.
      destruct (Nat.eqb (length ps) p).
      * cbn [fire call]. unfold bind at 1.
        destruct (onMessage _ _ _) as [[[] w1]|] eqn:Hm; [|discriminate].
        apply onMessage_effects in Hm as (evs & -> & Hevs). run. intros Hstep.
        injection Hstep as <-.
        apply (tr_quiet _ _ _ ed evs); [|done].
        destruct Hevs as [->|[[v ->]|[q ->]]]; by repeat constructor.
      * run. intros Hstep. injection Hstep as <-.
        apply (tr_quiet _ _ _ ed []); [constructor|]. simpl. unfold with_trace, with_activeTextEditor.
        simpl. by rewrite app_nil_r.
  - destruct HI as [os ps ss ed rnd cur h tr Hps Hss Hos|os ps ss pn uri ed rnd cur h tr Hps Hss Hos Hpn].
    + injection Hstep as <-.
      apply (tr_quiet _ _ _ ed []); [constructor|]. simpl. unfold with_trace, with_activeTextEditor.
      simpl. by rewrite app_nil_r.
    + revert Hstep. unfold bind at 1, gets. cbn [open_world currentPanel].
      intros Hstep.
      destruct (decide (fuel < 4)) as [Hf|Hf].
      { by apply (dispose_open_starved os ps ss pn uri ed rnd cur h tr) in Hstep. }
      destruct fuel as [|[|[|[|fuel]]]]; try lia.
      change (dispose (S (S (S (S fuel)))) (length os) (open_world os ps ss pn uri ed rnd cur h tr)
              = Ok (tt, w')) in Hstep.
      rewrite dispose_open in Hstep by done. injection Hstep as <-.
      eapply (tr_teardown _ _ _ os ps ss pn uri ed rnd cur h tr
                [AssignCurrentPanel None; PanelDispose (length ps)]); [done|by left|done].
Qed.

(** ** Bookkeeping over a whole run *)

Lemma count_app f a b : count f (a ++ b) = count f a + count f b.
Proof. unfold count. by rewrite List.filter_app, length_app. Qed.

Lemma count_quiet f evs :
  (forall e, is_quiet e = true -> f e = false) ->
  Forall (fun e => is_quiet e = true) evs -> count f evs = 0.
Proof.
  intros Hf. induction 1 as [|e evs He _ IH]; [done|].
  unfold count in *. simpl. by rewrite (Hf e He).
Qed.

Lemma ledger_step ev w w' : ledger w -> transition ev w w' -> ledger w'.
Proof.
  intros (Hc & Hs & Hd & Hn) [ed evs Hq ->|os ps ss ed rnd cur h tr uri _ -> ->
                              |os ps ss pn uri ed rnd cur h tr pre -> Hpre ->].
  - destruct w as [cp os ps ss ed0 rnd cur h tr]. unfold ledger in *. simpl in *.
    rewrite !count_app.
    rewrite (count_quiet is_create evs), (count_quiet is_subscribe evs);
      [|first [done|by intros []]..].
    split; [lia|]. split; [lia|]. split.
    + intros d s Hds. rewrite count_app, (count_quiet (is_dispose_of d) evs); [|by intros []|done].
      rewrite (Hd d s Hds). lia.
    + intros d Hlen. rewrite count_app, (count_quiet (is_dispose_of d) evs); [|by intros []|done].
      rewrite (Hn d Hlen). lia.
  - unfold ledger, closed_world, open_world, the_subs in *. simpl in *.
    rewrite !count_app, !length_app. simpl.
    split; [unfold count in *; simpl; lia|]. split; [unfold count in *; simpl; lia|].
    assert (Hnew : forall d, count (is_dispose_of d)
              [CreateWebviewPanel (length ps);
               SetHtml (length ps) (document h uri (nonce_from rnd cur 32));
               Subscribe (length ss); Subscribe (S (length ss));
               AssignCurrentPanel (Some (length os))] = 0) by done.
    split.
    + intros d s Hds. rewrite count_app, Hnew, Nat.add_0_r.
      destruct (decide (d < length ss)) as [Hlt|Hge].
      * rewrite lookup_app_l in Hds by done. by apply Hd.
      * rewrite Hn by lia.
        destruct (decide (d = length ss)) as [->|Hne].
        { rewrite lookup_snoc in Hds. by injection Hds as <-. }
        destruct (decide (d = S (length ss))) as [->|Hne2].
        { rewrite lookup_snoc_S in Hds. by injection Hds as <-. }
        rewrite lookup_ge_None_2 in Hds; [discriminate|]. rewrite length_app. simpl. lia.
    + intros d Hlen. rewrite count_app, Hnew, Nat.add_0_r. apply Hn. lia.
  - unfold ledger, closed_world, open_world, the_subs in *. simpl in *.
    rewrite !length_app in *. simpl in *.
    assert (Hpre0 : forall f, (forall e, is_quiet e = true -> f e = false) ->
              f (AssignCurrentPanel None) = false ->
              count f (tr ++ pre ++ [AssignCurrentPanel None; PanelDispose (length ps);
                         DisposableDispose (S (length ss)); DisposableDispose (length ss)]) =
              count f tr + count f [DisposableDispose (S (length ss)); DisposableDispose (length ss)]).
    { intros f Hf Ha. rewrite !count_app. f_equal.
      change [AssignCurrentPanel None; PanelDispose (length ps);
              DisposableDispose (S (length ss)); DisposableDispose (length ss)]
        with ([AssignCurrentPanel None; PanelDispose (length ps)] ++
              [DisposableDispose (S (length ss)); DisposableDispose (length ss)]).
      rewrite count_app.
      assert (count f pre = 0) as ->.
      { destruct Hpre as [->| ->]; unfold count; simpl; rewrite ?Ha, ?(Hf (PanelDispose _)); done. }
      unfold count at 1. simpl. rewrite Ha, (Hf (PanelDispose _)); done. }
    split; [rewrite Hpre0; [unfold count in *; simpl; lia|by intros []|done]|].
    split; [rewrite Hpre0; [unfold count in *; simpl; lia|by intros []|done]|].
    assert (Hlast : forall d, count (is_dispose_of d)
              [DisposableDispose (S (length ss)); DisposableDispose (length ss)] =
              (if Nat.eqb d (S (length ss)) then 1 else 0) + (if Nat.eqb d (length ss) then 1 else 0)).
    { intros d. unfold count. cbn -[Nat.eqb].
      destruct (Nat.eqb d (S (length ss))), (Nat.eqb d (length ss)); done. }
    split.
    + intros d s Hds. rewrite Hpre0; [|by intros []|done]. rewrite Hlast.
      destruct (decide (d < length ss)) as [Hlt|Hge].
      * rewrite lookup_app_l in Hds by done.
        rewrite (Hd d s) by (by rewrite lookup_app_l).
        rewrite (proj2 (Nat.eqb_neq d (S (length ss)))), (proj2 (Nat.eqb_neq d (length ss))) by lia.
        destruct (sub_active s); lia.
      * destruct (decide (d = length ss)) as [->|Hne].
        { rewrite lookup_snoc in Hds. injection Hds as <-.
          rewrite (Hd (length ss) _ (lookup_snoc _ _ _)).
          rewrite eqb_succ_r, Nat.eqb_refl. done. }
        destruct (decide (d = S (length ss))) as [->|Hne2].
        { rewrite lookup_snoc_S in Hds. injection Hds as <-.
          rewrite (Hd (S (length ss)) _ (lookup_snoc_S _ _ _ _)).
          rewrite eqb_succ_l, Nat.eqb_refl. done. }
        rewrite lookup_ge_None_2 in Hds; [discriminate|]. rewrite length_app. simpl. lia.
    + intros d Hlen. rewrite Hpre0; [|by intros []|done]. rewrite Hlast.
      rewrite Hn by lia.
      rewrite (proj2 (Nat.eqb_neq d (S (length ss)))), (proj2 (Nat.eqb_neq d (length ss))) by lia.
      done.
Qed.

Lemma ledger_initial h rnd ed : ledger (initial h rnd ed).
Proof. by repeat split. Qed.

(** X1. Over any run of the host process the trace and the tables agree:
    there were as many [createWebviewPanel] calls as there are views and as
    many registrations as there are disposables; a disposable whose
    listener is gone was disposed exactly once, one that is still
    subscribed never; so no disposable is ever disposed twice. *)
Theorem X1_no_double_dispose (w : World) :
  reachable w ->
  ledger w /\ (forall d, count (is_dispose_of d) (trace w) <= 1).
Proof.
  intros Hw.
  assert (Hl : ledger w).
  { induction Hw as [h rnd ed|w ev fuel w' Hw IH Hstep]; [apply ledger_initial|].
    eapply ledger_step; [exact IH|]. eapply step_cases; [|exact Hstep].
    by apply reachable_Inv. }
  split; [done|]. intros d. destruct Hl as (_ & _ & Hd & Hn).
  destruct (subscriptions w !! d) as [s|] eqn:Hds.
  - rewrite (Hd d s Hds). destruct (sub_active s); lia.
  - rewrite Hn; [lia|]. by apply lookup_ge_None.
Qed.

Lemma demo_closed_reachable : reachable demo_closed.
Proof.
  apply (reachable_run 4 [OpenPanelCommand "/ext"; UserClose 0] demo_initial); [constructor|].
  vm_compute. reflexivity.
Qed.

Lemma demo_reopened_reachable : reachable demo_reopened.
Proof.
  apply (reachable_run 4 [OpenPanelCommand "/ext"; DisposeCurrent; OpenPanelCommand "/ext"]
           demo_initial); [constructor|].
  vm_compute. reflexivity.
Qed.

Lemma X1_witness :
  reachable demo_reopened /\
  count (is_dispose_of 0) (trace demo_reopened) = 1 /\
  count (is_dispose_of 1) (trace demo_reopened) = 1 /\
  count (is_dispose_of 2) (trace demo_reopened) = 0 /\
  count (is_dispose_of 1) (trace demo_reopened) <= 1.
Proof.
  assert (H0 : subscriptions demo_reopened !! 0 = Some (mkSub 0 OnDidDispose (CbDispose 0) false))
    by (vm_compute; reflexivity).
  assert (H1 : subscriptions demo_reopened !! 1 =
               Some (mkSub 0 OnDidReceiveMessage (CbMessage 0) false))
    by (vm_compute; reflexivity).
  assert (H2 : subscriptions demo_reopened !! 2 = Some (mkSub 1 OnDidDispose (CbDispose 1) true))
    by (vm_compute; reflexivity).
  destruct (X1_no_double_dispose demo_reopened demo_reopened_reachable)
    as [(_ & _ & Hd & _) Hle].
  split; [exact demo_reopened_reachable|].
  split; [exact (Hd 0 _ H0)|]. split; [exact (Hd 1 _ H1)|]. split; [exact (Hd 2 _ H2)|].
  exact (Hle 1).
Defined.

(** ** The life cycle seen from the host *)

(** X2. When the user closes the view of the current panel, the listener
    of [onDidDispose] tears the panel down: [currentPanel] is [undefined]
    and no view is live.  Closing the same view once more changes nothing.
    The next [createOrShow] does not reveal the dead view: it creates one
    new view, with a new handle, and stores a new object; closing the old
    view yet again leaves that new panel as it is. *)
Theorem X2_close_then_reopen
        (w : World) (cp : InstId) (o : ExamplePanel) (fuel : nat) (uri : Uri) :
  reachable w -> currentPanel w = Some cp -> objects w !! cp = Some o -> 3 <= fuel ->
  exists w1 w2 new o2,
    step fuel (UserClose (_panel o)) w = Ok (tt, w1) /\
    currentPanel w1 = None /\ live_views w1 = [] /\
    step fuel (UserClose (_panel o)) w1 =
      Ok (tt, with_trace (trace w1 ++ [PanelDispose (_panel o)]) w1) /\
    createOrShow uri w1 = Ok (tt, w2) /\
    count is_create (effects_since w1 w2) = 1 /\
    currentPanel w2 = Some new /\ new <> cp /\ objects w2 !! new = Some o2 /\
    _panel o2 <> _panel o /\ length (live_views w2) = 1 /\
    step fuel (UserClose (_panel o)) w2 =
      Ok (tt, with_trace (trace w2 ++ [PanelDispose (_panel o)]) w2).
Proof.
  intros Hw Hcp Ho Hf. apply reachable_Inv in Hw.
  destruct fuel as [|[|[|fuel]]]; try lia.
  destruct Hw as [os ps ss ed rnd cur h tr Hps Hss Hos|os ps ss pn uri0 ed rnd cur h tr Hps Hss Hos Hpn];
    [discriminate|].
  cbn [open_world currentPanel objects] in Hcp, Ho. injection Hcp as <-.
  rewrite lookup_snoc in Ho. injection Ho as <-. cbn [the_object _panel].
  assert (Hps1 : Forall released (ps ++ [mark_disposed pn])).
  { apply Forall_app. split; [done|]. by repeat constructor. }
  eexists _, _, (length (os ++ [mkExamplePanel (length ps) uri0 []])), _.
  cbn [step]. rewrite close_open by done.
  split; [reflexivity|]. split; [reflexivity|].
  split; [by apply live_views_closed|].
  split.
  { unfold closed_world. apply (close_released _ _ (mark_disposed pn)); [apply lookup_snoc|done]. }
  rewrite createOrShow_closed.
  split; [reflexivity|].
  split; [by erewrite effects_since_ext by reflexivity|].
  split; [reflexivity|].
  split; [rewrite length_app; simpl; lia|].
  split; [cbn [open_world objects]; apply lookup_snoc|].
  split; [cbn [the_object _panel]; rewrite length_app; simpl; lia|].
  split; [by rewrite live_views_open|].
  unfold open_world. apply (close_released _ _ (mark_disposed pn)); [|done].
  cbn [panels]. rewrite lookup_app_l; [apply lookup_snoc|]. rewrite length_app. simpl. lia.
Qed.

Lemma X2_witness :
  (reachable demo_open /\ currentPanel demo_open = Some 0 /\
   objects demo_open !! 0 = Some (mkExamplePanel 0 "/ext" [0; 1]) /\ 3 <= 3) /\
  exists w1 w2,
    step 3 (UserClose 0) demo_open = Ok (tt, w1) /\ currentPanel w1 = None /\
    createOrShow "/ext" w1 = Ok (tt, w2) /\ length (live_views w2) = 1.
Proof.
  split; [split; [exact demo_open_reachable | repeat split; lia]|].
  destruct (X2_close_then_reopen demo_open 0 (mkExamplePanel 0 "/ext" [0; 1]) 3 "/ext"
              demo_open_reachable eq_refl eq_refl (le_n 3))
    as (w1 & w2 & new & o2 & H1 & H2 & _ & _ & H3 & _ & _ & _ & _ & _ & H4 & _).
  exists w1, w2. auto.
Defined.

(** X3. A message is handled only on the view of the current panel.  On
    any other view (a view torn down earlier, or any view when no panel is
    open) the delivery of a message, whatever it is, runs no listener:
    the store stays as it was. *)
Theorem X3_messages_only_on_current_view
        (w : World) (p : PanelId) (m : Js.value) (fuel : nat) :
  reachable w ->
  (forall cp o, currentPanel w = Some cp -> objects w !! cp = Some o -> _panel o <> p) ->
  step fuel (WebviewMessage p m) w = Ok (tt, w).
Proof.
  intros Hw Hp. apply reachable_Inv in Hw.
  destruct Hw as [os ps ss ed rnd cur h tr Hps Hss Hos|os ps ss pn uri ed rnd cur h tr Hps Hss Hos Hpn].
  - by apply deliver_closed.
  - rewrite deliver_open by done.
    destruct (Nat.eqb (length ps) p) eqn:Heq; [|done].
    apply Nat.eqb_eq in Heq.
    specialize (Hp (length os) (the_object ps ss uri) eq_refl).
    cbn [open_world objects] in Hp. rewrite lookup_snoc in Hp.
    by specialize (Hp eq_refl).
Qed.

Lemma X3_witness :
  reachable demo_closed /\
  step 0 (WebviewMessage 0 (Js.Obj [("command", Js.Str "getData")])) demo_closed =
  Ok (tt, demo_closed).
Proof.
  split; [exact demo_closed_reachable|].
  apply (X3_messages_only_on_current_view demo_closed 0 _ 0 demo_closed_reachable).
  intros cp o Hcp. discriminate Hcp.
Defined.

(** X4. [dispose()] clears [currentPanel] without looking at what it
    holds.  Called on an object that is not the current panel (one torn
    down before), it still sets [currentPanel] to [undefined], while the
    view of the panel that is open stays live; the next [createOrShow]
    then creates a second live view. *)
Theorem X4_stale_dispose_clears_singleton
        (w : World) (old cp : InstId) (o_old : ExamplePanel) (fuel : nat) (uri : Uri) :
  reachable w -> currentPanel w = Some cp -> old <> cp -> objects w !! old = Some o_old ->
  1 <= fuel ->
  exists w1 w2,
    dispose fuel old w = Ok (tt, w1) /\
    currentPanel w1 = None /\ panels w1 = panels w /\ length (live_views w1) = 1 /\
    createOrShow uri w1 = Ok (tt, w2) /\ length (live_views w2) = 2.
Proof.
  intros Hw Hcp Hne Ho Hf. apply reachable_Inv in Hw.
  destruct fuel as [|fuel]; [lia|].
  destruct Hw as [os ps ss ed rnd cur h tr Hps Hss Hos|os ps ss pn uri0 ed rnd cur h tr Hps Hss Hos Hpn];
    [discriminate|].
  cbn [open_world currentPanel objects] in Hcp, Ho. injection Hcp as <-.
  assert (Hlt : old < length os).
  { apply lookup_lt_Some in Ho. rewrite length_app in Ho. simpl in Ho. lia. }
  rewrite lookup_app_l in Ho by done.
  destruct (Forall_lookup_1 _ _ _ _ Hos Ho) as [Hds Hp].
  destruct (lookup_lt_is_Some_2 ps _ Hp) as [pn' Hpn'].
  eexists _, _.
  rewrite (dispose_stale fuel old o_old pn').
  2:{ cbn [open_world objects]. by rewrite lookup_app_l. }
  2:{ done. }
  2:{ cbn [open_world panels]. by rewrite lookup_app_l. }
  2:{ by eapply (Forall_lookup_1 released). }
  split; [reflexivity|]. split; [reflexivity|]. split; [reflexivity|].
  split.
  { unfold live_views. cbn. rewrite List.filter_app, filter_released by done.
    simpl. by rewrite Hpn. }
  change (with_trace (trace (open_world os ps ss pn uri0 ed rnd cur h tr) ++
                      [AssignCurrentPanel None; PanelDispose (_panel o_old)])
            (with_currentPanel None (open_world os ps ss pn uri0 ed rnd cur h tr)))
    with (closed_world (os ++ [the_object ps ss uri0]) (ps ++ [pn]) (ss ++ the_subs os ps)
            ed rnd cur h (tr ++ [AssignCurrentPanel None; PanelDispose (_panel o_old)])).
  rewrite createOrShow_closed. split; [reflexivity|].
  unfold live_views. cbn. rewrite !List.filter_app, filter_released by done.
  simpl. by rewrite Hpn.
Qed.

Lemma X4_witness :
  (reachable demo_reopened /\ currentPanel demo_reopened = Some 1 /\ 0 <> 1 /\
   objects demo_reopened !! 0 = Some (mkExamplePanel 0 "/ext" []) /\ 1 <= 1) /\
  exists w1 w2,
    dispose 1 0 demo_reopened = Ok (tt, w1) /\ currentPanel w1 = None /\
    createOrShow "/ext" w1 = Ok (tt, w2) /\ length (live_views w2) = 2.
Proof.
  split; [split; [exact demo_reopened_reachable | repeat split; lia]|].
  assert (Hne : 0 <> 1) by lia.
  destruct (X4_stale_dispose_clears_singleton demo_reopened 0 1 (mkExamplePanel 0 "/ext" []) 1
              "/ext" demo_reopened_reachable eq_refl Hne eq_refl (le_n 1))
    as (w1 & w2 & H1 & H2 & _ & _ & H3 & H4).
  exists w1, w2. auto.
Defined.

(** ** The loop of [dispose] and the listener, on any store *)

Lemma insert_snoc {A} (l : list A) (x y : A) (r : list A) :
  <[length l := y]> (l ++ x :: r) = l ++ y :: r.
Proof. induction l; simpl; [done|]. by f_equal. Qed.

Lemma dispose_loop_at ds fuel this cp objs p uri ps ss ed rnd cur h tr :
  objs !! this = Some (mkExamplePanel p uri ds) -> length ds < fuel ->
  dispose_loop fuel this (mkWorld cp objs ps ss ed rnd cur h tr) =
  Ok (tt, mkWorld cp (<[this := mkExamplePanel p uri []]> objs) ps
            (foldr (fun d => alter deactivate d) ss ds) ed rnd cur h
            (tr ++ List.map DisposableDispose (rev ds))).
Proof.
  intros Ho Hf.
  pose proof (take_drop_middle objs this _ Ho) as Hsplit.
  assert (Hlen : length (take this objs) = this).
  { apply length_take_le. apply lookup_lt_Some in Ho. lia. }
  set (os := take this objs) in *. set (os' := drop (S this) objs) in *.
  clearbody os os'. subst objs this.
  rewrite insert_snoc. by apply dispose_loop_run.
Qed.

Lemma count_disposals d ds :
  count (is_dispose_of d) (List.map DisposableDispose ds) =
  length (List.filter (Nat.eqb d) ds).
Proof.
  induction ds as [|x ds IH]; [done|]. unfold count in *. cbn -[Nat.eqb].
  destruct (Nat.eqb d x); simpl; by rewrite IH.
Qed.

Lemma filter_rev_length {A} (f : A -> bool) (l : list A) :
  length (List.filter f (rev l)) = length (List.filter f l).
Proof.
  induction l as [|x l IH]; [done|]. simpl.
  rewrite List.filter_app, length_app, IH. simpl. destruct (f x); simpl; lia.
Qed.

(** X5. On an object whose view the host has already disposed, [dispose()]
    releases whatever [_disposables] holds, however long the list: after
    clearing [currentPanel] and calling [_panel.dispose()], it disposes the
    entries from the last to the first, an entry as many times as it is in
    the list, and leaves the list empty; no other object and no view is
    touched. *)
Theorem X5_dispose_releases_any_list
        (w : World) (this : InstId) (o : ExamplePanel) (pn : WebviewPanel) (fuel : nat) :
  objects w !! this = Some o ->
  panels w !! _panel o = Some pn -> disposed pn = true ->
  length (_disposables o) < fuel ->
  exists w1,
    dispose fuel this w = Ok (tt, w1) /\
    effects_since w w1 =
      AssignCurrentPanel None :: PanelDispose (_panel o) ::
      List.map DisposableDispose (rev (_disposables o)) /\
    (forall d, count (is_dispose_of d) (effects_since w w1) =
               length (List.filter (Nat.eqb d) (_disposables o))) /\
    objects w1 = <[this := put_disposables [] o]> (objects w) /\
    panels w1 = panels w /\ currentPanel w1 = None.
Proof.
  intros Ho Hp Hpn Hf. destruct fuel as [|fuel]; [lia|].
  destruct w as [cp objs ps ss ed rnd cur h tr]. destruct o as [p uri ds].
  cbn [objects panels _panel _disposables] in *.
  eexists. rewrite dispose_S. run. rewrite Ho. run. rewrite Hp. run. rewrite Hpn. run.
  rewrite (dispose_loop_at ds (S fuel) this None objs p uri) by done.
  split; [reflexivity|].
  cbn [trace objects panels currentPanel]. rewrite <- !app_assoc, drop_app_length.
  split; [reflexivity|]. split; [|done].
  intros d.
  by rewrite !count_app, count_disposals, filter_rev_length.
Qed.

Lemma X5_witness :
  (objects demo_closing !! 0 = Some (mkExamplePanel 0 "/ext" [0; 1]) /\
   panels demo_closing !! 0 =
     Some (mark_disposed (the_panel demo_host "/ext" None "0123456789abcdef0123456789abcdef")) /\
   2 < 3) /\
  exists w1,
    dispose 3 0 demo_closing = Ok (tt, w1) /\
    effects_since demo_closing w1 =
      [AssignCurrentPanel None; PanelDispose 0; DisposableDispose 1; DisposableDispose 0] /\
    count (is_dispose_of 0) (effects_since demo_closing w1) = 1 /\
    count (is_dispose_of 1) (effects_since demo_closing w1) = 1 /\
    objects w1 !! 0 = Some (mkExamplePanel 0 "/ext" []).
Proof.
  assert (Ho : objects demo_closing !! 0 = Some (mkExamplePanel 0 "/ext" [0; 1]))
    by (vm_compute; reflexivity).
  assert (Hp : panels demo_closing !! 0 =
               Some (mark_disposed
                       (the_panel demo_host "/ext" None "0123456789abcdef0123456789abcdef")))
    by (vm_compute; reflexivity).
  split; [split; [exact Ho|split; [exact Hp|lia]]|].
  destruct (X5_dispose_releases_any_list demo_closing 0 (mkExamplePanel 0 "/ext" [0; 1])
              (mark_disposed (the_panel demo_host "/ext" None "0123456789abcdef0123456789abcdef"))
              3 Ho Hp eq_refl (le_n 3))
    as (w1 & H1 & H2 & H3 & H4 & _ & _).
  exists w1. split; [exact H1|]. split; [exact H2|].
  split; [exact (H3 0)|]. split; [exact (H3 1)|].
  rewrite H4. apply list_lookup_insert_eq. by apply lookup_lt_Some in Ho.
Defined.

(** X6. The listener of the host reads two properties of a message,
    [command] and [text], and nothing else of it: two messages that agree
    on both are handled alike.  When it returns it has made at most one
    call of the host, a notification or the reply, and has left the rest
    of the store (the singleton, the objects, the views, the
    subscriptions) as it was. *)
Theorem X6_listener_footprint (this : InstId) (m : Js.value) (w : World) :
  (forall m', Js.get m "command" = Js.get m' "command" ->
              Js.get m "text" = Js.get m' "text" ->
              onMessage this m w = onMessage this m' w) /\
  (forall w', onMessage this m w = Ok (tt, w') ->
     exists evs, w' = with_trace (trace w ++ evs) w /\ length evs <= 1 /\
       Forall (fun e => is_notification e = true \/ exists p, e = PostMessage p dataResponse) evs).
Proof.
  split.
  - intros m' Hc Ht. unfold onMessage, bind. by rewrite Hc, Ht.
  - intros w' H. apply onMessage_effects in H as (evs & -> & Hevs).
    exists evs. split; [done|].
    destruct Hevs as [->|[[v ->]|[p ->]]]; (split; [simpl; lia|]).
    + constructor.
    + constructor; [by left|constructor].
    + constructor; [right; by exists p|constructor].
Qed.

Lemma X6_witness :
  onMessage 0 (Js.Obj [("command", Js.Str "alert"); ("text", Js.Str "hi")]) demo_open =
  onMessage 0 (Js.Obj [("text", Js.Str "hi"); ("id", Js.Num 1); ("command", Js.Str "alert")])
    demo_open.
Proof.
  exact (proj1 (X6_listener_footprint 0 _ demo_open) _ eq_refl eq_refl).
Defined.

(** ** The hook of the webview *)

Lemma render_cases (st : Webview.state) :
  (Webview.apiRef st = None /\ Webview.acquired st = 0 /\ Webview.listeners st = 0) \/
  Webview.mounted st ->
  exists st', Webview.render st = Some st' /\ Webview.mounted st' /\
              Webview.app st' = Webview.app st /\ Webview.console st' = Webview.console st /\
              (Webview.mounted st -> st' = st).
Proof.
  destruct st as [a r n l c]. unfold Webview.mounted, Webview.render, Webview.useVSCodeApi,
    Webview.acquireVsCodeApi. simpl.
  intros [(-> & -> & ->)|(-> & -> & ->)]; simpl; eexists; (split; [reflexivity|]);
    repeat split; try done.
  by intros (? & _).
Qed.

Lemma listener_logs data st :
  same_page (fst (Webview.listener data st)) st /\
  exists more, Webview.console (fst (Webview.listener data st)) =
               Webview.console st ++ ("Received message from extension:", data) :: more.
Proof.
  unfold Webview.listener.
  destruct (Js.get data "command") as [c|]; [|split; [done|by exists []]].
  destruct (Js.strict_eq_str c "dataResponse"); [|split; [done|by exists []]].
  destruct (Js.get data "data") as [d|]; [|split; [done|by exists []]].
  split; [done|]. exists [("Data from extension:", d)]. simpl. by rewrite <- app_assoc.
Qed.

Lemma dispatch_same n data : forall st, same_page (Webview.dispatch n data st) st.
Proof.
  induction n as [|n IH]; intros st; [done|]. simpl.
  destruct (listener_logs data st) as [(H1 & H2 & H3 & H4) _].
  destruct (IH (fst (Webview.listener data st))) as (G1 & G2 & G3 & G4).
  repeat split; congruence.
Qed.

Lemma hook_invariant evs : forall st st',
  (Webview.apiRef st = None /\ Webview.acquired st = 0 /\ Webview.listeners st = 0) \/
  Webview.mounted st ->
  Webview.run evs st = Some st' ->
  (Webview.apiRef st' = None /\ Webview.acquired st' = 0 /\ Webview.listeners st' = 0) \/
  Webview.mounted st'.
Proof.
  induction evs as [|ev evs IH]; intros st st' Hst Hrun; simpl in Hrun; [by inversion Hrun; subst|].
  destruct (Webview.step ev st) as [st1|] eqn:Hstep; [|discriminate].
  apply (IH st1); [|done]. clear IH Hrun.
  destruct ev as [|s| | |data]; simpl in Hstep.
  - destruct (render_cases st Hst) as (st2 & Hr & Hm & _). right. congruence.
  - destruct (Webview.apiRef st) eqn:Hr; [|discriminate].
    destruct (render_cases (Webview.with_app (App.setMessage s) st)) as (st2 & Hr2 & Hm & _).
    { destruct Hst as [(? & _)|Hm]; [congruence|by right]. }
    right. congruence.
  - destruct (Webview.apiRef st) eqn:Hr; [|discriminate]. injection Hstep as <-.
    destruct Hst as [(? & _)|Hm]; [congruence|by right].
  - destruct (Webview.apiRef st) eqn:Hr; [|discriminate]. injection Hstep as <-.
    destruct Hst as [(? & _)|Hm]; [congruence|by right].
  - injection Hstep as <-.
    destruct (dispatch_same (Webview.listeners st) data st) as (_ & H2 & H3 & H4).
    unfold Webview.mounted in *. rewrite H2, H3, H4. done.
Qed.

(** X7. Over the life of a mounted component, whatever the user types and
    clicks, however often React renders and whatever the host sends, the
    hook has called [acquireVsCodeApi] at most once and has added as many
    message listeners as it made calls; a render never throws on the second
    acquisition, and a render of a page that is set up changes nothing. *)
Theorem X7_hook_acquires_once (evs : list Webview.event) (st : Webview.state) :
  Webview.run evs Webview.initial = Some st ->
  Webview.acquired st <= 1 /\ Webview.listeners st = Webview.acquired st /\
  (Webview.apiRef st = None <-> Webview.acquired st = 0) /\
  exists st', Webview.render st = Some st' /\ Webview.mounted st' /\
              (Webview.mounted st -> st' = st).
Proof.
  intros Hrun.
  assert (H : (Webview.apiRef st = None /\ Webview.acquired st = 0 /\ Webview.listeners st = 0) \/
              Webview.mounted st).
  { apply (hook_invariant evs Webview.initial); [by left|done]. }
  destruct (render_cases st H) as (st' & Hr & Hm & _ & _ & Hsame).
  split; [|split; [|split]].
  - destruct H as [(_ & -> & _)|(_ & -> & _)]; lia.
  - destruct H as [(_ & -> & ->)|(_ & -> & ->)]; lia.
  - destruct H as [(-> & -> & _)|(-> & -> & _)]; split; done.
  - by exists st'.
Qed.

Lemma X7_witness :
  exists st, Webview.run [Webview.Render; Webview.Change "a"; Webview.Change "ab";
                          Webview.Message Js.Null; Webview.Render] Webview.initial = Some st /\
             Webview.acquired st <= 1.
Proof.
  eexists. split; [reflexivity|].
  exact (proj1 (X7_hook_acquires_once
                  [Webview.Render; Webview.Change "a"; Webview.Change "ab";
                   Webview.Message Js.Null; Webview.Render] _ eq_refl)).
Defined.

Lemma step_user_same ev st1 st2 st1' :
  from_user ev = true -> same_page st1 st2 -> Webview.step ev st1 = Some st1' ->
  exists st2', Webview.step ev st2 = Some st2' /\ same_page st1' st2'.
Proof.
  intros Hev Hs Hstep. destruct st1 as [a1 r1 n1 l1 c1], st2 as [a2 r2 n2 l2 c2].
  unfold same_page in Hs. simpl in Hs. destruct Hs as (<- & <- & <- & <-).
  destruct ev as [|s| | |data]; [..|discriminate];
    unfold Webview.step, Webview.render, Webview.useVSCodeApi, Webview.acquireVsCodeApi in *;
    simpl in *; destruct r1; try discriminate; try destruct (Nat.eqb n1 0);
    try discriminate; injection Hstep as <-; eexists; (split; [reflexivity|]); done.
Qed.

Lemma run_without_messages evs : forall st1 st2 st1',
  same_page st1 st2 -> Webview.run evs st1 = Some st1' ->
  exists st2', Webview.run (List.filter from_user evs) st2 = Some st2' /\ same_page st1' st2'.
Proof.
  induction evs as [|ev evs IH]; intros st1 st2 st1' Hs Hrun; simpl in Hrun.
  - injection Hrun as <-. by exists st2.
  - destruct (Webview.step ev st1) as [st1a|] eqn:Hstep; [|discriminate].
    simpl. destruct (from_user ev) eqn:Hev.
    + destruct (step_user_same ev st1 st2 st1a Hev Hs Hstep) as (st2a & Hstep2 & Hs2).
      simpl. rewrite Hstep2. by apply (IH st1a).
    + destruct ev; try discriminate. simpl in Hstep. injection Hstep as <-.
      apply (IH (Webview.dispatch (Webview.listeners st1) data st1)); [|done].
      destruct (dispatch_same (Webview.listeners st1) data st1) as (H1 & H2 & H3 & H4).
      destruct Hs as (G1 & G2 & G3 & G4). repeat split; congruence.
Qed.

Lemma run_with_messages evs : forall st1 st2 st2',
  same_page st1 st2 -> Webview.run (List.filter from_user evs) st2 = Some st2' ->
  exists st1', Webview.run evs st1 = Some st1' /\ same_page st1' st2'.
Proof.
  induction evs as [|ev evs IH]; intros st1 st2 st2' Hs Hrun; simpl in Hrun.
  - injection Hrun as <-. by exists st1.
  - destruct (from_user ev) eqn:Hev.
    + simpl in Hrun. destruct (Webview.step ev st2) as [st2a|] eqn:Hstep; [|discriminate].
      assert (Hs' : same_page st2 st1) by (destruct Hs as (? & ? & ? & ?); by repeat split).
      destruct (step_user_same ev st2 st1 st2a Hev Hs' Hstep) as (st1a & Hstep1 & Hs1).
      simpl. rewrite Hstep1. apply (IH st1a st2a); [|done].
      destruct Hs1 as (? & ? & ? & ?); by repeat split.
    + destruct ev; try discriminate. simpl.
      apply (IH _ st2); [|done].
      destruct (dispatch_same (Webview.listeners st1) data st1) as (H1 & H2 & H3 & H4).
      destruct Hs as (G1 & G2 & G3 & G4). repeat split; congruence.
Qed.

(** X8. What the host sends never reaches the component: two histories of
    the page with the same renders, keystrokes and clicks, and any messages
    from the host in between, either both run, or neither does, and they
    end with the same input text, the same messages posted to the host and
    the same API; a message from the host, of any shape, never makes the
    page fail. *)
Theorem X8_host_messages_do_not_interfere
        (evs1 evs2 : list Webview.event) (st1 : Webview.state) :
  List.filter from_user evs1 = List.filter from_user evs2 ->
  Webview.run evs1 Webview.initial = Some st1 ->
  exists st2, Webview.run evs2 Webview.initial = Some st2 /\
    Webview.app st2 = Webview.app st1 /\ Webview.apiRef st2 = Webview.apiRef st1 /\
    Webview.listeners st2 = Webview.listeners st1.
Proof.
  intros Hev Hrun.
  destruct (run_without_messages evs1 Webview.initial Webview.initial st1) as (st0 & H0 & Hs0);
    [done|done|].
  rewrite Hev in H0.
  destruct (run_with_messages evs2 Webview.initial Webview.initial st0) as (st2 & H2 & Hs2);
    [done|done|].
  exists st2. split; [done|].
  destruct Hs0 as (? & ? & ? & ?), Hs2 as (? & ? & ? & ?). repeat split; congruence.
Qed.

Lemma X8_witness :
  exists st2,
    Webview.run [Webview.Render; Webview.Message Js.Null; Webview.Change "hi";
                 Webview.Message dataResponse; Webview.ClickSendAlert] Webview.initial
      = Some st2 /\
    Webview.app st2 =
      App.mkState "hi" [Js.Obj [("command", Js.Str "alert"); ("text", Js.Str "hi")]].
Proof.
  destruct (X8_host_messages_do_not_interfere
              [Webview.Render; Webview.Change "hi"; Webview.ClickSendAlert]
              [Webview.Render; Webview.Message Js.Null; Webview.Change "hi";
               Webview.Message dataResponse; Webview.ClickSendAlert]
              _ eq_refl eq_refl) as (st2 & H & Happ & _).
  exists st2. split; [exact H|exact Happ].
Defined.

(** ** The two sides together *)

Lemma deliver_current fuel w cp o m :
  reachable w -> currentPanel w = Some cp -> objects w !! cp = Some o ->
  step fuel (WebviewMessage (_panel o) m) w = (onMessage cp m;;; ret tt) w.
Proof.
  intros Hw Hcp Ho. apply reachable_Inv in Hw.
  destruct Hw as [os ps ss ed rnd cur h tr Hps Hss Hos|os ps ss pn uri ed rnd cur h tr Hps Hss Hos Hpn];
    [discriminate|].
  cbn [open_world currentPanel objects] in Hcp, Ho. injection Hcp as <-.
  rewrite lookup_snoc in Ho. injection Ho as <-. cbn [the_object _panel].
  by rewrite deliver_open, Nat.eqb_refl.
Qed.

Lemma exchange_click fuel w cp o st msg st1 ev w1 :
  reachable w -> currentPanel w = Some cp -> objects w !! cp = Some o ->
  Webview.step ev st = Some st1 ->
  App.posted (Webview.app st1) = App.posted (Webview.app st) ++ [msg] ->
  onMessage cp msg w = Ok (tt, w1) ->
  Channel.exchange fuel (_panel o) ev w st =
  Some (w1, Channel.deliver_all (Channel.replies (_panel o) (effects_since w w1)) st1).
Proof.
  intros Hw Hcp Ho Hstep Hposted Hmsg. unfold Channel.exchange.
  rewrite Hstep, Hposted, drop_app_length. cbn [List.map run_events].
  unfold bind at 1. rewrite (deliver_current fuel w cp o) by done.
  unfold bind at 1. rewrite Hmsg. reflexivity.
Qed.

Lemma replies_one p msg : Channel.replies p [PostMessage p msg] = [msg].
Proof. unfold Channel.replies. simpl. by rewrite Nat.eqb_refl. Qed.

(** X9. The round trip of Get Data.  On a page that is set up, showing the
    current panel of a reachable host, a click on Get Data posts one
    [getData] message; the host answers on the same view with one
    [dataResponse] and does nothing else; the page logs the message and
    then its [data], and keeps its input text: the answer is written to
    the console only. *)
Theorem X9_getData_round_trip
        (fuel : nat) (w : World) (cp : InstId) (o : ExamplePanel) (st : Webview.state) :
  reachable w -> currentPanel w = Some cp -> objects w !! cp = Some o ->
  Webview.mounted st ->
  exists st',
    Channel.exchange fuel (_panel o) Webview.ClickGetData w st =
      Some (with_trace (trace w ++ [PostMessage (_panel o) dataResponse]) w, st') /\
    Webview.console st' =
      Webview.console st ++
      [("Received message from extension:", dataResponse);
       ("Data from extension:", Js.Obj [("message", Js.Str "Hello from extension!")])] /\
    App.message (Webview.app st') = App.message (Webview.app st) /\
    App.posted (Webview.app st') =
      App.posted (Webview.app st) ++ [Js.Obj [("command", Js.Str "getData")]] /\
    same_page st' (Webview.with_app App.handleGetData st).
Proof.
  intros Hw Hcp Ho (Hr & Ha & Hl).
  exists (Webview.log "Data from extension:"
            (Js.Obj [("message", Js.Str "Hello from extension!")])
            (Webview.log "Received message from extension:" dataResponse
               (Webview.with_app App.handleGetData st))).
  split; [|destruct st as [a r n l cs]; simpl; by rewrite <- app_assoc].
  rewrite (exchange_click fuel w cp o st (Js.Obj [("command", Js.Str "getData")])
             (Webview.with_app App.handleGetData st) _
             (with_trace (trace w ++ [PostMessage (_panel o) dataResponse]) w));
    [|done|done|done| |done|by apply onMessage_getData].
  2:{ simpl. by rewrite Hr. }
  rewrite (effects_since_app w (trace w) [PostMessage (_panel o) dataResponse])
    by (by destruct w).
  rewrite replies_one.
  cbn [Channel.deliver_all Webview.with_app Webview.listeners]. by rewrite Hl.
Qed.

Lemma X9_witness :
  exists st',
    Channel.exchange 0 0 Webview.ClickGetData demo_open
      (Webview.mkState (App.mkState EmptyString []) (Some 0) 1 1 []) =
      Some (with_trace (trace demo_open ++ [PostMessage 0 dataResponse]) demo_open, st') /\
    Webview.console st' =
      [("Received message from extension:", dataResponse);
       ("Data from extension:", Js.Obj [("message", Js.Str "Hello from extension!")])].
Proof.
  destruct (X9_getData_round_trip 0 demo_open 0 (mkExamplePanel 0 "/ext" [0; 1])
              (Webview.mkState (App.mkState EmptyString []) (Some 0) 1 1 [])
              demo_open_reachable eq_refl eq_refl (conj eq_refl (conj eq_refl eq_refl)))
    as (st' & H1 & H2 & _).
  exists st'. split; [exact H1|exact H2].
Defined.

(** X10. The alert, end to end.  On a page that is set up, showing the
    current panel of a reachable host, a click on Send Alert makes the
    host show exactly one notification and post nothing back; the text
    shown is the input when there is one and 'Hello from webview!' when
    the input is empty, so it is never empty; the page logs nothing. *)
Theorem X10_alert_end_to_end
        (fuel : nat) (w : World) (cp : InstId) (o : ExamplePanel) (st : Webview.state) :
  reachable w -> currentPanel w = Some cp -> objects w !! cp = Some o ->
  Webview.mounted st ->
  exists t,
    Channel.exchange fuel (_panel o) Webview.ClickSendAlert w st =
      Some (with_trace (trace w ++ [ShowInformationMessage (Js.Str t)]) w,
            Webview.with_app App.handleSendMessage st) /\
    t <> EmptyString /\
    (App.message (Webview.app st) <> EmptyString -> t = App.message (Webview.app st)) /\
    (App.message (Webview.app st) = EmptyString -> t = "Hello from webview!").
Proof.
  intros Hw Hcp Ho (Hr & Ha & Hl).
  exists (Js.or_else (App.message (Webview.app st)) App.fallback).
  split.
  - rewrite (exchange_click fuel w cp o st
               (Js.Obj [("command", Js.Str "alert");
                        ("text", Js.Str (Js.or_else (App.message (Webview.app st)) App.fallback))])
               (Webview.with_app App.handleSendMessage st) _
               (with_trace (trace w ++
                  [ShowInformationMessage
                     (Js.Str (Js.or_else (App.message (Webview.app st)) App.fallback))]) w));
      [|done|done|done| |done|by apply onMessage_alert].
    2:{ simpl. by rewrite Hr. }
    by rewrite (effects_since_app w (trace w)
                  [ShowInformationMessage
                     (Js.Str (Js.or_else (App.message (Webview.app st)) App.fallback))])
      by (by destruct w).
  - unfold Js.or_else.
    destruct (String.eqb (App.message (Webview.app st)) EmptyString) eqn:He.
    + apply String.eqb_eq in He. split; [discriminate|]. split; [congruence|done].
    + apply String.eqb_neq in He. split; [done|]. split; [done|congruence].
Qed.

Lemma X10_witness :
  Channel.exchange 0 0 Webview.ClickSendAlert demo_open
    (Webview.mkState (App.mkState EmptyString []) (Some 0) 1 1 []) =
  Some (with_trace (trace demo_open ++
                    [ShowInformationMessage (Js.Str "Hello from webview!")]) demo_open,
        Webview.with_app App.handleSendMessage
          (Webview.mkState (App.mkState EmptyString []) (Some 0) 1 1 [])).
Proof.
  destruct (X10_alert_end_to_end 0 demo_open 0 (mkExamplePanel 0 "/ext" [0; 1])
              (Webview.mkState (App.mkState EmptyString []) (Some 0) 1 1 [])
              demo_open_reachable eq_refl eq_refl (conj eq_refl (conj eq_refl eq_refl)))
    as (t & H1 & _ & _ & H2).
  rewrite (H2 eq_refl) in H1. exact H1.
Defined.

(** ** The extension *)

Lemma createOrShow_returns uri w : Inv w -> exists w', createOrShow uri w = Ok (tt, w').
Proof.
  intros [os ps ss ed rnd cur h tr _ _ _|os ps ss pn uri0 ed rnd cur h tr _ _ _ _].
  - rewrite createOrShow_closed. eauto.
  - rewrite createOrShow_open. eauto.
Qed.

Lemma step_uris fuel ev w w' uri :
  Inv w -> step fuel ev w = Ok (tt, w') ->
  (forall u, ev = OpenPanelCommand u -> u = uri) ->
  Forall (fun o => _extensionUri o = uri) (objects w) ->
  Forall (fun o => _extensionUri o = uri) (objects w').
Proof.
  intros HI Hstep Hev Ho.
  destruct (step_cases fuel ev w w' HI Hstep)
    as [ed evs Hq ->|os ps ss ed rnd cur h tr u -> -> ->
        |os ps ss pn u ed rnd cur h tr pre -> Hpre ->].
  - by destruct w.
  - rewrite (Hev u eq_refl). cbn [open_world closed_world objects] in *.
    apply Forall_app. split; [done|]. by repeat constructor.
  - cbn [open_world closed_world objects] in *.
    rewrite Forall_app in Ho. destruct Ho as [Hos Hlast]. rewrite Forall_singleton in Hlast.
    apply Forall_app. split; [done|]. constructor; [exact Hlast|constructor].
Qed.

Lemma host_step_activated fuel ev uri pr pr' :
  (forall u, ev = OpenPanelCommand u -> u = uri) ->
  reachable (Extension.world pr) ->
  Forall (fun o => _extensionUri o = uri) (objects (Extension.world pr)) ->
  Extension.host_step fuel ev pr = Some pr' ->
  reachable (Extension.world pr') /\
  Forall (fun o => _extensionUri o = uri) (objects (Extension.world pr')) /\
  Extension.registry pr' = Extension.registry pr /\
  Extension.subscriptions pr' = Extension.subscriptions pr.
Proof.
  intros Hev Hw Ho Hstep. unfold Extension.host_step in Hstep.
  destruct (step fuel ev (Extension.world pr)) as [[[] w']|] eqn:Hs; [|discriminate].
  injection Hstep as <-. cbn [Extension.with_world Extension.world Extension.registry
                              Extension.subscriptions].
  split; [by eapply reach_step|]. split; [|done].
  eapply step_uris; [by apply reachable_Inv|exact Hs|done|done].
Qed.

Lemma run_activated fuel uri evs : forall pr pr' b,
  reachable (Extension.world pr) ->
  Forall (fun o => _extensionUri o = uri) (objects (Extension.world pr)) ->
  Extension.registry pr = [openPanel_registration uri b] ->
  Extension.subscriptions pr = [0] ->
  Extension.run fuel evs pr = Some pr' ->
  reachable (Extension.world pr') /\
  Forall (fun o => _extensionUri o = uri) (objects (Extension.world pr')) /\
  Extension.registry pr' = [openPanel_registration uri (b && negb (existsb is_shutdown evs))] /\
  Extension.subscriptions pr' = [0].
Proof.
  induction evs as [|ev evs IH]; intros pr pr' b Hw Ho Hreg Hsub Hrun; simpl in Hrun.
  - injection Hrun as <-. simpl. by rewrite andb_true_r.
  - destruct (Extension.step fuel ev pr) as [pr1|] eqn:Hstep; [|discriminate].
    assert (H1 : reachable (Extension.world pr1) /\
                 Forall (fun o => _extensionUri o = uri) (objects (Extension.world pr1)) /\
                 Extension.registry pr1 = [openPanel_registration uri (b && negb (is_shutdown ev))] /\
                 Extension.subscriptions pr1 = [0]).
    { destruct ev as [id|ed|p|p m|]; cbn [Extension.step is_shutdown negb] in *;
        rewrite ?andb_true_r, ?andb_false_r.
      - unfold Extension.executeCommand in Hstep. rewrite Hreg in Hstep.
        cbn [List.find] in Hstep.
        destruct (Extension.registered id (openPanel_registration uri b)); [|discriminate].
        cbn [openPanel_registration Extension.reg_callback Extension.run_command] in Hstep.
        change (createOrShow uri) with (step 0 (OpenPanelCommand uri)) in Hstep.
        rewrite <- Hreg, <- Hsub.
        apply (host_step_activated 0 (OpenPanelCommand uri)); [congruence|done|done|done].
      - rewrite <- Hreg, <- Hsub.
        by apply (host_step_activated fuel (FocusEditor ed)).
      - rewrite <- Hreg, <- Hsub.
        by apply (host_step_activated fuel (UserClose p)).
      - rewrite <- Hreg, <- Hsub.
        by apply (host_step_activated fuel (WebviewMessage p m)).
      - injection Hstep as <-.
        cbn [Extension.dispose_subscriptions Extension.deactivate Extension.console_log
             Extension.world Extension.registry Extension.subscriptions].
        rewrite Hreg, Hsub. done. }
    destruct H1 as (Hw1 & Ho1 & Hreg1 & Hsub1).
    destruct (IH pr1 pr' _ Hw1 Ho1 Hreg1 Hsub1 Hrun) as (Hw2 & Ho2 & Hreg2 & Hsub2).
    split; [done|]. split; [done|]. split; [|done].
    rewrite Hreg2. cbn [existsb]. rewrite negb_orb, andb_assoc. done.
Qed.

(** X11. The life of the extension.  [activate] registers the command
    'vscode-template.openPanel' and opens nothing.  Whatever happens
    afterwards (the command, focus changes, views closed by the user,
    messages, deactivation), the store of the panel code is one its events
    reach from the empty store, and every [ExamplePanel] object ever made
    carries the [extensionUri] of the context.  A command of the extension
    runs exactly when it is 'vscode-template.openPanel' and the
    subscriptions of the context have not been disposed; then it never
    throws. *)
Theorem X11_extension_lifecycle (uri : Uri) (h : Host) (rnd : nat -> Q) (ed : option TextEditor) :
  exists pr0,
    Extension.activate (Extension.loaded uri h rnd ed) = Some pr0 /\
    Extension.world pr0 = initial h rnd ed /\
    forall fuel evs pr, Extension.run fuel evs pr0 = Some pr ->
      reachable (Extension.world pr) /\
      Forall (fun o => _extensionUri o = uri) (objects (Extension.world pr)) /\
      forall id, is_Some (Extension.executeCommand id pr) <->
                 id = "vscode-template.openPanel" /\ existsb is_shutdown evs = false.
Proof.
  eexists. split; [reflexivity|]. split; [reflexivity|].
  intros fuel evs pr Hrun.
  apply (run_activated fuel uri evs _ pr true) in Hrun as (Hw & Ho & Hreg & Hsub);
    [|apply reach_initial|constructor|reflexivity|reflexivity].
  split; [done|]. split; [done|].
  intros id. unfold Extension.executeCommand. rewrite Hreg. cbn [List.find andb].
  unfold Extension.registered. cbn [openPanel_registration Extension.reg_id Extension.reg_active
                                    Extension.reg_callback Extension.run_command].
  destruct (String.eqb "vscode-template.openPanel" id) eqn:Hid.
  - apply String.eqb_eq in Hid. subst id.
    destruct (existsb is_shutdown evs); cbn [negb andb].
    + split; [by intros [? ?]|by intros [_ ?]].
    + destruct (createOrShow_returns uri (Extension.world pr)) as [w' Hc];
        [by apply reachable_Inv|].
      change (Extension.run_command (Extension.reg_callback (openPanel_registration uri true)))
        with (createOrShow uri).
      rewrite Hc. split; [done|by eexists].
  - apply String.eqb_neq in Hid. cbn [andb].
    split; [by intros [? ?]|]. intros [-> _]. done.
Qed.

Lemma X11_witness :
  exists pr0,
    Extension.activate (Extension.loaded "/ext" demo_host demo_random None) = Some pr0 /\
    forall pr,
      Extension.run 4 [Extension.Execute "vscode-template.openPanel"; Extension.Close 0;
                       Extension.Execute "vscode-template.openPanel"; Extension.Shutdown] pr0
        = Some pr ->
      Forall (fun o => _extensionUri o = "/ext") (objects (Extension.world pr)) /\
      ~ is_Some (Extension.executeCommand "vscode-template.openPanel" pr).
Proof.
  destruct (X11_extension_lifecycle "/ext" demo_host demo_random None)
    as (pr0 & Hact & _ & Hruns).
  exists pr0. split; [exact Hact|].
  intros pr Hrun. destruct (Hruns 4 _ pr Hrun) as (_ & Ho & Hcmd).
  split; [exact Ho|]. intros Hsome. apply Hcmd in Hsome as [_ Hsome]. discriminate.
Defined.

(** ** The template copies its inputs *)

Lemma in_pattern_here pre c s : in_pattern (pre +:+ String c s) c = true.
Proof.
  induction pre as [|a pre IH].
  - rewrite append_nil_l. unfold in_pattern. cbn [list_ascii_of_string existsb].
    by rewrite Ascii.eqb_refl.
  - rewrite append_cons. unfold in_pattern in *. cbn [list_ascii_of_string existsb].
    by rewrite IH, orb_true_r.
Qed.

Lemma all_in_pattern s : forall pre, Text.all_chars (in_pattern (pre +:+ s)) s = true.
Proof.
  induction s as [|c s IH]; intros pre; [done|]. cbn [Text.all_chars].
  rewrite in_pattern_here. cbn [andb].
  replace (pre +:+ String c s) with ((pre +:+ String c EmptyString) +:+ s); [apply IH|].
  by rewrite append_assoc, append_cons, append_nil_l.
Qed.

(** X12. The template copies its four inputs as they are, with no
    escaping.  For a pattern that cannot lie across a seam between the
    literal text and an input (as '<script', '<link', '<meta' and '<div'
    cannot), the document has as many occurrences as the literal text of
    the template, plus those of [cspSource], of the two locations, and
    twice those of the nonce: markup in an input arrives in the document
    as markup. *)
Theorem X12_template_copies_inputs (pat csp styleUri nonce scriptUri : string) :
  seam_free pat = true ->
  Text.count_sub pat (html_template csp styleUri nonce scriptUri) =
  Text.count_sub pat (html_template EmptyString EmptyString EmptyString EmptyString) +
  Text.count_sub pat csp + Text.count_sub pat styleUri + 2 * Text.count_sub pat nonce +
  Text.count_sub pat scriptUri.
Proof.
  unfold seam_free. cbn [forallb]. rewrite !andb_true_iff.
  intros [(L0 & L1 & L2 & L3 & L4 & _) (S1 & S2 & S3 & S4 & S5 & _)].
  pose proof (all_in_pattern pat EmptyString) as Hpat. rewrite append_nil_l in Hpat.
  rewrite !html_template_flat, !append_nil_l.
  rewrite (count_app_literal pat chunk0 (chunk1 +:+ _)) by done.
  rewrite (count_app_literal pat chunk1 (chunk2 +:+ _)) by done.
  rewrite (count_app_literal pat chunk2 (chunk3 +:+ _)) by done.
  rewrite (count_app_literal pat chunk3 (chunk4 +:+ _)) by done.
  rewrite (count_app_literal pat chunk4 chunk5) by done.
  rewrite (count_app_literal pat chunk0 (csp +:+ _)) by done.
  rewrite (count_app_starts (in_pattern pat) pat csp) by (first [exact Hpat|exact S1]).
  rewrite (count_app_literal pat chunk1 (nonce +:+ _)) by done.
  rewrite (count_app_starts (in_pattern pat) pat nonce (chunk2 +:+ _))
    by (first [exact Hpat|exact S2]).
  rewrite (count_app_literal pat chunk2 (styleUri +:+ _)) by done.
  rewrite (count_app_starts (in_pattern pat) pat styleUri) by (first [exact Hpat|exact S3]).
  rewrite (count_app_literal pat chunk3 (nonce +:+ _)) by done.
  rewrite (count_app_starts (in_pattern pat) pat nonce (chunk4 +:+ _))
    by (first [exact Hpat|exact S4]).
  rewrite (count_app_literal pat chunk4 (scriptUri +:+ _)) by done.
  rewrite (count_app_starts (in_pattern pat) pat scriptUri) by (first [exact Hpat|exact S5]).
  lia.
Qed.

Lemma X12_witness :
  seam_free "<script" = true /\
  forall csp styleUri nonce scriptUri,
    Text.count_sub "<script" (html_template csp styleUri nonce scriptUri) =
    1 + Text.count_sub "<script" csp + Text.count_sub "<script" styleUri +
    2 * Text.count_sub "<script" nonce + Text.count_sub "<script" scriptUri.
Proof.
  split; [vm_compute; reflexivity|].
  intros csp styleUri nonce scriptUri.
  exact (X12_template_copies_inputs "<script" csp styleUri nonce scriptUri eq_refl).
Defined.

(** ** The views of a run *)

Lemma views_step ev w w' : views_rendered w -> transition ev w w' -> views_rendered w'.
Proof.
  intros [Hcur Hviews] [ed evs Hq ->|os ps ss ed rnd cur h tr uri _ -> ->
                        |os ps ss pn uri ed rnd cur h tr pre -> Hpre ->].
  - by destruct w.
  - unfold views_rendered, closed_world, open_world in *. cbn [cursor panels host random] in *.
    split; [rewrite length_app; simpl; lia|].
    intros i pn Hi. destruct (decide (i < length ps)) as [Hlt|Hge].
    + rewrite lookup_app_l in Hi by done. by apply Hviews.
    + destruct (decide (i = length ps)) as [->|Hne].
      * rewrite lookup_snoc in Hi. injection Hi as <-. exists uri. by rewrite <- Hcur.
      * rewrite lookup_ge_None_2 in Hi; [discriminate|]. rewrite length_app. simpl. lia.
  - unfold views_rendered, closed_world, open_world in *. cbn [cursor panels host random] in *.
    rewrite length_app in *. split; [done|].
    intros i pn' Hi. destruct (decide (i < length ps)) as [Hlt|Hge].
    + rewrite lookup_app_l in Hi by done. apply Hviews. by rewrite lookup_app_l.
    + destruct (decide (i = length ps)) as [->|Hne].
      * rewrite lookup_snoc in Hi. injection Hi as <-.
        destruct (Hviews (length ps) pn (lookup_snoc _ _ _)) as (u & H1 & H2 & H3 & H4).
        by exists u.
      * rewrite lookup_ge_None_2 in Hi; [discriminate|]. rewrite length_app. simpl. lia.
Qed.

Lemma filter_quiet f evs :
  (forall e, is_quiet e = true -> f e = false) ->
  Forall (fun e => is_quiet e = true) evs -> List.filter f evs = [].
Proof.
  intros Hf. induction 1 as [|e evs He _ IH]; [done|].
  simpl. by rewrite (Hf e He).
Qed.

Lemma rendered_once_step ev w w' : rendered_once w -> transition ev w w' -> rendered_once w'.
Proof.
  intros [Hset Hnone] [ed evs Hq ->|os ps ss ed rnd cur h tr uri _ -> ->
                       |os ps ss pn uri ed rnd cur h tr pre -> Hpre ->].
  - destruct w as [cp os ps ss ed0 rnd cur h tr]. unfold rendered_once in *.
    cbn [with_trace with_activeTextEditor panels trace currentPanel objects subscriptions
         activeTextEditor random cursor host] in *.
    split.
    + intros i pn Hi. rewrite List.filter_app, (filter_quiet (is_render_of i) evs), app_nil_r;
        [by apply Hset|by intros []|done].
    + intros i Hi. rewrite List.filter_app, (filter_quiet (is_render_of i) evs), app_nil_r;
        [by apply Hnone|by intros []|done].
  - unfold rendered_once, closed_world, open_world in *. cbn [panels trace] in *.
    split.
    + intros i pn Hi. rewrite List.filter_app.
      destruct (decide (i < length ps)) as [Hlt|Hge].
      * rewrite lookup_app_l in Hi by done. rewrite (Hset i pn Hi). cbn [List.filter is_render_of].
        rewrite (proj2 (Nat.eqb_neq i (length ps))) by lia. done.
      * destruct (decide (i = length ps)) as [->|Hne].
        -- rewrite lookup_snoc in Hi. injection Hi as <-.
           rewrite Hnone by lia. cbn [List.filter is_render_of]. by rewrite Nat.eqb_refl.
        -- rewrite lookup_ge_None_2 in Hi; [discriminate|]. rewrite length_app. simpl. lia.
    + intros i Hi. rewrite length_app in Hi. simpl in Hi.
      rewrite List.filter_app, Hnone by lia. cbn [List.filter is_render_of].
      rewrite (proj2 (Nat.eqb_neq i (length ps))) by lia. done.
  - unfold rendered_once, closed_world, open_world in *. cbn [panels trace] in *.
    assert (Hpre' : forall i, List.filter (is_render_of i)
              (pre ++ [AssignCurrentPanel None; PanelDispose (length ps);
                       DisposableDispose (S (length ss)); DisposableDispose (length ss)]) = [])
      by (intros i; by destruct Hpre as [-> | ->]).
    split.
    + intros i pn' Hi. rewrite List.filter_app, Hpre', app_nil_r.
      destruct (decide (i < length ps)) as [Hlt|Hge].
      * rewrite lookup_app_l in Hi by done. apply Hset. by rewrite lookup_app_l.
      * destruct (decide (i = length ps)) as [->|Hne].
        -- rewrite lookup_snoc in Hi. injection Hi as <-.
           apply (Hset (length ps) pn). apply lookup_snoc.
        -- rewrite lookup_ge_None_2 in Hi; [discriminate|]. rewrite length_app. simpl. lia.
    + intros i Hi. rewrite List.filter_app, Hpre', app_nil_r. apply Hnone.
      rewrite length_app in *. done.
Qed.

Lemma view_step ev w w' i pn :
  transition ev w w' -> panels w !! i = Some pn ->
  exists pn', panels w' !! i = Some pn' /\ same_view pn pn'.
Proof.
  intros [ed evs Hq ->|os ps ss ed rnd cur h tr uri _ -> ->
          |os ps ss pn0 uri ed rnd cur h tr pre -> Hpre ->] Hi.
  - exists pn. split; [by destruct w|by repeat split].
  - cbn [closed_world open_world panels] in *. exists pn.
    split; [|by repeat split]. rewrite lookup_app_l; [done|]. by apply lookup_lt_Some in Hi.
  - cbn [closed_world open_world panels] in *.
    destruct (decide (i < length ps)) as [Hlt|Hge].
    + rewrite lookup_app_l in Hi by done. exists pn. split; [|by repeat split].
      by rewrite lookup_app_l.
    + destruct (decide (i = length ps)) as [->|Hne].
      * rewrite lookup_snoc in Hi. injection Hi as <-. exists (mark_disposed pn0).
        split; [apply lookup_snoc|by repeat split].
      * rewrite lookup_ge_None_2 in Hi; [discriminate|]. rewrite length_app. simpl. lia.
Qed.

Lemma view_run fuel i evs : forall w w' pn,
  reachable w -> run_events fuel evs w = Ok (tt, w') -> panels w !! i = Some pn ->
  exists pn', panels w' !! i = Some pn' /\ same_view pn pn'.
Proof.
  induction evs as [|ev evs IH]; intros w w' pn Hw Hrun Hi; cbn [run_events] in Hrun.
  - injection Hrun as <-. exists pn. split; [done|by repeat split].
  - unfold bind in Hrun. destruct (step fuel ev w) as [[[] w1]|] eqn:Hstep; [|discriminate].
    destruct (view_step ev w w1 i pn) as (pn1 & Hi1 & Hs1);
      [eapply step_cases; [by apply reachable_Inv|exact Hstep]|done|].
    destruct (IH w1 w' pn1) as (pn' & Hi' & Hs'); [by eapply reach_step|done|done|].
    exists pn'. split; [done|].
    destruct Hs1 as (? & ? & ? & ? & ?), Hs' as (? & ? & ? & ? & ?).
    repeat split; congruence.
Qed.

(** X13. Every view the extension ever asked the host for, open or closed,
    is an 'examplePanel' titled 'Example Panel', with scripts enabled, its
    context retained when hidden and its local resources limited to [out]
    and [webview-ui/dist] of some extension location.  Its markup was
    written exactly once, by the constructor: the trace holds one write of
    [webview.html] for the view, and what the view holds is what that
    write gave it, the template filled in for that location.  Nothing that
    happens later replaces it: after any further events (the command that
    reveals the panel included) the view has the same markup, options,
    title and type. *)
Theorem X13_views_keep_their_document (w : World) (i : nat) (pn : WebviewPanel) :
  reachable w -> panels w !! i = Some pn ->
  (exists uri nonce,
     viewType pn = "examplePanel" /\ title pn = "Example Panel" /\
     options pn = mkOptions true true [joinPath (host w) uri ["out"];
                                       joinPath (host w) uri ["webview-ui/dist"]] /\
     html pn = html_template (cspSource (host w))
                 (asWebviewUri (host w)
                    (joinPath (host w) uri ["webview-ui"; "dist"; "assets"; "index.css"]))
                 nonce
                 (asWebviewUri (host w)
                    (joinPath (host w) uri ["webview-ui"; "dist"; "assets"; "index.js"]))) /\
  List.filter (is_render_of i) (trace w) = [SetHtml i (html pn)] /\
  (forall fuel evs w',
     run_events fuel evs w = Ok (tt, w') ->
     exists pn', panels w' !! i = Some pn' /\
       html pn' = html pn /\ options pn' = options pn /\
       title pn' = title pn /\ viewType pn' = viewType pn).
Proof.
  intros Hw Hi.
  assert (Hv : views_rendered w /\ rendered_once w).
  { clear Hi. induction Hw as [h rnd ed|w ev fuel w' Hw [IH1 IH2] Hstep].
    - split; [split; [done|intros j pn' Hj; discriminate]|].
      split; [intros j pn' Hj; discriminate|done].
    - assert (Htr : transition ev w w')
        by (eapply step_cases; [by apply reachable_Inv|exact Hstep]).
      split; [by eapply views_step|by eapply rendered_once_step]. }
  destruct Hv as [[_ Hv] [Hset _]].
  split; [|split].
  - destruct (Hv i pn Hi) as (uri & H1 & H2 & H3 & H4).
    by exists uri, (nonce_from (random w) (32 * i) 32).
  - by apply Hset.
  - intros fuel evs w' Hrun.
    destruct (view_run fuel i evs w w' pn Hw Hrun Hi) as (pn' & Hi' & H1 & H2 & _ & H4 & H5).
    by exists pn'.
Qed.

Lemma X13_witness :
  (reachable demo_reopened /\
   panels demo_reopened !! 1 =
     Some (the_panel demo_host "/ext" None "0123456789abcdef0123456789abcdef")) /\
  List.filter (is_render_of 1) (trace demo_reopened) =
    [SetHtml 1 (document demo_host "/ext" "0123456789abcdef0123456789abcdef")] /\
  exists w' pn',
    run_events 4 [OpenPanelCommand "/ext"; UserClose 1; OpenPanelCommand "/ext"] demo_reopened
      = Ok (tt, w') /\
    length (panels w') = 3 /\
    panels w' !! 1 = Some pn' /\
    html pn' = document demo_host "/ext" "0123456789abcdef0123456789abcdef".
Proof.
  assert (H1 : panels demo_reopened !! 1 =
               Some (the_panel demo_host "/ext" None "0123456789abcdef0123456789abcdef"))
    by (vm_compute; reflexivity).
  assert (Hrun : run_events 4 [OpenPanelCommand "/ext"; UserClose 1; OpenPanelCommand "/ext"]
                   demo_reopened =
                 Ok (tt, demo_after [OpenPanelCommand "/ext"; DisposeCurrent;
                                     OpenPanelCommand "/ext"; OpenPanelCommand "/ext";
                                     UserClose 1; OpenPanelCommand "/ext"]))
    by (vm_compute; reflexivity).
  destruct (X13_views_keep_their_document demo_reopened 1
              (the_panel demo_host "/ext" None "0123456789abcdef0123456789abcdef")
              demo_reopened_reachable H1) as (_ & Hset & Hkeep).
  split; [split; [exact demo_reopened_reachable|exact H1]|].
  split; [exact Hset|].
  destruct (Hkeep 4 _ _ Hrun) as (pn' & Hi' & Hh & _).
  eexists _, pn'. split; [exact Hrun|]. split; [vm_compute; reflexivity|].
  split; [exact Hi'|exact Hh].
Defined.

(** ** Where the nonce stands *)

(** X14. A nonce of 32 hexadecimal digits stands at two places of the
    document and nowhere else in the text of the template: in the
    [script-src] directive of the policy and in the [nonce] attribute of
    the [script] element.  It occurs twice, plus as often as [cspSource]
    or one of the two locations happens to hold it. *)
Theorem X14_nonce_stands_twice (csp styleUri nonce scriptUri : string) :
  Text.all_chars Text.is_hex nonce = true -> String.length nonce = 32 ->
  let doc := html_template csp styleUri nonce scriptUri in
  Text.count_sub nonce doc =
    2 + Text.count_sub nonce csp + Text.count_sub nonce styleUri +
    Text.count_sub nonce scriptUri /\
  Text.contains doc (meta_tag (csp_policy csp nonce)) /\
  Text.contains doc (script_tag nonce scriptUri).
Proof.
  intros Hhex Hlen doc. subst doc.
  split; [by apply count_nonce_in_template|].
  split; rewrite html_template_lines; find_piece.
Qed.

Lemma X14_witness :
  (Text.all_chars Text.is_hex "0123456789abcdef0123456789abcdef" = true /\
   String.length "0123456789abcdef0123456789abcdef" = 32) /\
  Text.count_sub "0123456789abcdef0123456789abcdef"
    (document demo_host "/ext" "0123456789abcdef0123456789abcdef") = 2.
Proof.
  split; [split; reflexivity|].
  unfold document.
  rewrite (proj1 (X14_nonce_stands_twice _ _ "0123456789abcdef0123456789abcdef" _
                    eq_refl eq_refl)).
  vm_compute. reflexivity.
Defined.
